(** * Seguimiento Chile Compra: extraction pipeline

    A shallow embedding of the TypeScript services of the repository
    (ChileCompraApiService, DatabaseService, EmailService and
    ExtractionService) together with the properties of the pipeline
    that the specification states about them.

    Conventions.
    - A JavaScript [number] that holds a count, an identifier, a page
      number or a time value is an integer [Z].
    - Asynchronous methods run sequentially (every call is awaited), so
      a method is a function from the world before the call to its
      outcome and the world after it.
    - The world carries the behaviour of the three remote parties
      (procurement API, MongoDB, mail endpoint), the mutable state of
      the process and the list of the I/O operations performed so far.
    - [console.log] and friends are not modelled. *)

From stdpp Require Import gmap strings list.
From Stdlib Require Import ZArith Ascii String Lia.

Local Open Scope string_scope.
Local Open Scope list_scope.
Local Open Scope Z_scope.

(** ** Data model (models/types.ts) *)

Record Oferta := {
  id : Z;
  codigo : string;
  nombre : string;
  fecha_publicacion : string;
  fecha_cierre : string;
  organismo : string;
  unidad : string;
  id_estado : Z;
  estado : string;
  monto_disponible : Z;
  moneda : string;
  monto_disponible_CLP : Z;
  fecha_cambio : option string;
  valor_cambio_moneda : option Z;
  cantidad_proveedores_cotizando : Z;
  estado_convocatoria : Z
}.

(** [OfertaDocument extends Oferta]: the fields of the offer followed by
    the extraction metadata.  A [Date] is its time value (milliseconds
    since the epoch). *)
Record OfertaDocument := {
  oferta_base :> Oferta;
  _id : option string;
  emprendimiento : string;
  endpoint_name : string;
  fecha_extraccion : Z;
  enlace_ficha : string
}.

(** ** ExtractionService.removeDuplicateOffers

    [ofertas.filter] visits the array from left to right; the callback
    reads and extends the [Set<number>] named [seen]. *)

Fixpoint filter_seen (seen : gset Z) (ofertas : list OfertaDocument)
  : list OfertaDocument :=
  match ofertas with
  | [] => []
  | oferta :: rest =>
      if decide (id oferta ∈ seen)
      then filter_seen seen rest
      else oferta :: filter_seen ({[ id oferta ]} ∪ seen) rest
  end.

Definition removeDuplicateOffers (ofertas : list OfertaDocument)
  : list OfertaDocument :=
  filter_seen ∅ ofertas.

(** The first element of [l] whose numeric id is [i]. *)
Definition first_with_id (i : Z) (l : list OfertaDocument)
  : option OfertaDocument :=
  find (fun o : OfertaDocument => bool_decide (id o = i)) l.

(** The numeric ids of a batch, in order. *)
Definition ids (l : list OfertaDocument) : list Z :=
  map (fun o : OfertaDocument => id o) l.

(** ** Errors, outcomes and the world *)

(** The values the program throws.  [code] is the numeric [error.code]
    the database service inspects; an Axios error carries the HTTP
    status of the response when there was one. *)
Inductive JsError :=
| Error (message : string)
| TypeError (message : string)
| AxiosError (message : string) (response_status : option Z)
| MongoError (code : option Z) (message : string).

Definition code (e : JsError) : option Z :=
  match e with
  | MongoError c _ => c
  | _ => None
  end.

Definition message (e : JsError) : string :=
  match e with
  | Error m | TypeError m | AxiosError m _ | MongoError _ m => m
  end.

(** What an HTTP request made through axios meets on the network. *)
Inductive HttpResult (A : Type) :=
| NetworkError
| Timeout
| Response (status : Z) (data : A).
Arguments NetworkError {A}.
Arguments Timeout {A}.
Arguments Response {A} status data.

(** [ApiResponse]: [payload] is absent in a malformed body; [trace] and
    [errores] are never read. *)
Record Payload := {
  resultCount : Z;
  pageCount : Z;
  page : Z;
  pageSize : Z;
  resultados : list Oferta
}.

Record ApiResponse := {
  success : string;
  payload : option Payload
}.

Record ApiQueryParams := {
  date_from : string;
  date_to : string;
  order_by : string;
  page_number : Z;
  status : Z;
  category : option string;
  region : option string;
  keywords : option string
}.

(** [Partial<ApiQueryParams>] *)
Module Partial.
Record t := {
  date_from : option string;
  date_to : option string;
  order_by : option string;
  page_number : option Z;
  status : option Z;
  category : option string;
  region : option string;
  keywords : option string
}.
End Partial.

(** The body of a generated e-mail.  Each template literal of
    email.service.ts is a constructor that carries, in order of
    appearance, the values interpolated into it. *)
Inductive Html :=
| EmptyReportHtml (emprendimiento fecha : string) (generated : Z)
| OfertasReportHtml (emprendimiento fecha : string)
    (rows : list OfertaDocument) (count : nat) (total : Z) (generated : Z)
| ErrorHtml (emprendimiento error_message : string) (generated : Z).

(** [EmailConfig]; only [to], [subject] and [html] are ever set when
    reports are sent, and [to] is then an array. *)
Record EmailConfig := {
  to : list string;
  subject : string;
  html : Html
}.

(** Failures of a MongoDB command other than a duplicate key. *)
Inductive StorageFault :=
| ConnectionLost
| ServerSelectionTimeout
| DocumentValidationFailure
| NotWritablePrimary
| Unauthorized.

Definition fault_error (f : StorageFault) : JsError :=
  match f with
  | ConnectionLost => MongoError None "connection closed"
  | ServerSelectionTimeout => MongoError None "Server selection timed out"
  | DocumentValidationFailure => MongoError (Some 121) "Document failed validation"
  | NotWritablePrimary => MongoError (Some 10107) "not primary"
  | Unauthorized => MongoError (Some 13) "not authorized"
  end.

Definition duplicate_key_error : JsError :=
  MongoError (Some 11000) "E11000 duplicate key error collection".

(** The I/O operations the program performs, in program order. *)
Inductive Event :=
| HttpGet (url : string) (params : ApiQueryParams)
| Sleep (ms : Z)
| HttpPost (url : string) (body : EmailConfig)
| MongoConnect
| MongoClose
| CreateIndex (index_name : string)
| InsertOne (doc : OfertaDocument).

(** The remote parties. [api] answers a page request, [mail] answers a
    delivery request, [toLocaleDateString] is the runtime's es-CL
    rendering of a date.  The answer to a request is taken to depend
    on the request only. *)
Record Env := {
  api : ApiQueryParams → HttpResult ApiResponse;
  mail : EmailConfig → HttpResult unit;
  toLocaleDateString : Z → string
}.

Record World := {
  env : Env;
  (** wall clock, milliseconds since the epoch *)
  clock : Z;
  trace : list Event;
  (** the [ofertas] collection of the MongoDB server, in insertion order *)
  ofertas_collection : list OfertaDocument;
  (** what the next storage commands meet: [None] lets the command
      through, [Some f] makes it fail with [f]; commands beyond the end
      of the schedule go through *)
  faults : list (option StorageFault);
  (** fields of the DatabaseService instance *)
  client : bool;
  db : bool;
  isConnected : bool
}.

Definition emit (e : Event) (w : World) : World :=
  {| env := env w; clock := clock w; trace := trace w ++ [e];
     ofertas_collection := ofertas_collection w; faults := faults w;
     client := client w; db := db w; isConnected := isConnected w |}.

Definition advance (ms : Z) (w : World) : World :=
  {| env := env w; clock := clock w + Z.max 0 ms; trace := trace w;
     ofertas_collection := ofertas_collection w; faults := faults w;
     client := client w; db := db w; isConnected := isConnected w |}.

Definition store (doc : OfertaDocument) (w : World) : World :=
  {| env := env w; clock := clock w; trace := trace w;
     ofertas_collection := ofertas_collection w ++ [doc];
     faults := faults w;
     client := client w; db := db w; isConnected := isConnected w |}.

Definition next_fault (w : World) : World :=
  {| env := env w; clock := clock w; trace := trace w;
     ofertas_collection := ofertas_collection w; faults := tail (faults w);
     client := client w; db := db w; isConnected := isConnected w |}.

Definition set_service (c d i : bool) (w : World) : World :=
  {| env := env w; clock := clock w; trace := trace w;
     ofertas_collection := ofertas_collection w; faults := faults w;
     client := c; db := d; isConnected := i |}.

(** ** Computations: state passing with exceptions *)

Inductive Result (A : Type) :=
| Return (a : A)
| Throw (e : JsError).
Arguments Return {A} a.
Arguments Throw {A} e.

Definition M (A : Type) : Type := World → Result A * World.

Definition ret {A} (a : A) : M A := fun w => (Return a, w).

Definition throw {A} (e : JsError) : M A := fun w => (Throw e, w).

Definition bind {A B} (c : M A) (k : A → M B) : M B :=
  fun w =>
    match c w with
    | (Return a, w') => k a w'
    | (Throw e, w') => (Throw e, w')
    end.

(** [try { body } catch (error) { handler }] *)
Definition try_catch {A} (body : M A) (handler : JsError → M A) : M A :=
  fun w =>
    match body w with
    | (Return a, w') => (Return a, w')
    | (Throw e, w') => handler e w'
    end.

Definition perform (f : World → World) : M unit := fun w => (Return tt, f w).

Definition read {A} (f : World → A) : M A := fun w => (Return (f w), w).

Declare Scope js_scope.
Delimit Scope js_scope with js.
Notation "'let*' x := c 'in' k" := (bind c (fun x => k))
  (at level 10, x pattern, c at level 100, k at level 200) : js_scope.
Notation "c ;;; k" := (bind c (fun _ => k))
  (at level 100, k at level 200, right associativity) : js_scope.
Local Open Scope js_scope.

(** [new Date()] *)
Definition now : M Z := read clock.

(** [new Promise((resolve) => setTimeout(resolve, ms))] *)
Definition sleep (ms : Z) : M unit :=
  perform (fun w => advance ms (emit (Sleep ms) w)).

(** axios resolves on a 2xx status and rejects otherwise. *)
Definition axios_settle {A} (r : HttpResult A) : M (Z * A) :=
  match r with
  | NetworkError => throw (AxiosError "Network Error" None)
  | Timeout => throw (AxiosError "timeout of 30000ms exceeded" None)
  | Response s d =>
      if bool_decide (200 <= s < 300)
      then ret (s, d)
      else throw (AxiosError "Request failed with status code" (Some s))
  end.

(** ** DatabaseService (database.service.ts) *)

(** One storage command reaching the server: it consumes the head of
    the fault schedule. *)
Definition storage_command : M unit :=
  fun w =>
    match faults w with
    | Some f :: _ => (Throw (fault_error f), next_fault w)
    | _ => (Return tt, next_fault w)
    end.

(** The unique indexes of the collection: the compound index
    [unique_oferta_emprendimiento] on (id, emprendimiento) created by
    [createIndexes], and the built-in one on [_id].  A document without
    [_id] receives a fresh one from the driver, which collides with
    nothing. *)
Definition same_key (a b : OfertaDocument) : bool :=
  bool_decide (id a = id b) && bool_decide (emprendimiento a = emprendimiento b).

Definition same_object_id (a b : OfertaDocument) : bool :=
  match _id a with
  | Some x => bool_decide (_id b = Some x)
  | None => false
  end.

Definition violates_unique (doc : OfertaDocument)
    (stored : list OfertaDocument) : bool :=
  existsb (fun d => same_key doc d || same_object_id doc d) stored.

(** [collection.insertOne(doc)] *)
Definition insertOne (doc : OfertaDocument) : M unit :=
  perform (emit (InsertOne doc));;;
  storage_command;;;
  let* stored := read ofertas_collection in
  if violates_unique doc stored
  then throw duplicate_key_error
  else perform (store doc).

(** [collection.createIndex(...)] *)
Definition createIndex (index_name : string) : M unit :=
  perform (emit (CreateIndex index_name));;;
  storage_command.

Definition isConnectionActive : M bool :=
  read (fun w => isConnected w && client w).

Definition getOfertasCollection : M unit :=
  let* d := read db in
  if negb d then throw (Error "Base de datos no conectada") else ret tt.

Definition createIndexes : M unit :=
  try_catch
    (getOfertasCollection;;;
     createIndex "unique_oferta_emprendimiento";;;
     createIndex "fecha_extraccion_desc";;;
     createIndex "emprendimiento_index")
    (fun error => throw error).

Definition connect : M unit :=
  try_catch
    (perform (fun w => set_service true (db w) (isConnected w) w);;;
     perform (emit MongoConnect);;;
     storage_command;;;
     perform (fun w => set_service (client w) true (isConnected w) w);;;
     perform (fun w => set_service (client w) (db w) true w);;;
     createIndexes)
    (fun error => throw error).

Definition disconnect : M unit :=
  try_catch
    (let* c := read client in
     if c then
       perform (emit MongoClose);;;
       storage_command;;;
       perform (fun w => set_service (client w) (db w) false w)
     else ret tt)
    (fun error => throw error).

Record InsertCounts := {
  insertedCount : Z;
  duplicateCount : Z
}.

(** The [for (const oferta of ofertas)] loop of [insertOfertas], with
    its two counters. *)
Fixpoint insert_each (ofertas : list OfertaDocument)
    (inserted duplicate : Z) : M InsertCounts :=
  match ofertas with
  | [] => ret {| insertedCount := inserted; duplicateCount := duplicate |}
  | oferta :: rest =>
      let* counts :=
        try_catch
          (insertOne oferta;;; ret (inserted + 1, duplicate))
          (fun error =>
             if bool_decide (code error = Some 11000)
             then ret (inserted, duplicate + 1)
             else throw error) in
      insert_each rest (fst counts) (snd counts)
  end.

Definition insertOfertas (ofertas : list OfertaDocument) : M InsertCounts :=
  let* active := isConnectionActive in
  if negb active then throw (Error "Base de datos no conectada") else
  if bool_decide (List.length ofertas = 0%nat)
  then ret {| insertedCount := 0; duplicateCount := 0 |}
  else
    getOfertasCollection;;;
    insert_each ofertas 0 0.


(** The world right after the server has looked at an [insertOne]. *)
Definition attempted (doc : OfertaDocument) (w : World) : World :=
  next_fault (emit (InsertOne doc) w).

Definition pending_fault (w : World) : option StorageFault :=
  match faults w with
  | Some f :: _ => Some f
  | _ => None
  end.

(** The connection guard and the collection handle let the call through. *)
Definition ready (w : World) : Prop :=
  isConnected w = true ∧ client w = true ∧ db w = true.

(** ** ChileCompraApiService (chile-compra-api.service.ts) *)

Record ChileCompraApiService := {
  baseUrl : string;
  apiKey : string;
  delayBetweenRequests : Z
}.

(** [x || fallback] on an optional string: [undefined] and the empty
    string are falsy. *)
Definition string_or (x : option string) (fallback : string) : string :=
  match x with
  | Some s => if bool_decide (s = EmptyString) then fallback else s
  | None => fallback
  end.

(** [x || fallback] on an optional number: [undefined] and [0] are falsy. *)
Definition number_or (x : option Z) (fallback : Z) : Z :=
  match x with
  | Some n => if bool_decide (n = 0) then fallback else n
  | None => fallback
  end.

Definition falsy (x : option string) : bool :=
  match x with
  | Some s => bool_decide (s = EmptyString)
  | None => true
  end.

(** [{ ...params, page_number: n }] *)
Definition with_page (params : ApiQueryParams) (n : Z) : ApiQueryParams :=
  {| date_from := date_from params; date_to := date_to params;
     order_by := order_by params; page_number := n;
     status := status params; category := category params;
     region := region params; keywords := keywords params |}.

(** The object literal [firstPageParams] of [getAllOfertas]. *)
Definition firstPageParams (baseParams : Partial.t) (currentPage : Z)
  : ApiQueryParams :=
  {| date_from := string_or (Partial.date_from baseParams) EmptyString;
     date_to := string_or (Partial.date_to baseParams) EmptyString;
     order_by := string_or (Partial.order_by baseParams) "recent";
     page_number := currentPage;
     status := number_or (Partial.status baseParams) 2;
     category := Partial.category baseParams;
     region := Partial.region baseParams;
     keywords := Partial.keywords baseParams |}.

Definition undefined_payload : JsError :=
  TypeError "Cannot read properties of undefined".

(** *** Date validation

    [/^\d{4}-\d{2}-\d{2}$/]: a sequence of character classes, each
    repeated a fixed number of times, anchored at both ends. *)
Inductive CharClass :=
| Digit
| Literal (c : ascii).

Definition Regex : Type := list (CharClass * nat).

Definition is_digit (c : ascii) : bool :=
  (48 <=? nat_of_ascii c)%nat && (nat_of_ascii c <=? 57)%nat.

Definition class_matches (k : CharClass) (c : ascii) : bool :=
  match k with
  | Digit => is_digit c
  | Literal x => bool_decide (c = x)
  end.

(** Consumes [n] characters of class [k]; the rest of the input. *)
Fixpoint match_repeat (k : CharClass) (n : nat) (s : string) : option string :=
  match n with
  | O => Some s
  | S n' =>
      match s with
      | String c s' => if class_matches k c then match_repeat k n' s' else None
      | EmptyString => None
      end
  end.

Fixpoint match_sequence (r : Regex) (s : string) : option string :=
  match r with
  | [] => Some s
  | (k, n) :: r' =>
      match match_repeat k n s with
      | Some s' => match_sequence r' s'
      | None => None
      end
  end.

(** [regex.test(s)] for a pattern between [^] and [$]. *)
Definition test (r : Regex) (s : string) : bool :=
  match match_sequence r s with
  | Some EmptyString => true
  | _ => false
  end.

Definition dateRegex : Regex :=
  [(Digit, 4%nat); (Literal "-", 1%nat); (Digit, 2%nat);
   (Literal "-", 1%nat); (Digit, 2%nat)].

(** Time values, after ECMAScript: [DayFromYear], [InLeapYear] and
    [MakeDay] are the abstract operations of the standard. *)
Definition msPerDay : Z := 86400000.

Definition DayFromYear (y : Z) : Z :=
  365 * (y - 1970) + (y - 1969) / 4 - (y - 1901) / 100 + (y - 1601) / 400.

Definition InLeapYear (y : Z) : bool :=
  (y mod 4 =? 0) && (negb (y mod 100 =? 0) || (y mod 400 =? 0)).

(** Days of the year before month [m] (0 is January). *)
Definition days_before_month (leap : bool) (m : Z) : Z :=
  let l := if leap then 1 else 0 in
  match m with
  | 0 => 0
  | 1 => 31
  | 2 => 59 + l
  | 3 => 90 + l
  | 4 => 120 + l
  | 5 => 151 + l
  | 6 => 181 + l
  | 7 => 212 + l
  | 8 => 243 + l
  | 9 => 273 + l
  | 10 => 304 + l
  | _ => 334 + l
  end.

Definition MakeDay (year month date : Z) : Z :=
  let ym := year + month / 12 in
  let mn := month mod 12 in
  DayFromYear ym + days_before_month (InLeapYear ym) mn + date - 1.

Definition digit_value (c : ascii) : Z := Z.of_nat (nat_of_ascii c) - 48.

Fixpoint decimal_from (acc : Z) (s : string) : Z :=
  match s with
  | EmptyString => acc
  | String c s' => decimal_from (10 * acc + digit_value c) s'
  end.

Definition decimal (s : string) : Z := decimal_from 0 s.

(** [new Date(s)] on a date-only string, as the V8 runtime of Node.js
    reads it: UTC midnight of the day; the month must lie in 1..12 and
    the day in 1..31, a day beyond the end of the month rolls over into
    the next one.  [None] is [Invalid Date].  The service only builds a
    [Date] from a string that has passed [dateRegex]; other strings are
    not modelled and read as invalid. *)
Definition Date_parse (s : string) : option Z :=
  if test dateRegex s then
    let y := decimal (substring 0 4 s) in
    let m := decimal (substring 5 2 s) in
    let d := decimal (substring 8 2 s) in
    if (1 <=? m) && (m <=? 12) && (1 <=? d) && (d <=? 31)
    then Some (MakeDay y (m - 1) d * msPerDay)
    else None
  else None.

(** [a > b] on two [Date]s: a comparison with [NaN] is false. *)
Definition date_gt (a b : option Z) : bool :=
  match a, b with
  | Some x, Some y => y <? x
  | _, _ => false
  end.

(** What the specification says about the two bounds of a query. *)
Definition missing (x : option string) : Prop :=
  x = None ∨ x = Some EmptyString.

Definition calendar_format (s : string) : Prop :=
  ∃ y1 y2 y3 y4 m1 m2 d1 d2 : ascii,
    Forall (fun c => is_digit c = true) [y1; y2; y3; y4; m1; m2; d1; d2]
    ∧ s = String y1 (String y2 (String y3 (String y4 (String "-"
          (String m1 (String m2 (String "-"
          (String d1 (String d2 EmptyString))))))))).

Definition later (a b : string) : Prop :=
  ∃ ta tb, Date_parse a = Some ta ∧ Date_parse b = Some tb ∧ tb < ta.

(** A bound is missing, or is not in calendar-date format, or the start
    lies after the end. *)
Definition bad_date_range (date_from date_to : option string) : Prop :=
  missing date_from ∨ missing date_to
  ∨ ∃ a b, date_from = Some a ∧ date_to = Some b
           ∧ (¬ calendar_format a ∨ ¬ calendar_format b ∨ later a b).

(** The civil date written in a string of calendar-date format. *)
Definition year_of (s : string) : Z := decimal (substring 0 4 s).
Definition month_of (s : string) : Z := decimal (substring 5 2 s).
Definition day_of (s : string) : Z := decimal (substring 8 2 s).

Definition days_in_month (y m : Z) : Z :=
  match m with
  | 2 => if InLeapYear y then 29 else 28
  | 4 | 6 | 9 | 11 => 30
  | _ => 31
  end.

(** The string names a day that exists in the calendar. *)
Definition real_calendar_date (s : string) : Prop :=
  calendar_format s
  ∧ 1 <= month_of s <= 12
  ∧ 1 <= day_of s <= days_in_month (year_of s) (month_of s).

(** Calendar order on the (year, month, day) written in two strings. *)
Definition chronologically_after (a b : string) : Prop :=
  year_of b < year_of a
  ∨ year_of b = year_of a
    ∧ (month_of b < month_of a
       ∨ month_of b = month_of a ∧ day_of b < day_of a).

Section ApiService.

Variable this : ChileCompraApiService.

Definition endpoint_url : string := baseUrl this +:+ "/compra-agil".

Definition fetchPage (params : ApiQueryParams) : M ApiResponse :=
  try_catch
    (perform (emit (HttpGet endpoint_url params));;;
     let* outcome := read (fun w => api (env w) params) in
     let* response := axios_settle outcome in
     let data := snd response in
     if negb (bool_decide (success data = "OK"))
     then throw (Error ("API respondió con error: " +:+ success data))
     else
       match payload data with
       | None => throw undefined_payload
       | Some _ => ret data
       end)
    (fun error => throw error).

Definition delay (ms : Z) : M unit := sleep ms.

(** The [for (currentPage = 2; currentPage <= totalPages; currentPage++)]
    loop of [getAllOfertas]; [count] is the number of turns left,
    [totalPages - currentPage + 1].  Besides the outcome it hands back
    the local array [allOfertas] as it stands when the loop is left,
    which is what the [catch] block looks at. *)
Fixpoint remaining_pages (count : nat) (currentPage : Z)
    (first : ApiQueryParams) (allOfertas : list Oferta) (w : World)
  : list Oferta * Result unit * World :=
  match count with
  | O => (allOfertas, Return tt, w)
  | S count' =>
      match (delay (delayBetweenRequests this);;;
             fetchPage (with_page first currentPage)) w with
      | (Throw error, w') => (allOfertas, Throw error, w')
      | (Return response, w') =>
          match payload response with
          | None => (allOfertas, Throw undefined_payload, w')
          | Some p =>
              remaining_pages count' (currentPage + 1) first
                (allOfertas ++ resultados p) w'
          end
      end
  end.

Definition getAllOfertas (baseParams : Partial.t) : M (list Oferta) :=
  fun w =>
    let currentPage := 1 in
    let first := firstPageParams baseParams currentPage in
    let '(allOfertas, outcome, w') :=
      match fetchPage first w with
      | (Throw error, w1) => ([], Throw error, w1)
      | (Return firstResponse, w1) =>
          match payload firstResponse with
          | None => ([], Throw undefined_payload, w1)
          | Some p =>
              let totalPages := pageCount p in
              remaining_pages (Z.to_nat (totalPages - 1)) 2 first
                ([] ++ resultados p) w1
          end
      end in
    match outcome with
    | Return _ => (Return allOfertas, w')
    | Throw error =>
        if bool_decide (0 < List.length allOfertas)%nat
        then (Return allOfertas, w')
        else (Throw error, w')
    end.

Definition getOfertasWithParams (params : Partial.t) : M (list Oferta) :=
  if falsy (Partial.date_from params) || falsy (Partial.date_to params)
  then throw (Error "Los parámetros date_from y date_to son obligatorios")
  else
    let date_from := default EmptyString (Partial.date_from params) in
    let date_to := default EmptyString (Partial.date_to params) in
    if negb (test dateRegex date_from) || negb (test dateRegex date_to)
    then throw (Error "Las fechas deben estar en formato YYYY-MM-DD")
    else
      let dateFrom := Date_parse date_from in
      let dateTo := Date_parse date_to in
      if date_gt dateFrom dateTo
      then throw (Error "date_from no puede ser posterior a date_to")
      else getAllOfertas params.

End ApiService.

(** What [fetchPage] makes of the answer to its request. *)
Definition page_result (r : HttpResult ApiResponse) : Result ApiResponse :=
  match r with
  | NetworkError => Throw (AxiosError "Network Error" None)
  | Timeout => Throw (AxiosError "timeout of 30000ms exceeded" None)
  | Response s data =>
      if bool_decide (200 <= s < 300) then
        if bool_decide (success data = "OK") then
          match payload data with
          | Some _ => Return data
          | None => Throw undefined_payload
          end
        else Throw (Error ("API respondió con error: " +:+ success data))
      else Throw (AxiosError "Request failed with status code" (Some s))
  end.

(** A page request succeeds with payload [p]. *)
Definition succeeds (r : HttpResult ApiResponse) (p : Payload) : Prop :=
  ∃ s, r = Response s {| success := "OK"; payload := Some p |}
       ∧ 200 <= s < 300.

(** A page request fails: network error, timeout, HTTP status outside
    2xx, API status other than "OK", or a body without payload. *)
Definition fails (r : HttpResult ApiResponse) : Prop :=
  match r with
  | NetworkError | Timeout => True
  | Response s data =>
      ¬ (200 <= s < 300) ∨ success data ≠ "OK" ∨ payload data = None
  end.

(** The delay and the request made for each page of [pages]. *)
Definition page_requests (this : ChileCompraApiService)
    (first : ApiQueryParams) (pages : list Z) : list Event :=
  flat_map
    (fun p => [Sleep (delayBetweenRequests this);
               HttpGet (endpoint_url this) (with_page first p)])
    pages.

(** The records of the [n] pages that start at [first_page], in page
    order. *)
Definition records_of (pages : Z → Payload) (first_page n : Z) : list Oferta :=
  List.concat (map (fun p => resultados (pages p)) (seqZ first_page n)).

Definition is_page_request (e : Event) : bool :=
  match e with
  | HttpGet _ _ => true
  | _ => false
  end.

(** ** EmailService (email.service.ts) *)

Record EmailService := {
  emailServiceUrl : string
}.

Definition generateFichaLink (codigo : string) : string :=
  "https://buscador.mercadopublico.cl/ficha?code=" +:+ codigo.

(** [{ ...oferta, enlace_ficha: ... }] *)
Definition with_enlace_ficha (oferta : OfertaDocument) (link : string)
  : OfertaDocument :=
  {| oferta_base := oferta_base oferta; _id := _id oferta;
     emprendimiento := emprendimiento oferta;
     endpoint_name := endpoint_name oferta;
     fecha_extraccion := fecha_extraccion oferta;
     enlace_ficha := link |}.

Definition prepareOfertasForEmail (ofertas : list OfertaDocument)
  : list OfertaDocument :=
  map (fun oferta => with_enlace_ficha oferta (generateFichaLink (codigo oferta)))
      ofertas.

(** [ofertas.reduce((sum, o) => sum + o.monto_disponible_CLP, 0)] *)
Definition total_CLP (ofertas : list OfertaDocument) : Z :=
  fold_left (fun sum (o : OfertaDocument) => sum + monto_disponible_CLP o)
            ofertas 0.

Definition generateEmailHTML (ofertas : list OfertaDocument)
    (emprendimiento fecha : string) : M Html :=
  if bool_decide (List.length ofertas = 0%nat)
  then
    let* generated := now in
    ret (EmptyReportHtml emprendimiento fecha generated)
  else
    let* generated := now in
    ret (OfertasReportHtml emprendimiento fecha ofertas
           (List.length ofertas) (total_CLP ofertas) generated).

Section EmailService.

Variable this : EmailService.

Definition sendOfertasReport (ofertas : list OfertaDocument)
    (emprendimiento : string) (recipients : list string)
    (fecha : option string) : M bool :=
  try_catch
    (let* today := now in
     let* fechaReporte :=
       read (fun w => string_or fecha (toLocaleDateString (env w) today)) in
     let ofertasConEnlaces := prepareOfertasForEmail ofertas in
     let* body := generateEmailHTML ofertasConEnlaces emprendimiento fechaReporte in
     let emailConfig :=
       {| to := recipients;
          subject := "📊 Reporte Diario de Ofertas - " +:+ emprendimiento
                     +:+ " (" +:+ fechaReporte +:+ ")";
          html := body |} in
     perform (emit (HttpPost (emailServiceUrl this) emailConfig));;;
     let* outcome := read (fun w => mail (env w) emailConfig) in
     let* response := axios_settle outcome in
     if bool_decide (fst response = 200)
     then ret true
     else ret false)
    (fun error => ret false).

Definition sendErrorNotification (error : JsError)
    (emprendimiento : string) (recipients : list string) : M bool :=
  try_catch
    (let* generated := now in
     let errorHTML := ErrorHtml emprendimiento (message error) generated in
     let emailConfig :=
       {| to := recipients;
          subject := "⚠️ Error en Monitoreo - " +:+ emprendimiento;
          html := errorHTML |} in
     perform (emit (HttpPost (emailServiceUrl this) emailConfig));;;
     let* outcome := read (fun w => mail (env w) emailConfig) in
     let* response := axios_settle outcome in
     ret (bool_decide (fst response = 200)))
    (fun emailError => ret false).

End EmailService.

(** The message [sendOfertasReport] posts for a given report date and
    generation time. *)
Definition report_message (ofertas : list OfertaDocument)
    (emprendimiento : string) (recipients : list string)
    (fechaReporte : string) (generated : Z) : EmailConfig :=
  let rows := prepareOfertasForEmail ofertas in
  {| to := recipients;
     subject := "📊 Reporte Diario de Ofertas - " +:+ emprendimiento
                +:+ " (" +:+ fechaReporte +:+ ")";
     html :=
       match rows with
       | [] => EmptyReportHtml emprendimiento fechaReporte generated
       | _ :: _ =>
           OfertasReportHtml emprendimiento fechaReporte rows
             (List.length rows) (total_CLP rows) generated
       end |}.

(** The message [sendErrorNotification] posts. *)
Definition error_message (error : JsError) (emprendimiento : string)
    (recipients : list string) (generated : Z) : EmailConfig :=
  {| to := recipients;
     subject := "⚠️ Error en Monitoreo - " +:+ emprendimiento;
     html := ErrorHtml emprendimiento (message error) generated |}.

(** The delivery endpoint answered with status 200. *)
Definition delivered {A} (r : HttpResult A) : bool :=
  match r with
  | Response s _ => bool_decide (s = 200)
  | _ => false
  end.

(** ** Configuration (models/types.ts, config/emprendimientos.ts) *)

Module EndpointConfig.
Record t := {
  name : string;
  description : string;
  params : Partial.t
}.
End EndpointConfig.

Module EmprendimientoConfig.
Record t := {
  id : string;
  name : string;
  description : string;
  endpoints : list EndpointConfig.t;
  emailRecipients : list string
}.
End EmprendimientoConfig.

Module DateRange.
Record t := {
  from : string;
  to : string
}.
End DateRange.

Module ExtraccionSummary.
Record t := {
  emprendimiento : string;
  total_ofertas : Z;
  nuevas_ofertas : Z;
  fecha_extraccion : Z;
  endpoints_consultados : list string
}.
End ExtraccionSummary.

(** ** ExtractionService (extraction.service.ts) *)

(** [array.slice(start, end)] with its treatment of negative and
    oversized bounds. *)
Definition slice {A} (l : list A) (start finish : Z) : list A :=
  let len := Z.of_nat (List.length l) in
  let clamp k := if k <? 0 then Z.max (len + k) 0 else Z.min k len in
  let a := clamp start in
  let b := clamp finish in
  firstn (Z.to_nat (Z.max (b - a) 0)) (skipn (Z.to_nat a) l).

(** Civil date of a day number (days since the epoch). *)
Definition civil_from_days (days : Z) : Z * Z * Z :=
  let z := days + 719468 in
  let era := z / 146097 in
  let doe := z - era * 146097 in
  let yoe := (doe - doe / 1460 + doe / 36524 - doe / 146096) / 365 in
  let doy := doe - (365 * yoe + yoe / 4 - yoe / 100) in
  let mp := (5 * doy + 2) / 153 in
  let d := doy - (153 * mp + 2) / 5 + 1 in
  let m := if mp <? 10 then mp + 3 else mp - 9 in
  let y := yoe + era * 400 + (if m <=? 2 then 1 else 0) in
  (y, m, d).

Definition digit_char (n : Z) : ascii := ascii_of_nat (Z.to_nat (48 + n mod 10)).

(** [n] in decimal on [width] digits, zero padded. *)
Fixpoint pad (width : nat) (n : Z) : string :=
  match width with
  | O => EmptyString
  | S width' => pad width' (n / 10) +:+ String (digit_char n) EmptyString
  end.

(** [date.toISOString().split("T")[0]]: years outside 0..9999 are
    written with a sign and six digits. *)
Definition toISODate (t : Z) : string :=
  let '(y, m, d) := civil_from_days (t / msPerDay) in
  let year :=
    if (0 <=? y) && (y <=? 9999) then pad 4 y
    else (if y <? 0 then "-" else "+") +:+ pad 6 (Z.abs y) in
  year +:+ "-" +:+ pad 2 m +:+ "-" +:+ pad 2 d.

(** [formatDate] of [generateDateRange]; [toISOString] throws a
    [RangeError] on an invalid date. *)
Definition formatDate (date : option Z) : M string :=
  match date with
  | Some t => ret (toISODate t)
  | None => throw (Error "Invalid time value")
  end.

Definition generateDateRange (isInitialRun : bool) : M DateRange.t :=
  let* today := now in
  if isInitialRun then
    let startDate := Date_parse "2025-08-01" in
    let* a := formatDate startDate in
    let* b := formatDate (Some today) in
    ret {| DateRange.from := a; DateRange.to := b |}
  else
    let* a := formatDate (Some today) in
    let* b := formatDate (Some today) in
    ret {| DateRange.from := a; DateRange.to := b |}.

Record ExtractionService := {
  apiService : ChileCompraApiService;
  emailService : EmailService
}.

(** [{ ...endpoint.params, date_from: ..., date_to: ... }] *)
Definition queryParams (base : Partial.t) (dateRange : DateRange.t)
  : Partial.t :=
  {| Partial.date_from := Some (DateRange.from dateRange);
     Partial.date_to := Some (DateRange.to dateRange);
     Partial.order_by := Partial.order_by base;
     Partial.page_number := Partial.page_number base;
     Partial.status := Partial.status base;
     Partial.category := Partial.category base;
     Partial.region := Partial.region base;
     Partial.keywords := Partial.keywords base |}.

(** The document built for one offer by [extractOffersForEndpoint]. *)
Definition ofertaDocument (oferta : Oferta)
    (emprendimiento : EmprendimientoConfig.t)
    (endpoint : EndpointConfig.t) (extracted : Z) : OfertaDocument :=
  {| oferta_base := oferta; _id := None;
     emprendimiento := EmprendimientoConfig.id emprendimiento;
     endpoint_name := EndpointConfig.name endpoint;
     fecha_extraccion := extracted;
     enlace_ficha :=
       "https://buscador.mercadopublico.cl/ficha?code=" +:+ codigo oferta |}.

Definition zero_summary (emprendimiento : EmprendimientoConfig.t)
    (created : Z) : ExtraccionSummary.t :=
  {| ExtraccionSummary.emprendimiento := EmprendimientoConfig.name emprendimiento;
     ExtraccionSummary.total_ofertas := 0;
     ExtraccionSummary.nuevas_ofertas := 0;
     ExtraccionSummary.fecha_extraccion := created;
     ExtraccionSummary.endpoints_consultados := [] |}.

Section ExtractionService.

Variable this : ExtractionService.

(** The array exported by config/emprendimientos.ts. *)
Variable emprendimientos : list EmprendimientoConfig.t.

Definition extractOffersForEndpoint (emprendimiento : EmprendimientoConfig.t)
    (endpoint : EndpointConfig.t) (dateRange : DateRange.t)
  : M (list OfertaDocument) :=
  try_catch
    (let query := queryParams (EndpointConfig.params endpoint) dateRange in
     let* ofertas := getOfertasWithParams (apiService this) query in
     let* extracted := now in
     let ofertasDocuments :=
       map (fun oferta => ofertaDocument oferta emprendimiento endpoint extracted)
           ofertas in
     ret ofertasDocuments)
    (fun error => throw error).

(** The [for (const endpoint of emprendimiento.endpoints)] loop of
    [extractOffersForEmprendimiento], with its local array. *)
Fixpoint extract_each (emprendimiento : EmprendimientoConfig.t)
    (endpoints : list EndpointConfig.t) (dateRange : DateRange.t)
    (allOfertas : list OfertaDocument) : M (list OfertaDocument) :=
  match endpoints with
  | [] => ret allOfertas
  | endpoint :: rest =>
      let* allOfertas :=
        try_catch
          (let* ofertas := extractOffersForEndpoint emprendimiento endpoint dateRange in
           let allOfertas := allOfertas ++ ofertas in
           sleep 1000;;;
           ret allOfertas)
          (fun error => ret allOfertas) in
      extract_each emprendimiento rest dateRange allOfertas
  end.

Definition extractOffersForEmprendimiento
    (emprendimiento : EmprendimientoConfig.t) (dateRange : DateRange.t)
  : M (list OfertaDocument) :=
  extract_each emprendimiento (EmprendimientoConfig.endpoints emprendimiento)
    dateRange [].

(** [emprendimiento.emailRecipients && emprendimiento.emailRecipients.length > 0] *)
Definition has_recipients (emprendimiento : EmprendimientoConfig.t) : bool :=
  bool_decide (0 < List.length (EmprendimientoConfig.emailRecipients emprendimiento))%nat.

Definition processEmprendimiento (emprendimiento : EmprendimientoConfig.t)
    (dateRange : DateRange.t) : M ExtraccionSummary.t :=
  try_catch
    (let* ofertas := extractOffersForEmprendimiento emprendimiento dateRange in
     let ofertasUnicas := removeDuplicateOffers ofertas in
     let* counts := insertOfertas ofertasUnicas in
     let ofertasNuevas := slice ofertasUnicas 0 (insertedCount counts) in
     (if has_recipients emprendimiento
      then
        let* emailSent :=
          sendOfertasReport (emailService this) ofertasNuevas
            (EmprendimientoConfig.name emprendimiento)
            (EmprendimientoConfig.emailRecipients emprendimiento)
            (Some (DateRange.from dateRange +:+ " - " +:+ DateRange.to dateRange)) in
        ret tt
      else ret tt);;;
     let* created := now in
     let summary :=
       {| ExtraccionSummary.emprendimiento := EmprendimientoConfig.name emprendimiento;
          ExtraccionSummary.total_ofertas := Z.of_nat (List.length ofertasUnicas);
          ExtraccionSummary.nuevas_ofertas := insertedCount counts;
          ExtraccionSummary.fecha_extraccion := created;
          ExtraccionSummary.endpoints_consultados :=
            map EndpointConfig.name (EmprendimientoConfig.endpoints emprendimiento) |} in
     ret summary)
    (fun error =>
       (if has_recipients emprendimiento
        then
          let* sent :=
            sendErrorNotification (emailService this) error
              (EmprendimientoConfig.name emprendimiento)
              (EmprendimientoConfig.emailRecipients emprendimiento) in
          ret tt
        else ret tt);;;
       throw error).

(** The [for (const emprendimiento of emprendimientos)] loop of
    [runCompleteExtraction], with its array [summaries]. *)
Fixpoint process_each (pending : list EmprendimientoConfig.t)
    (dateRange : DateRange.t) (summaries : list ExtraccionSummary.t)
  : M (list ExtraccionSummary.t) :=
  match pending with
  | [] => ret summaries
  | emprendimiento :: rest =>
      let* summaries :=
        try_catch
          (let* summary := processEmprendimiento emprendimiento dateRange in
           ret (summaries ++ [summary]))
          (fun error =>
             let* created := now in
             ret (summaries ++ [zero_summary emprendimiento created])) in
      process_each rest dateRange summaries
  end.

Definition runCompleteExtraction (isInitialRun : bool)
  : M (list ExtraccionSummary.t) :=
  let* dateRange := generateDateRange isInitialRun in
  let* active := isConnectionActive in
  (if negb active then connect else ret tt);;;
  let* summaries := process_each emprendimientos dateRange [] in
  ret summaries.

Definition runDailyExtraction : M (list ExtraccionSummary.t) :=
  runCompleteExtraction false.

Definition runInitialExtraction : M (list ExtraccionSummary.t) :=
  runCompleteExtraction true.

End ExtractionService.

(** The summary [processEmprendimiento] builds for a processed line. *)
Definition summary_of (emprendimiento : EmprendimientoConfig.t)
    (ofertasUnicas : list OfertaDocument)
    (counts : InsertCounts) (created : Z) : ExtraccionSummary.t :=
  {| ExtraccionSummary.emprendimiento := EmprendimientoConfig.name emprendimiento;
     ExtraccionSummary.total_ofertas := Z.of_nat (List.length ofertasUnicas);
     ExtraccionSummary.nuevas_ofertas := insertedCount counts;
     ExtraccionSummary.fecha_extraccion := created;
     ExtraccionSummary.endpoints_consultados :=
       map EndpointConfig.name (EmprendimientoConfig.endpoints emprendimiento) |}.

(** *** What the orchestrator is expected to do *)

Definition period_label (dateRange : DateRange.t) : string :=
  DateRange.from dateRange +:+ " - " +:+ DateRange.to dateRange.

(** Between the worlds [before] and [after], the notifier was handed
    [records] for the business line: one report about exactly these
    records was posted to the recipients of the line. *)
Definition notifier_received (this : ExtractionService)
    (records : list OfertaDocument)
    (emprendimiento : EmprendimientoConfig.t) (dateRange : DateRange.t)
    (before after : World) : Prop :=
  trace after
  = trace before
    ++ [HttpPost (emailServiceUrl (emailService this))
          (report_message records
             (EmprendimientoConfig.name emprendimiento)
             (EmprendimientoConfig.emailRecipients emprendimiento)
             (period_label dateRange) (clock before))].

(** Processing a business line hands the notifier the first N records
    of the deduplicated batch, N being the inserted count reported by
    the database service. *)
Definition notifies_first_inserted (this : ExtractionService)
    (emprendimiento : EmprendimientoConfig.t) (dateRange : DateRange.t)
    (w : World) : Prop :=
  ∀ ofertas w1 counts w2,
    extractOffersForEmprendimiento this emprendimiento dateRange w
    = (Return ofertas, w1) →
    insertOfertas (removeDuplicateOffers ofertas) w1 = (Return counts, w2) →
    ∃ summary w3,
      processEmprendimiento this emprendimiento dateRange w
      = (Return summary, w3)
      ∧ notifier_received this
          (firstn (Z.to_nat (insertedCount counts))
             (removeDuplicateOffers ofertas))
          emprendimiento dateRange w2 w3.

(** The last thing done in [after] was to post the report of [error]
    to the recipients of the line, when it has any. *)
Definition error_reported (this : ExtractionService)
    (emprendimiento : EmprendimientoConfig.t) (error : JsError)
    (after : World) : Prop :=
  EmprendimientoConfig.emailRecipients emprendimiento ≠ [] →
  ∃ generated,
    last (trace after)
    = Some (HttpPost (emailServiceUrl (emailService this))
              (error_message error
                 (EmprendimientoConfig.name emprendimiento)
                 (EmprendimientoConfig.emailRecipients emprendimiento)
                 generated)).

(** [line_outcomes this dateRange lines w summaries w']: starting in
    [w], the business lines [lines] are processed one after the other,
    each in the world left by the previous one, ending in [w']; a line
    whose processing returns contributes its summary, a line whose
    processing throws has its error reported and contributes a
    zero-valued summary. *)
Inductive line_outcomes (this : ExtractionService) (dateRange : DateRange.t)
  : list EmprendimientoConfig.t → World → list ExtraccionSummary.t → World → Prop :=
| lines_done w :
    line_outcomes this dateRange [] w [] w
| line_processed emprendimiento rest w summary w1 summaries w2 :
    processEmprendimiento this emprendimiento dateRange w = (Return summary, w1) →
    line_outcomes this dateRange rest w1 summaries w2 →
    line_outcomes this dateRange (emprendimiento :: rest) w
      (summary :: summaries) w2
| line_failed emprendimiento rest w error w1 summaries w2 :
    processEmprendimiento this emprendimiento dateRange w = (Throw error, w1) →
    error_reported this emprendimiento error w1 →
    line_outcomes this dateRange rest w1 summaries w2 →
    line_outcomes this dateRange (emprendimiento :: rest) w
      (zero_summary emprendimiento (clock w1) :: summaries) w2.

(** A run hands its caller one summary per configured business line,
    in configuration order. *)
Definition run_delivers_summaries (this : ExtractionService)
    (emprendimientos : list EmprendimientoConfig.t) (isInitialRun : bool)
    (w : World) : Prop :=
  ∃ summaries w',
    runCompleteExtraction this emprendimientos isInitialRun w
    = (Return summaries, w')
    ∧ map ExtraccionSummary.emprendimiento summaries
      = map EmprendimientoConfig.name emprendimientos.

(** The connection check at the start of a run lets the run proceed
    from [w0]: the connection is active, or [connect] succeeds. *)
Definition connection_ensured (w w0 : World) : Prop :=
  isConnected w && client w = true ∧ w0 = w
  ∨ isConnected w && client w = false ∧ connect w = (Return tt, w0).

(** ** Concrete data for worked runs *)

Definition sample_oferta (n : Z) (code : string) : Oferta :=
  {| id := n; codigo := code; nombre := "Servicio de traslado";
     fecha_publicacion := "2025-09-24T10:00:00";
     fecha_cierre := "2025-09-30T18:00:00";
     organismo := "Municipalidad"; unidad := "Adquisiciones";
     id_estado := 2; estado := "Publicada";
     monto_disponible := 1500000; moneda := "CLP";
     monto_disponible_CLP := 1500000;
     fecha_cambio := None; valor_cambio_moneda := None;
     cantidad_proveedores_cotizando := 3; estado_convocatoria := 1 |}.

Definition sample_doc (n : Z) (line : string) : OfertaDocument :=
  {| oferta_base := sample_oferta n "1057-22-COT25"; _id := None;
     emprendimiento := line; endpoint_name := "Transporte de Pasajeros";
     fecha_extraccion := 1758708000000;
     enlace_ficha := generateFichaLink "1057-22-COT25" |}.

Definition one_page (ofertas : list Oferta) : ApiResponse :=
  {| success := "OK";
     payload := Some {| resultCount := Z.of_nat (List.length ofertas);
                        pageCount := 1; page := 1; pageSize := 15;
                        resultados := ofertas |} |}.

(** An API that answers every query with the same single page, and a
    mail endpoint that accepts everything. *)
Definition steady_env (ofertas : list Oferta) : Env :=
  {| api := fun _ => Response 200 (one_page ofertas);
     mail := fun _ => Response 200 tt;
     toLocaleDateString := fun _ => "24-09-2025" |}.

(** An API and a mail endpoint that cannot be reached. *)
Definition offline_env : Env :=
  {| api := fun _ => NetworkError;
     mail := fun _ => NetworkError;
     toLocaleDateString := fun _ => "24-09-2025" |}.

(** 2025-09-24T10:00:00Z, database connected and empty. *)
Definition connected_world (e : Env) : World :=
  {| env := e; clock := 1758708000000; trace := [];
     ofertas_collection := []; faults := [];
     client := true; db := true; isConnected := true |}.

(** Database never connected, and unreachable. *)
Definition disconnected_world (e : Env) : World :=
  {| env := e; clock := 1758708000000; trace := [];
     ofertas_collection := []; faults := [Some ServerSelectionTimeout];
     client := false; db := false; isConnected := false |}.

Definition sample_api_service : ChileCompraApiService :=
  {| baseUrl := "https://api.example.cl/v1"; apiKey := "key";
     delayBetweenRequests := 2000 |}.

Definition sample_service : ExtractionService :=
  {| apiService := sample_api_service;
     emailService := {| emailServiceUrl := "https://mail.example.cl/send" |} |}.

Definition sample_endpoint : EndpointConfig.t :=
  {| EndpointConfig.name := "Transporte de Pasajeros";
     EndpointConfig.description := "Servicios de transporte de pasajeros";
     EndpointConfig.params :=
       {| Partial.date_from := None; Partial.date_to := None;
          Partial.order_by := Some "recent"; Partial.page_number := None;
          Partial.status := Some 2; Partial.category := Some "42192400";
          Partial.region := None; Partial.keywords := None |} |}.

Definition sample_line (recipients : list string) : EmprendimientoConfig.t :=
  {| EmprendimientoConfig.id := "transporte";
     EmprendimientoConfig.name := "Servicios de Transporte";
     EmprendimientoConfig.description := "Transporte con bus";
     EmprendimientoConfig.endpoints := [sample_endpoint];
     EmprendimientoConfig.emailRecipients := recipients |}.

(** An API that serves the pages up to [available] and times out on
    the pages after it. *)
Definition paged_env (pages : Z → Payload) (available : Z) : Env :=
  {| api := fun q =>
       if page_number q <=? available
       then Response 200 {| success := "OK";
                            payload := Some (pages (page_number q)) |}
       else Timeout;
     mail := fun _ => Response 200 tt;
     toLocaleDateString := fun _ => "24-09-2025" |}.

(** Three pages of one record each. *)
Definition three_pages (p : Z) : Payload :=
  {| resultCount := 3; pageCount := 3; page := p; pageSize := 1;
     resultados := [sample_oferta p "1057-22-COT25"] |}.

Definition sample_query : Partial.t :=
  {| Partial.date_from := Some "2025-09-24";
     Partial.date_to := Some "2025-09-24";
     Partial.order_by := Some "recent"; Partial.page_number := None;
     Partial.status := Some 2; Partial.category := Some "42192400";
     Partial.region := None; Partial.keywords := None |}.

Definition sample_range : DateRange.t :=
  {| DateRange.from := "2025-09-24"; DateRange.to := "2025-09-24" |}.

Definition sample_batch : list OfertaDocument :=
  [sample_doc 1 "transporte"; sample_doc 2 "transporte"].


(** * The rest of the services *)

(** ** DatabaseService: queries and maintenance *)

Definition not_connected : JsError := Error "Base de datos no conectada".



Definition set_collection (docs : list OfertaDocument) (w : World) : World :=
  {| env := env w; clock := clock w; trace := trace w;
     ofertas_collection := docs; faults := faults w;
     client := client w; db := db w; isConnected := isConnected w |}.

(** The filter object built by [getOfertasByEmprendimiento]:
    [{ emprendimiento }] with [fecha_extraccion: { $gte, $lte }] for
    the bounds that are given. *)
Definition matches_filter (emprendimiento_id : string)
    (fechaDesde fechaHasta : option Z) (d : OfertaDocument) : bool :=
  bool_decide (emprendimiento d = emprendimiento_id)
  && match fechaDesde with
     | Some lo => lo <=? fecha_extraccion d
     | None => true
     end
  && match fechaHasta with
     | Some hi => fecha_extraccion d <=? hi
     | None => true
     end.

(** [{ fecha_extraccion: -1, fecha_publicacion: -1 }]: [a] may come
    before [b].  Strings compare byte by byte. *)
Definition sorts_before (a b : OfertaDocument) : bool :=
  (fecha_extraccion b <? fecha_extraccion a)
  || ((fecha_extraccion a =? fecha_extraccion b)
      && String.leb (fecha_publicacion b) (fecha_publicacion a)).

Fixpoint insert_sorted (x : OfertaDocument) (l : list OfertaDocument)
  : list OfertaDocument :=
  match l with
  | [] => [x]
  | y :: l' =>
      if sorts_before x y then x :: y :: l' else y :: insert_sorted x l'
  end.

(** [.sort(...)] of a cursor; the order among documents with equal sort
    keys, which the server leaves open, is the one of this insertion
    sort. *)
Fixpoint sort_cursor (l : list OfertaDocument) : list OfertaDocument :=
  match l with
  | [] => []
  | x :: l' => insert_sorted x (sort_cursor l')
  end.

(** The server's work for the data operations below is not recorded in
    the trace; each of them is one storage command. *)
Definition getOfertasByEmprendimiento (emprendimiento_id : string)
    (fechaDesde fechaHasta : option Z) : M (list OfertaDocument) :=
  let* active := isConnectionActive in
  if negb active then throw not_connected else
  getOfertasCollection;;;
  storage_command;;;
  let* stored := read ofertas_collection in
  ret (sort_cursor
         (List.filter (matches_filter emprendimiento_id fechaDesde fechaHasta)
                      stored)).

Record Estadisticas := {
  total : Z;
  hoy : Z;
  ultima_extraccion : option Z
}.

(** [collection.countDocuments(filter)] *)
Definition countDocuments (keep : OfertaDocument → bool) : M Z :=
  storage_command;;;
  let* stored := read ofertas_collection in
  ret (Z.of_nat (List.length (List.filter keep stored))).

(** The [fecha_extraccion] of the document that comes first under
    [{ fecha_extraccion: -1 }]. *)
Definition latest_extraction (docs : list OfertaDocument) : option Z :=
  match docs with
  | [] => None
  | d :: rest =>
      Some (fold_left (fun m (x : OfertaDocument) => Z.max m (fecha_extraccion x))
                      rest (fecha_extraccion d))
  end.

(** [collection.findOne({ emprendimiento }, { sort: { fecha_extraccion: -1 },
    projection: { fecha_extraccion: 1 } })] *)
Definition findLatest (emprendimiento_id : string) : M (option Z) :=
  storage_command;;;
  let* stored := read ofertas_collection in
  ret (latest_extraction
         (List.filter (matches_filter emprendimiento_id None None) stored)).

(** Runs [c] to its end and hands back how it ended. *)
Definition settled {A} (c : M A) : M (Result A) :=
  fun w => let '(r, w') := c w in (Return r, w').

Section LocalTime.

(** Local-calendar arithmetic of the runtime: [setHours0 t] is [t]
    after [setHours(0, 0, 0, 0)], [setDate_back t n] is [t] after
    [setDate(getDate() - n)]. *)
Variable setHours0 : Z → Z.
Variable setDate_back : Z → Z → Z.

(** [Promise.all] over three reads: all three are issued, in this
    order; the call rejects with the first rejection. *)
Definition getEstadisticasEmprendimiento (emprendimiento_id : string)
  : M Estadisticas :=
  let* active := isConnectionActive in
  if negb active then throw not_connected else
  getOfertasCollection;;;
  let* today := now in
  let hoy_start := setHours0 today in
  let* totalResult :=
    settled (countDocuments (matches_filter emprendimiento_id None None)) in
  let* hoyResult :=
    settled (countDocuments
               (matches_filter emprendimiento_id (Some hoy_start) None)) in
  let* ultimaExtraccionResult := settled (findLatest emprendimiento_id) in
  match totalResult, hoyResult, ultimaExtraccionResult with
  | Return t, Return h, Return u =>
      ret {| total := t; hoy := h; ultima_extraccion := u |}
  | Throw error, _, _ => throw error
  | _, Throw error, _ => throw error
  | _, _, Throw error => throw error
  end.

(** [collection.deleteMany({ fecha_extraccion: { $lt: fechaLimite } })] *)
Definition deleteMany_before (fechaLimite : Z) : M Z :=
  storage_command;;;
  let* stored := read ofertas_collection in
  let kept := List.filter (fun d => fechaLimite <=? fecha_extraccion d) stored in
  perform (set_collection kept);;;
  ret (Z.of_nat (List.length stored) - Z.of_nat (List.length kept)).

Definition limpiarOfertasAntiguas (diasAntiguedad : Z) : M Z :=
  let* active := isConnectionActive in
  if negb active then throw not_connected else
  getOfertasCollection;;;
  let* today := now in
  let fechaLimite := setDate_back today diasAntiguedad in
  let* deletedCount := deleteMany_before fechaLimite in
  ret deletedCount.

(** ** ExtractionService: statistics and maintenance *)

Record EmprendimientoStats := {
  stats_id : string;
  stats_nombre : string;
  stats_values : Estadisticas
}.

Record SystemStats := {
  fecha_consulta : Z;
  stats_emprendimientos : list EmprendimientoStats
}.

(** The loop of [getSystemStats] over the configured business lines. *)
Fixpoint stats_each (pending : list EmprendimientoConfig.t)
    (collected : list EmprendimientoStats) : M (list EmprendimientoStats) :=
  match pending with
  | [] => ret collected
  | emprendimiento :: rest =>
      let* empStats :=
        getEstadisticasEmprendimiento (EmprendimientoConfig.id emprendimiento) in
      stats_each rest
        (collected
         ++ [{| stats_id := EmprendimientoConfig.id emprendimiento;
                stats_nombre := EmprendimientoConfig.name emprendimiento;
                stats_values := empStats |}])
  end.

Definition getSystemStats (emprendimientos : list EmprendimientoConfig.t)
  : M SystemStats :=
  let* active := isConnectionActive in
  if negb active then throw not_connected else
  let* today := now in
  let* entries := stats_each emprendimientos [] in
  ret {| fecha_consulta := today; stats_emprendimientos := entries |}.

Definition cleanupOldOffers (dias : Z) : M Z :=
  let* active := isConnectionActive in
  if negb active then throw not_connected else
  limpiarOfertasAntiguas dias.

End LocalTime.

(** ** config/emprendimientos.ts: lookups *)

(** [emprendimientos.find((emp) => emp.id === id)] *)
Definition getEmprendimientoById (emprendimientos : list EmprendimientoConfig.t)
    (line_id : string) : option EmprendimientoConfig.t :=
  find (fun emp => bool_decide (EmprendimientoConfig.id emp = line_id))
       emprendimientos.

Definition getAllEmprendimientoIds
    (emprendimientos : list EmprendimientoConfig.t) : list string :=
  map EmprendimientoConfig.id emprendimientos.

(** ** ChileCompraApiService: probes *)

Definition testParams : ApiQueryParams :=
  {| date_from := "2025-09-24"; date_to := "2025-09-24";
     order_by := "recent"; page_number := 1; status := 2;
     category := None; region := None; keywords := None |}.

Definition testConnection (this : ChileCompraApiService) : M bool :=
  try_catch
    (let* response := fetchPage this testParams in
     ret (bool_decide (success response = "OK")))
    (fun error => ret false).

Record EstadisticasConsulta := {
  totalOfertas : Z;
  totalPaginas : Z;
  ofertasPorPagina : Z
}.

Definition getEstadisticasConsulta (this : ChileCompraApiService)
    (params : Partial.t) : M EstadisticasConsulta :=
  let query := firstPageParams params 1 in
  let* response := fetchPage this query in
  match payload response with
  | None => throw undefined_payload
  | Some p =>
      ret {| totalOfertas := resultCount p; totalPaginas := pageCount p;
             ofertasPorPagina := pageSize p |}
  end.

(** *** Vocabulary of the properties *)

(** Each document of the list may come before the next one. *)
Fixpoint in_cursor_order (l : list OfertaDocument) : Prop :=
  match l with
  | [] => True
  | a :: rest =>
      match rest with
      | [] => True
      | b :: _ => sorts_before a b = true
      end
      ∧ in_cursor_order rest
  end.

(** The next [n] storage commands meet no failure. *)
Definition no_fault_within (n : nat) (w : World) : Prop :=
  Forall (fun f => f = None) (firstn n (faults w)).

(** A MongoDB server that stores [docs] and answers every command. *)
Definition stocked_world (docs : list OfertaDocument) : World :=
  {| env := offline_env; clock := 1758708000000; trace := [];
     ofertas_collection := docs; faults := [];
     client := true; db := true; isConnected := true |}.

Definition dated_doc (n : Z) (line : string) (extracted : Z) : OfertaDocument :=
  {| oferta_base := sample_oferta n "1057-22-COT25"; _id := None;
     emprendimiento := line; endpoint_name := "Transporte de Pasajeros";
     fecha_extraccion := extracted;
     enlace_ficha := generateFichaLink "1057-22-COT25" |}.

(** Whole days of 24 hours, for runs that do not cross a clock change. *)
Definition plain_setDate_back (t n : Z) : Z := t - n * msPerDay.
Definition utc_setHours0 (t : Z) : Z := t - t mod msPerDay.

(** The four commands [connect] sends: the connection handshake and
    the creation of the three indexes. *)
Definition connect_commands : list Event :=
  [MongoConnect; CreateIndex "unique_oferta_emprendimiento";
   CreateIndex "fecha_extraccion_desc"; CreateIndex "emprendimiento_index"].

(** A process that never connected, facing a server that answers. *)
Definition unconnected_world (e : Env) : World :=
  {| env := e; clock := 1758708000000; trace := [];
     ofertas_collection := []; faults := [];
     client := false; db := false; isConnected := false |}.

(** The same, facing a server that accepts the connection and fails the
    second index creation. *)
Definition half_indexed_world (e : Env) : World :=
  {| env := e; clock := 1758708000000; trace := [];
     ofertas_collection := [];
     faults := [None; None; Some NotWritablePrimary];
     client := false; db := false; isConnected := false |}.

(** MongoDB and the service fields are the same in both worlds. *)
Definition same_storage (w w' : World) : Prop :=
  ofertas_collection w' = ofertas_collection w
  ∧ faults w' = faults w
  ∧ client w' = client w ∧ db w' = db w ∧ isConnected w' = isConnected w.

(** What [extractOffersForEndpoint] stamps on a document. *)
Definition tagged_for (emprendimiento_cfg : EmprendimientoConfig.t)
    (d : OfertaDocument) : Prop :=
  emprendimiento d = EmprendimientoConfig.id emprendimiento_cfg
  ∧ endpoint_name d
    ∈ map EndpointConfig.name (EmprendimientoConfig.endpoints emprendimiento_cfg)
  ∧ _id d = None
  ∧ enlace_ficha d = generateFichaLink (codigo d).

(** The bounds every summary respects. *)
Definition summary_in_bounds (s : ExtraccionSummary.t) : Prop :=
  0 <= ExtraccionSummary.nuevas_ofertas s
  <= ExtraccionSummary.total_ofertas s.


(** One page whose count of pages is [n]. *)
Definition lone_page (n : Z) (ofertas : list Oferta) : Payload :=
  {| resultCount := Z.of_nat (List.length ofertas); pageCount := n;
     page := 1; pageSize := 15; resultados := ofertas |}.

(** *** Dates written by [toISOString]

    The time values whose UTC year has four digits (0000 to 9999). *)
Definition four_digit_years (t : Z) : Prop :=
  DayFromYear 0 * msPerDay <= t < DayFromYear 10000 * msPerDay.

(** The calendar string of a civil date with a four-digit year. *)
Definition calendar_string (y m d : Z) : string :=
  pad 4 y +:+ "-" +:+ pad 2 m +:+ "-" +:+ pad 2 d.

(** UTC midnight of the day a time value falls on. *)
Definition utc_midnight (t : Z) : Z := t / msPerDay * msPerDay.

(** *** Concrete data for the worked examples of the further properties *)

(** The value a call returned, [fallback] when it threw. *)
Definition returned {A} (fallback : A) (r : Result A * World) : A :=
  match fst r with
  | Return a => a
  | Throw _ => fallback
  end.

(** A collection with an old and a recent document of one business
    line, and a recent document of another. *)
Definition history : list OfertaDocument :=
  [dated_doc 1 "transporte" 1700000000000;
   dated_doc 2 "transporte" 1758708000000;
   dated_doc 3 "alimentos" 1758708000000].

(** An API that answers every query with one page announcing [n]
    pages. *)
Definition lone_page_env (n : Z) (ofertas : list Oferta) : Env :=
  {| api := fun _ => Response 200 {| success := "OK";
                                     payload := Some (lone_page n ofertas) |};
     mail := fun _ => Response 200 tt;
     toLocaleDateString := fun _ => "24-09-2025" |}.

Definition backwards_range : DateRange.t :=
  {| DateRange.from := "2025-09-25"; DateRange.to := "2025-09-24" |}.

(** * Properties *)

(** ** Deduplication *)

Section Dedup.

Implicit Types (seen : gset Z) (l : list OfertaDocument).
Implicit Types (o x : OfertaDocument).

Lemma filter_seen_sublist seen l : sublist (filter_seen seen l) l.
Proof.
  revert seen; induction l as [|o l IH]; intros seen; simpl.
  - constructor.
  - case_decide.
    + apply sublist_cons, IH.
    + apply sublist_skip, IH.
Qed.

Lemma filter_seen_fresh seen l o :
  o ∈ filter_seen seen l → id o ∉ seen.
Proof.
  revert seen; induction l as [|x l IH]; intros seen; simpl.
  - intros H; inversion H.
  - case_decide as Hx.
    + apply IH.
    + intros [->|Hin]%elem_of_cons; [done|].
      apply IH in Hin. set_solver.
Qed.

Lemma filter_seen_NoDup seen l : NoDup (ids (filter_seen seen l)).
Proof.
  unfold ids.
  revert seen; induction l as [|x l IH]; intros seen; simpl.
  - constructor.
  - case_decide as Hx; [apply IH|].
    simpl. constructor; [|apply IH].
    intros (o & Heq & Hin)%list_elem_of_fmap.
    apply filter_seen_fresh in Hin. set_solver.
Qed.

Lemma filter_seen_first seen l i :
  i ∉ seen →
  first_with_id i (filter_seen seen l) = first_with_id i l.
Proof.
  unfold first_with_id.
  revert seen; induction l as [|x l IH]; intros seen Hi; simpl; [done|].
  case_decide as Hx; simpl.
  - rewrite bool_decide_eq_false_2 by set_solver. by apply IH.
  - destruct (decide (id x = i)) as [Hid|Hid].
    + by rewrite !bool_decide_eq_true_2.
    + rewrite !bool_decide_eq_false_2 by done. apply IH.
      rewrite not_elem_of_union, not_elem_of_singleton. split; congruence.
Qed.

End Dedup.

(** C4. For every input list, the dedup step returns a subsequence of
    the input, no longer than the input, in which no two records share a
    numeric id, and in which the record found for any numeric id is the
    first record with that id in the input (so every id of the input is
    kept once, by its first occurrence, whatever the later duplicates
    contain). *)
Theorem removeDuplicateOffers_spec (ofertas : list OfertaDocument) :
  sublist (removeDuplicateOffers ofertas) ofertas
  ∧ (List.length (removeDuplicateOffers ofertas) <= List.length ofertas)%nat
  ∧ NoDup (ids (removeDuplicateOffers ofertas))
  ∧ ∀ i, first_with_id i (removeDuplicateOffers ofertas)
         = first_with_id i ofertas.
Proof.
  unfold removeDuplicateOffers. split_and!.
  - apply filter_seen_sublist.
  - apply sublist_length, filter_seen_sublist.
  - apply filter_seen_NoDup.
  - intros i. apply filter_seen_first. set_solver.
Qed.

(** ** The database service *)

Ltac unfold_js :=
  unfold bind, try_catch, perform, read, ret, throw in *.


Lemma fault_error_code f : code (fault_error f) ≠ Some 11000.
Proof. destruct f; simpl; congruence. Qed.

Lemma insertOne_fault doc w f :
  pending_fault w = Some f →
  insertOne doc w = (Throw (fault_error f), attempted doc w).
Proof.
  unfold pending_fault, insertOne, storage_command, attempted. unfold_js.
  simpl. destruct (faults w) as [|[g|] fs]; intros H; try discriminate.
  by injection H as ->.
Qed.

Lemma insertOne_duplicate doc w :
  pending_fault w = None →
  violates_unique doc (ofertas_collection w) = true →
  insertOne doc w = (Throw duplicate_key_error, attempted doc w).
Proof.
  unfold pending_fault, insertOne, storage_command, attempted. unfold_js.
  simpl. intros Hf Hv.
  destruct (faults w) as [|[g|] fs]; try discriminate; simpl; by rewrite Hv.
Qed.

Lemma insertOne_fresh doc w :
  pending_fault w = None →
  violates_unique doc (ofertas_collection w) = false →
  insertOne doc w = (Return tt, store doc (attempted doc w)).
Proof.
  unfold pending_fault, insertOne, storage_command, attempted. unfold_js.
  simpl. intros Hf Hv.
  destruct (faults w) as [|[g|] fs]; try discriminate; simpl; by rewrite Hv.
Qed.

(** One turn of the loop, by what the insertion meets. *)
Lemma insert_each_fault doc rest i d w f :
  pending_fault w = Some f →
  insert_each (doc :: rest) i d w = (Throw (fault_error f), attempted doc w).
Proof.
  intros Hf. simpl. unfold bind at 1. unfold try_catch, bind at 1.
  rewrite (insertOne_fault _ _ _ Hf).
  rewrite bool_decide_eq_false_2 by apply fault_error_code. done.
Qed.

Lemma insert_each_duplicate doc rest i d w :
  pending_fault w = None →
  violates_unique doc (ofertas_collection w) = true →
  insert_each (doc :: rest) i d w = insert_each rest i (d + 1) (attempted doc w).
Proof.
  intros Hf Hv. simpl. unfold bind at 1. unfold try_catch, bind at 1.
  by rewrite (insertOne_duplicate _ _ Hf Hv).
Qed.

Lemma insert_each_fresh doc rest i d w :
  pending_fault w = None →
  violates_unique doc (ofertas_collection w) = false →
  insert_each (doc :: rest) i d w
  = insert_each rest (i + 1) d (store doc (attempted doc w)).
Proof.
  intros Hf Hv. simpl. unfold bind at 1. unfold try_catch, bind at 1.
  by rewrite (insertOne_fresh _ _ Hf Hv).
Qed.

(** Case analysis on one turn of the loop. *)
Ltac loop_turn doc w :=
  let f := fresh "f" in
  let Hf := fresh "Hf" in
  let Hv := fresh "Hv" in
  destruct (pending_fault w) as [f|] eqn:Hf;
  [ repeat rewrite (insert_each_fault doc _ _ _ w f Hf)
  | destruct (violates_unique doc (ofertas_collection w)) eqn:Hv;
    [ repeat rewrite (insert_each_duplicate doc _ _ _ w Hf Hv)
    | repeat rewrite (insert_each_fresh doc _ _ _ w Hf Hv) ] ].

Lemma insert_each_app l1 l2 i d w :
  insert_each (l1 ++ l2) i d w
  = match insert_each l1 i d w with
    | (Return c, w1) => insert_each l2 (insertedCount c) (duplicateCount c) w1
    | (Throw e, w1) => (Throw e, w1)
    end.
Proof.
  revert i d w; induction l1 as [|doc l1 IH]; intros i d w.
  - done.
  - rewrite <- app_comm_cons. loop_turn doc w; [done| |]; apply IH.
Qed.

Lemma insert_each_counts l i d w c w' :
  insert_each l i d w = (Return c, w') →
  insertedCount c + duplicateCount c = i + d + Z.of_nat (List.length l)
  ∧ i <= insertedCount c ∧ d <= duplicateCount c.
Proof.
  revert i d w; induction l as [|doc l IH]; intros i d w.
  - intros [= <- <-]. simpl. lia.
  - loop_turn doc w; [done| |]; intros H%IH; simpl List.length; lia.
Qed.

Lemma violates_unique_app doc stored extra :
  violates_unique doc stored = true →
  violates_unique doc (stored ++ extra) = true.
Proof.
  unfold violates_unique. rewrite existsb_app. by intros ->.
Qed.

Lemma violates_unique_self doc stored :
  violates_unique doc (stored ++ [doc]) = true.
Proof.
  unfold violates_unique. rewrite existsb_app. simpl.
  unfold same_key. rewrite !bool_decide_eq_true_2 by done.
  simpl. apply orb_true_r.
Qed.

(** The loop only ever extends the stored collection. *)
Lemma insert_each_extends l i d w r w' :
  insert_each l i d w = (r, w') →
  ∃ extra, ofertas_collection w' = ofertas_collection w ++ extra.
Proof.
  revert i d w; induction l as [|doc l IH]; intros i d w.
  - intros [= <- <-]. exists []. by rewrite app_nil_r.
  - loop_turn doc w.
    + intros [= <- <-]. exists []. by rewrite app_nil_r.
    + intros (extra & ->)%IH. by exists extra.
    + intros (extra & ->)%IH. simpl. exists (doc :: extra).
      by rewrite <- app_assoc.
Qed.

(** After a pass that completes, every record of the batch is known to
    the unique indexes. *)
Lemma insert_each_known l i d w c w' :
  insert_each l i d w = (Return c, w') →
  Forall (fun doc => violates_unique doc (ofertas_collection w') = true) l.
Proof.
  revert i d w; induction l as [|doc l IH]; intros i d w.
  - constructor.
  - loop_turn doc w; [done| |]; intros H.
    + constructor; [|by eapply IH].
      apply insert_each_extends in H as (extra & ->).
      by apply violates_unique_app.
    + constructor; [|by eapply IH].
      apply insert_each_extends in H as (extra & ->). simpl.
      apply violates_unique_app, violates_unique_self.
Qed.

(** A pass over records that are all known stores nothing, and counts
    every record as a duplicate when it completes. *)
Lemma insert_each_all_known l i d w :
  Forall (fun doc => violates_unique doc (ofertas_collection w) = true) l →
  ∀ r w', insert_each l i d w = (r, w') →
    ofertas_collection w' = ofertas_collection w
    ∧ ∀ c, r = Return c →
        insertedCount c = i
        ∧ duplicateCount c = d + Z.of_nat (List.length l).
Proof.
  revert i d w; induction l as [|doc l IH]; intros i d w Hall r w'.
  - intros [= <- <-]. split; [done|]. intros c [= <-]. simpl. lia.
  - inversion Hall as [|? ? Hdoc Hrest]; subst.
    loop_turn doc w.
    + intros [= <- <-]. split; [done|]. intros c; discriminate.
    + intros H. apply IH in H as [Hcol Hc]; [|done].
      split; [done|]. intros c Hr. apply Hc in Hr.
      simpl List.length. lia.
    + congruence.
Qed.

Lemma insert_each_no_fault l i d w :
  faults w = [] →
  ∃ c w', insert_each l i d w = (Return c, w') ∧ faults w' = [].
Proof.
  revert i d w; induction l as [|doc l IH]; intros i d w Hf.
  - by eexists _, _.
  - assert (pending_fault w = None) as Hp by (unfold pending_fault; by rewrite Hf).
    loop_turn doc w; [congruence| |]; apply IH; simpl; by rewrite Hf.
Qed.

Lemma insert_each_service l i d w r w' :
  insert_each l i d w = (r, w') →
  client w' = client w ∧ db w' = db w ∧ isConnected w' = isConnected w.
Proof.
  revert i d w; induction l as [|doc l IH]; intros i d w.
  - by intros [= <- <-].
  - loop_turn doc w.
    + by intros [= <- <-].
    + intros H%IH. apply H.
    + intros H%IH. apply H.
Qed.


Lemma insertOfertas_nil w :
  isConnected w && client w = true →
  insertOfertas [] w
  = (Return {| insertedCount := 0; duplicateCount := 0 |}, w).
Proof.
  intros H. unfold insertOfertas, isConnectionActive. unfold_js. by rewrite H.
Qed.

Lemma insertOfertas_ready ofertas w :
  ready w → ofertas ≠ [] →
  insertOfertas ofertas w = insert_each ofertas 0 0 w.
Proof.
  intros (Hi & Hc & Hd) Hne.
  unfold insertOfertas, isConnectionActive, getOfertasCollection. unfold_js.
  rewrite Hi, Hc. simpl.
  destruct ofertas; [done|]. rewrite bool_decide_eq_false_2 by done.
  by rewrite Hd.
Qed.

(** A call that returns counts went through the guards. *)
Lemma insertOfertas_returns ofertas w c w' :
  insertOfertas ofertas w = (Return c, w') →
  isConnected w && client w = true
  ∧ (ofertas = [] ∧ c = {| insertedCount := 0; duplicateCount := 0 |} ∧ w' = w
     ∨ ofertas ≠ [] ∧ ready w ∧ insert_each ofertas 0 0 w = (Return c, w')).
Proof.
  unfold insertOfertas, isConnectionActive, getOfertasCollection, ready.
  unfold_js.
  destruct (isConnected w && client w) eqn:Ha; simpl; [|done].
  apply andb_true_iff in Ha as [Hi Hc].
  destruct ofertas as [|doc rest].
  - intros [= <- <-]. split; [done|]. by left.
  - rewrite bool_decide_eq_false_2 by done.
    destruct (db w) eqn:Hd; simpl; [|done].
    intros H. split; [done|]. right. by repeat split.
Qed.

Lemma insertOfertas_total ofertas w c w' :
  insertOfertas ofertas w = (Return c, w') →
  insertedCount c + duplicateCount c = Z.of_nat (List.length ofertas)
  ∧ 0 <= insertedCount c ∧ 0 <= duplicateCount c.
Proof.
  intros H. apply insertOfertas_returns in H as [_ [(-> & -> & _)|(_ & _ & H)]].
  - simpl. lia.
  - apply insert_each_counts in H. lia.
Qed.

(** C10. Whenever [insertOfertas] returns, the two counts are
    non-negative and add up to the size of the submitted batch; on the
    empty batch, with the connection active, it returns 0 and 0 and
    leaves the world — stored collection and operation trace — as it
    was, so no storage write is performed. *)
Theorem insertOfertas_counts (ofertas : list OfertaDocument) (w : World) :
  (∀ c w', insertOfertas ofertas w = (Return c, w') →
     insertedCount c + duplicateCount c = Z.of_nat (List.length ofertas)
     ∧ 0 <= insertedCount c ∧ 0 <= duplicateCount c)
  ∧ (isConnected w && client w = true →
     insertOfertas [] w
     = (Return {| insertedCount := 0; duplicateCount := 0 |}, w)).
Proof.
  split; [|apply insertOfertas_nil].
  intros c w'. apply insertOfertas_total.
Qed.

(** C6. While [insertOfertas] works through a batch
    [before ++ oferta :: rest], let [w1] be the world in which the loop
    reaches [oferta].  If the insertion of [oferta] violates a unique
    index, the record is skipped — nothing is stored for it — the
    duplicate counter goes up by one and the loop carries on with
    [rest]; if the insertion meets any other storage failure, the call
    throws that failure right there and no record of [rest] is
    attempted. *)
Theorem insertOfertas_error_policy
    (before rest : list OfertaDocument) (oferta : OfertaDocument)
    (w w1 : World) (c : InsertCounts) :
  ready w →
  insert_each before 0 0 w = (Return c, w1) →
  (pending_fault w1 = None →
   violates_unique oferta (ofertas_collection w1) = true →
   insertOne oferta w1 = (Throw duplicate_key_error, attempted oferta w1)
   ∧ ofertas_collection (attempted oferta w1) = ofertas_collection w1
   ∧ insertOfertas (before ++ oferta :: rest) w
     = insert_each rest (insertedCount c) (duplicateCount c + 1)
         (attempted oferta w1))
  ∧ (∀ f, pending_fault w1 = Some f →
     insertOne oferta w1 = (Throw (fault_error f), attempted oferta w1)
     ∧ insertOfertas (before ++ oferta :: rest) w
       = (Throw (fault_error f), attempted oferta w1)).
Proof.
  intros Hready Hbefore.
  assert (insertOfertas (before ++ oferta :: rest) w
          = insert_each (oferta :: rest) (insertedCount c) (duplicateCount c) w1)
    as Hcall.
  { rewrite insertOfertas_ready; [|done|by destruct before].
    by rewrite insert_each_app, Hbefore. }
  split.
  - intros Hf Hv. split_and!.
    + by apply insertOne_duplicate.
    + done.
    + by rewrite Hcall, insert_each_duplicate.
  - intros f Hf. split.
    + by apply insertOne_fault.
    + by rewrite Hcall, (insert_each_fault _ _ _ _ _ f).
Qed.

(** C5. Once [insertOfertas] has returned for a batch, submitting the
    identical batch again stores nothing: the collection after the
    second call is the collection after the first, and when the second
    call returns it reports no insertion and every record as a
    duplicate; with no storage failure pending it does return. *)
Theorem insertOfertas_idempotent
    (ofertas : list OfertaDocument) (w w1 : World) (c1 : InsertCounts) :
  insertOfertas ofertas w = (Return c1, w1) →
  (∀ r2 w2, insertOfertas ofertas w1 = (r2, w2) →
     ofertas_collection w2 = ofertas_collection w1
     ∧ ∀ c2, r2 = Return c2 →
         insertedCount c2 = 0
         ∧ duplicateCount c2 = Z.of_nat (List.length ofertas))
  ∧ (faults w1 = [] →
     ∃ w2, insertOfertas ofertas w1
           = (Return {| insertedCount := 0;
                        duplicateCount := Z.of_nat (List.length ofertas) |},
              w2)
           ∧ ofertas_collection w2 = ofertas_collection w1).
Proof.
  intros H1.
  apply insertOfertas_returns in H1 as [Ha [(-> & -> & ->)|(Hne & Hready & H1)]].
  - rewrite (insertOfertas_nil _ Ha). split.
    + intros r2 w2 [= <- <-]. split; [done|]. by intros c2 [= <-].
    + intros _. by exists w.
  - assert (ready w1) as Hready1.
    { destruct Hready as (? & ? & ?).
      apply insert_each_service in H1 as (? & ? & ?).
      unfold ready. split_and!; congruence. }
    rewrite (insertOfertas_ready _ _ Hready1 Hne).
    pose proof (insert_each_known _ _ _ _ _ _ H1) as Hknown.
    split.
    + intros r2 w2 H2.
      destruct (insert_each_all_known _ 0 0 _ Hknown _ _ H2) as [Hcol Hc].
      split; [done|]. intros c2 Hr. apply Hc in Hr. lia.
    + intros Hf.
      destruct (insert_each_no_fault ofertas 0 0 w1 Hf) as (c2 & w2 & H2 & _).
      destruct (insert_each_all_known _ 0 0 _ Hknown _ _ H2) as [Hcol Hc].
      destruct (Hc c2 eq_refl) as [Hi Hd].
      exists w2. split; [|done]. rewrite H2. f_equal.
      destruct c2 as [i2 d2]; simpl in *. repeat f_equal; lia.
Qed.

(** ** The paginated fetcher *)

Section Fetcher.

Variable this : ChileCompraApiService.

Implicit Types (w : World) (first : ApiQueryParams) (pages : Z → Payload).

Lemma fetchPage_run params w :
  fetchPage this params w
  = (page_result (api (env w) params),
     emit (HttpGet (endpoint_url this) params) w).
Proof.
  unfold fetchPage, page_result, axios_settle. unfold_js. simpl.
  destruct (api (env w) params) as [| |s data]; try done.
  destruct (bool_decide (200 <= s < 300)); simpl; [|done].
  destruct (bool_decide (success data = "OK")); simpl; [|done].
  by destruct (payload data).
Qed.

Lemma page_result_succeeds r p :
  succeeds r p → page_result r = Return {| success := "OK"; payload := Some p |}.
Proof.
  intros (s & -> & Hs). unfold page_result.
  rewrite (bool_decide_eq_true_2 _ Hs). cbn [success payload].
  by rewrite bool_decide_eq_true_2.
Qed.

Lemma page_result_fails r : fails r → ∃ error, page_result r = Throw error.
Proof.
  destruct r as [| |s data]; simpl; [by eexists..|].
  intros H. case_bool_decide as Hs; [|by eexists].
  case_bool_decide as Hok; [|by eexists].
  destruct (payload data) eqn:Hp; [|by eexists].
  destruct H as [?|[?|?]]; done.
Qed.

(** Every answer either succeeds with a payload or fails. *)
Lemma succeeds_or_fails r : (∃ p, succeeds r p) ∨ fails r.
Proof.
  destruct r as [| |s [ok [p|]]]; simpl; try by right.
  - destruct (decide (200 <= s < 300)); [|right; by left].
    destruct (decide (ok = "OK")) as [->|]; [|right; right; by left].
    left. exists p, s. done.
  - right. right. by right.
Qed.

Lemma paced_request_run first p w :
  (delay (delayBetweenRequests this);;; fetchPage this (with_page first p)) w
  = (page_result (api (env w) (with_page first p)),
     emit (HttpGet (endpoint_url this) (with_page first p))
       (advance (delayBetweenRequests this)
          (emit (Sleep (delayBetweenRequests this)) w))).
Proof.
  unfold delay, sleep. unfold_js. by rewrite fetchPage_run.
Qed.

Lemma remaining_pages_succeed first pages count :
  ∀ currentPage allOfertas w,
    (∀ p, currentPage <= p < currentPage + Z.of_nat count →
          succeeds (api (env w) (with_page first p)) (pages p)) →
    ∃ w',
      remaining_pages this count currentPage first allOfertas w
      = (allOfertas ++ records_of pages currentPage (Z.of_nat count), Return tt, w')
      ∧ env w' = env w
      ∧ trace w'
        = trace w ++ page_requests this first (seqZ currentPage (Z.of_nat count)).
Proof.
  unfold records_of, page_requests.
  induction count as [|count IH]; intros currentPage allOfertas w Hok.
  - exists w. simpl. by rewrite !app_nil_r.
  - cbn [remaining_pages]. rewrite paced_request_run.
    assert (currentPage <= currentPage < currentPage + Z.of_nat (S count))
      as Hcur by lia.
    rewrite (page_result_succeeds _ _ (Hok _ Hcur)).
    simpl payload. cbv iota.
    edestruct (IH (currentPage + 1)) as (w' & -> & Henv & Htrace).
    { intros p Hp. apply Hok. lia. }
    exists w'. rewrite (seqZ_cons currentPage (Z.of_nat (S count))) by lia.
    replace (Z.pred (Z.of_nat (S count))) with (Z.of_nat count) by lia.
    replace (Z.succ currentPage) with (currentPage + 1) by lia.
    simpl. rewrite <- app_assoc. split_and!; [done|by rewrite Henv|].
    rewrite Htrace. simpl. by rewrite <- !app_assoc.
Qed.

Lemma remaining_pages_fail first pages error count :
  ∀ currentPage allOfertas w j,
    currentPage <= j < currentPage + Z.of_nat count →
    (∀ p, currentPage <= p < j →
          succeeds (api (env w) (with_page first p)) (pages p)) →
    page_result (api (env w) (with_page first j)) = Throw error →
    ∃ w',
      remaining_pages this count currentPage first allOfertas w
      = (allOfertas ++ records_of pages currentPage (j - currentPage),
         Throw error, w')
      ∧ trace w'
        = trace w
          ++ page_requests this first (seqZ currentPage (j - currentPage + 1)).
Proof.
  unfold records_of, page_requests.
  induction count as [|count IH]; intros currentPage allOfertas w j Hj Hok Hfail.
  - lia.
  - cbn [remaining_pages]. rewrite paced_request_run.
    destruct (decide (j = currentPage)) as [->|Hne].
    + rewrite Hfail. eexists. split.
      * replace (currentPage - currentPage) with 0 by lia.
        simpl. by rewrite app_nil_r.
      * replace (currentPage - currentPage + 1) with 1 by lia.
        simpl. by rewrite <- app_assoc.
    + assert (currentPage <= currentPage < j) as Hcur by lia.
      rewrite (page_result_succeeds _ _ (Hok _ Hcur)).
      simpl payload. cbv iota.
      match goal with
      | |- context [remaining_pages _ _ _ _ ?acc ?w1] =>
          destruct (IH (currentPage + 1) acc w1 j) as (w' & -> & Htrace)
      end.
      { lia. }
      { intros p Hp. apply Hok. lia. }
      { apply Hfail. }
      exists w'.
      rewrite (seqZ_cons currentPage (j - currentPage)) by lia.
      rewrite (seqZ_cons currentPage (j - currentPage + 1)) by lia.
      replace (Z.pred (j - currentPage)) with (j - (currentPage + 1)) by lia.
      replace (Z.pred (j - currentPage + 1)) with (j - (currentPage + 1) + 1) by lia.
      replace (Z.succ currentPage) with (currentPage + 1) by lia.
      simpl. rewrite <- app_assoc. split; [done|].
      rewrite Htrace. simpl. by rewrite <- !app_assoc.
Qed.

Lemma count_page_requests first l :
  List.length (List.filter is_page_request (page_requests this first l))
  = List.length l.
Proof.
  unfold page_requests. induction l as [|p l IH]; simpl; [done|].
  by rewrite IH.
Qed.

End Fetcher.

Lemma records_of_cons pages m n :
  0 < n →
  records_of pages m n = resultados (pages m) ++ records_of pages (m + 1) (n - 1).
Proof.
  intros Hn. unfold records_of. rewrite seqZ_cons by done.
  by replace (Z.succ m) with (m + 1) by lia.
Qed.

(** C7. When the first page reports [pageCount = k] with [1 <= k] and
    the requests for pages 1 to [k] all succeed, [getAllOfertas]
    returns the records of pages 1 to [k] concatenated in page order,
    and what it does on the network is: the request for page 1, then
    for each page from 2 to [k] in turn the configured delay followed
    by the request for that page — [k] page requests in all. *)
Theorem getAllOfertas_all_pages
    (this : ChileCompraApiService) (baseParams : Partial.t) (w : World)
    (k : Z) (pages : Z → Payload) :
  1 <= k →
  pageCount (pages 1) = k →
  (∀ p, 1 <= p <= k →
        succeeds (api (env w) (firstPageParams baseParams p)) (pages p)) →
  ∃ w' issued,
    getAllOfertas this baseParams w = (Return (records_of pages 1 k), w')
    ∧ trace w' = trace w ++ issued
    ∧ issued
      = HttpGet (endpoint_url this) (firstPageParams baseParams 1)
        :: page_requests this (firstPageParams baseParams 1) (seqZ 2 (k - 1))
    ∧ List.length (List.filter is_page_request issued) = Z.to_nat k.
Proof.
  intros Hk Hcount Hok.
  unfold getAllOfertas. rewrite fetchPage_run.
  rewrite (page_result_succeeds _ _ (Hok 1 ltac:(lia))).
  cbn [payload]. rewrite Hcount.
  match goal with
  | |- context [remaining_pages _ ?n _ ?first ?acc ?w1] =>
      destruct (remaining_pages_succeed this first pages n 2 acc w1)
        as (w' & -> & Henv & Htrace)
  end.
  { intros p Hp. apply (Hok p). lia. }
  rewrite Z2Nat.id in * by lia.
  exists w'. eexists. split_and!.
  - rewrite (records_of_cons pages 1 k) by lia. done.
  - rewrite Htrace. simpl. rewrite <- app_assoc. done.
  - done.
  - simpl. rewrite count_page_requests, length_seqZ. lia.
Qed.

(** C3. Let the request for page [j] fail — network error, timeout,
    HTTP or API status other than success, body without payload —
    after the requests for the pages before it succeeded ([j] is page 1,
    or a later page within the page count announced by page 1).  Then
    no page after [j] is requested, and [getAllOfertas] returns the
    records accumulated from pages 1 to [j - 1] when there is at least
    one, and otherwise throws the error of the failed request. *)
Theorem getAllOfertas_partial_failure
    (this : ChileCompraApiService) (baseParams : Partial.t) (w : World)
    (j : Z) (pages : Z → Payload) :
  1 <= j →
  (1 < j → j <= pageCount (pages 1)) →
  (∀ p, 1 <= p < j →
        succeeds (api (env w) (firstPageParams baseParams p)) (pages p)) →
  fails (api (env w) (firstPageParams baseParams j)) →
  ∃ error w',
    page_result (api (env w) (firstPageParams baseParams j)) = Throw error
    ∧ getAllOfertas this baseParams w
      = (match records_of pages 1 (j - 1) with
         | [] => Throw error
         | _ :: _ => Return (records_of pages 1 (j - 1))
         end, w')
    ∧ trace w'
      = trace w
        ++ HttpGet (endpoint_url this) (firstPageParams baseParams 1)
           :: page_requests this (firstPageParams baseParams 1) (seqZ 2 (j - 1)).
Proof.
  intros Hj Hwithin Hok Hfail.
  destruct (page_result_fails _ Hfail) as (error & Herror).
  exists error. unfold getAllOfertas.
  rewrite fetchPage_run.
  destruct (decide (j = 1)) as [->|Hne].
  - rewrite Herror. eexists. split_and!; [done| |].
    + simpl. done.
    + simpl. done.
  - rewrite (page_result_succeeds _ _ (Hok 1 ltac:(lia))).
    cbn [payload].
    match goal with
    | |- context [remaining_pages _ ?n _ ?first ?acc ?w1] =>
        destruct (remaining_pages_fail this first pages error n 2 acc w1 j)
          as (w' & -> & Htrace)
    end.
    { lia. }
    { intros p Hp. apply (Hok p). lia. }
    { apply Herror. }
    exists w'. split_and!; [done| |].
    + rewrite (records_of_cons pages 1 (j - 1)) by lia.
      replace (j - 1 - 1) with (j - 2) by lia. change (1 + 1) with 2.
      rewrite app_nil_l.
      destruct (resultados (pages 1) ++ records_of pages 2 (j - 2)).
      * rewrite bool_decide_eq_false_2 by (simpl; lia). done.
      * rewrite bool_decide_eq_true_2 by (simpl; lia). done.
    + rewrite Htrace. simpl. rewrite <- app_assoc.
      by replace (j - 2 + 1) with (j - 1) by lia.
Qed.

(** ** Validation of the date bounds *)

Lemma falsy_missing x : falsy x = true ↔ missing x.
Proof.
  unfold falsy, missing. destruct x as [s|].
  - rewrite bool_decide_eq_true. split.
    + intros ->. by right.
    + intros [?|[= ->]]; done.
  - split; [by left|done].
Qed.

Ltac next_char s :=
  let c := fresh "c" in
  destruct s as [|c s]; cbn in *; [discriminate|];
  first
    [ destruct (is_digit c) eqn:?; [|discriminate]
    | destruct (decide (c = "-"%char)) as [->|?];
      [ rewrite ?bool_decide_eq_true_2 in * by done
      | rewrite bool_decide_eq_false_2 in * by done; discriminate ] ].

Lemma test_dateRegex s : test dateRegex s = true ↔ calendar_format s.
Proof.
  split.
  - unfold test, dateRegex. intros H.
    do 10 next_char s.
    destruct s; [|discriminate].
    unfold calendar_format. do 8 eexists. split; [|reflexivity].
    repeat constructor; assumption.
  - intros (y1 & y2 & y3 & y4 & m1 & m2 & d1 & d2 & Hall & ->).
    repeat match goal with
           | H : Forall _ (_ :: _) |- _ => apply Forall_cons in H as [? H]
           end.
    unfold test, dateRegex. cbn.
    repeat (first
              [ match goal with
                | H : is_digit ?c = true |- context [is_digit ?c] => rewrite H
                end
              | rewrite bool_decide_eq_true_2 by done ];
            cbn).
    reflexivity.
Qed.

Lemma test_dateRegex_false s : test dateRegex s = false ↔ ¬ calendar_format s.
Proof.
  rewrite <- test_dateRegex. by destruct (test dateRegex s).
Qed.

Lemma date_gt_later a b :
  date_gt (Date_parse a) (Date_parse b) = true ↔ later a b.
Proof.
  unfold date_gt, later.
  destruct (Date_parse a) as [ta|], (Date_parse b) as [tb|];
    try (split; [discriminate|by intros (? & ? & ? & ? & ?)]).
  rewrite Z.ltb_lt. split.
  - intros H. by exists ta, tb.
  - intros (? & ? & [= <-] & [= <-] & H). done.
Qed.

(** *** Order of time values and order in the calendar *)

Lemma DayFromYear_succ y :
  DayFromYear (y + 1) = DayFromYear y + 365 + (if InLeapYear y then 1 else 0).
Proof.
  unfold DayFromYear, InLeapYear.
  destruct (Z.eqb_spec (y mod 4) 0), (Z.eqb_spec (y mod 100) 0),
    (Z.eqb_spec (y mod 400) 0); cbn [negb andb orb];
    Z.div_mod_to_equations; lia.
Qed.

Lemma DayFromYear_mono y1 y2 : y1 <= y2 → DayFromYear y1 <= DayFromYear y2.
Proof.
  intros H. unfold DayFromYear. Z.div_mod_to_equations. lia.
Qed.

Lemma month_cases m :
  1 <= m <= 12 →
  m = 1 ∨ m = 2 ∨ m = 3 ∨ m = 4 ∨ m = 5 ∨ m = 6
  ∨ m = 7 ∨ m = 8 ∨ m = 9 ∨ m = 10 ∨ m = 11 ∨ m = 12.
Proof. lia. Qed.

(** Day number within the year of a day that exists. *)
Lemma day_of_year_bounds y m d :
  1 <= m <= 12 → 1 <= d <= days_in_month y m →
  0 <= days_before_month (InLeapYear y) (m - 1) + d - 1
    < 365 + (if InLeapYear y then 1 else 0).
Proof.
  intros Hm Hd. apply month_cases in Hm. unfold days_in_month in Hd.
  destruct (InLeapYear y);
    repeat (destruct Hm as [->|Hm]); try subst m; simpl in *; lia.
Qed.

Lemma day_of_year_mono leap y m1 d1 m2 d2 :
  leap = InLeapYear y →
  1 <= m1 <= 12 → 1 <= d1 <= days_in_month y m1 →
  1 <= m2 <= 12 → 1 <= d2 →
  m1 < m2 ∨ m1 = m2 ∧ d1 < d2 →
  days_before_month leap (m1 - 1) + d1 < days_before_month leap (m2 - 1) + d2.
Proof.
  intros -> Hm1 Hd1 Hm2 Hd2 Hlt.
  apply month_cases in Hm1. apply month_cases in Hm2.
  unfold days_in_month in Hd1.
  destruct (InLeapYear y);
    repeat (destruct Hm1 as [->|Hm1]); try subst m1;
    repeat (destruct Hm2 as [->|Hm2]); try subst m2;
    simpl in *; lia.
Qed.

Lemma MakeDay_in_year y m d :
  1 <= m <= 12 →
  MakeDay y (m - 1) d
  = DayFromYear y + days_before_month (InLeapYear y) (m - 1) + d - 1.
Proof.
  intros Hm. unfold MakeDay.
  rewrite Z.div_small, Z.mod_small by lia. by rewrite Z.add_0_r.
Qed.

Lemma Date_parse_real s :
  real_calendar_date s →
  Date_parse s
  = Some (MakeDay (year_of s) (month_of s - 1) (day_of s) * msPerDay).
Proof.
  intros (Hformat & Hm & Hd). unfold Date_parse.
  rewrite (proj2 (test_dateRegex s) Hformat).
  fold (year_of s) (month_of s) (day_of s).
  assert (day_of s <= 31).
  { apply month_cases in Hm. unfold days_in_month in Hd.
    destruct (InLeapYear (year_of s));
      repeat (destruct Hm as [Hm|Hm]); rewrite Hm in Hd; lia. }
  destruct (Z.leb_spec 1 (month_of s)); [|lia].
  destruct (Z.leb_spec (month_of s) 12); [|lia].
  destruct (Z.leb_spec 1 (day_of s)); [|lia].
  destruct (Z.leb_spec (day_of s) 31); [|lia].
  done.
Qed.

Lemma MakeDay_after a b :
  real_calendar_date a → real_calendar_date b →
  chronologically_after a b →
  MakeDay (year_of b) (month_of b - 1) (day_of b)
  < MakeDay (year_of a) (month_of a - 1) (day_of a).
Proof.
  intros (_ & Hma & Hda) (_ & Hmb & Hdb) Hafter.
  rewrite !MakeDay_in_year by done.
  pose proof (day_of_year_bounds _ _ _ Hma Hda) as Ha.
  pose proof (day_of_year_bounds _ _ _ Hmb Hdb) as Hb.
  destruct Hafter as [Hy|[Hy Hmd]].
  - pose proof (DayFromYear_succ (year_of b)) as Hsucc.
    pose proof (DayFromYear_mono (year_of b + 1) (year_of a) ltac:(lia)).
    lia.
  - rewrite Hy in *.
    pose proof (day_of_year_mono _ _ _ _ _ _ eq_refl Hmb Hdb Hma
                  (proj1 Hda) Hmd).
    lia.
Qed.

(** For days that exist in the calendar, [later] is calendar order. *)
Lemma later_chronological a b :
  real_calendar_date a → real_calendar_date b →
  later a b ↔ chronologically_after a b.
Proof.
  intros Ha Hb. unfold later.
  rewrite (Date_parse_real a Ha), (Date_parse_real b Hb).
  split.
  - intros (ta & tb & [= <-] & [= <-] & Hlt).
    assert (¬ chronologically_after b a) as Hnot.
    { intros H%MakeDay_after; [|done..]. unfold msPerDay in *. lia. }
    unfold chronologically_after in *.
    destruct (decide (year_of a = year_of b)) as [Hy|?]; [|lia].
    destruct (decide (month_of a = month_of b)) as [Hm|?]; [|lia].
    destruct (decide (day_of a = day_of b)) as [Hd|?]; [|lia].
    rewrite Hy, Hm, Hd in Hlt. lia.
  - intros H%MakeDay_after; [|done..].
    eexists _, _. split; [done|]. split; [done|]. unfold msPerDay. lia.
Qed.

Lemma getOfertasWithParams_checks
    (this : ChileCompraApiService) (params : Partial.t) (w : World) :
  (bad_date_range (Partial.date_from params) (Partial.date_to params) →
   ∃ error, getOfertasWithParams this params w = (Throw error, w))
  ∧ (¬ bad_date_range (Partial.date_from params) (Partial.date_to params) →
     getOfertasWithParams this params w = getAllOfertas this params w).
Proof.
  unfold getOfertasWithParams, bad_date_range.
  destruct (falsy (Partial.date_from params)) eqn:Hfrom; cbn [orb].
  { apply falsy_missing in Hfrom. split; [intros _; eexists; reflexivity|tauto]. }
  destruct (falsy (Partial.date_to params)) eqn:Hto; cbn [orb].
  { apply falsy_missing in Hto. split; [intros _; eexists; reflexivity|tauto]. }
  assert (¬ missing (Partial.date_from params)) as Hfrom'
    by (rewrite <- falsy_missing; congruence).
  assert (¬ missing (Partial.date_to params)) as Hto'
    by (rewrite <- falsy_missing; congruence).
  destruct (Partial.date_from params) as [a|]; [|by destruct Hfrom'; left].
  destruct (Partial.date_to params) as [b|]; [|by destruct Hto'; left].
  change (default EmptyString (Some a)) with a. change (default EmptyString (Some b)) with b.
  destruct (test dateRegex a) eqn:Ha; cbn [negb orb].
  2:{ apply test_dateRegex_false in Ha.
      split; [intros _; eexists; reflexivity|].
      intros H. destruct H. right; right. exists a, b. tauto. }
  destruct (test dateRegex b) eqn:Hb; cbn [negb orb].
  2:{ apply test_dateRegex_false in Hb.
      split; [intros _; eexists; reflexivity|].
      intros H. destruct H. right; right. exists a, b. tauto. }
  apply test_dateRegex in Ha, Hb.
  destruct (date_gt (Date_parse a) (Date_parse b)) eqn:Hgt.
  - apply date_gt_later in Hgt. split; [intros _; eexists; reflexivity|].
    intros H. destruct H. right; right. exists a, b. tauto.
  - assert (¬ later a b) as Hnot
      by (rewrite <- date_gt_later; congruence).
    split; [|done].
    intros [?|[?|(a' & b' & [= <-] & [= <-] & [?|[?|?]])]]; done.
Qed.

(** C8. A call whose [date_from] or [date_to] is missing, or not in
    YYYY-MM-DD format, or whose [date_from] is later than its
    [date_to], is rejected with an error and leaves the world untouched
    — in particular no request has been made; every other call goes on
    to [getAllOfertas] with the same parameters, so no validation error
    is raised for it.  "Later" compares the instants the two strings
    denote, which for days that exist in the calendar is the order of
    the calendar. *)
Theorem getOfertasWithParams_validation
    (this : ChileCompraApiService) (params : Partial.t) (w : World) :
  (bad_date_range (Partial.date_from params) (Partial.date_to params) →
   ∃ error, getOfertasWithParams this params w = (Throw error, w))
  ∧ (¬ bad_date_range (Partial.date_from params) (Partial.date_to params) →
     getOfertasWithParams this params w = getAllOfertas this params w)
  ∧ (∀ a b, real_calendar_date a → real_calendar_date b →
            (later a b ↔ chronologically_after a b)).
Proof.
  destruct (getOfertasWithParams_checks this params w) as [Hbad Hgood].
  split_and!; [exact Hbad|exact Hgood|apply later_chronological].
Qed.

(** ** The notifier *)

Lemma prepareOfertasForEmail_length ofertas :
  List.length (prepareOfertasForEmail ofertas) = List.length ofertas.
Proof. unfold prepareOfertasForEmail. apply length_map. Qed.

Section Notifier.

Variable this : EmailService.

Lemma sendOfertasReport_run ofertas emprendimiento recipients fecha w :
  let label := string_or fecha (toLocaleDateString (env w) (clock w)) in
  let msg := report_message ofertas emprendimiento recipients label (clock w) in
  sendOfertasReport this ofertas emprendimiento recipients fecha w
  = (Return (delivered (mail (env w) msg)),
     emit (HttpPost (emailServiceUrl this) msg) w).
Proof.
  unfold sendOfertasReport, generateEmailHTML, report_message, now.
  rewrite prepareOfertasForEmail_length.
  destruct ofertas as [|oferta rest];
    [rewrite bool_decide_eq_true_2 by done
    |rewrite bool_decide_eq_false_2 by done];
    unfold_js; cbn.
  - match goal with
    | |- context [mail (env w) ?m] => destruct (mail (env w) m) as [| |s []]
    end; cbn; try done.
    destruct (decide (s = 200)) as [->|Hs]; [done|].
    rewrite (bool_decide_eq_false_2 (s = 200)) by done.
    case_bool_decide; cbn; [|done].
    by rewrite bool_decide_eq_false_2.
  - match goal with
    | |- context [mail (env w) ?m] => destruct (mail (env w) m) as [| |s []]
    end; cbn; try done.
    destruct (decide (s = 200)) as [->|Hs]; [done|].
    rewrite (bool_decide_eq_false_2 (s = 200)) by done.
    case_bool_decide; cbn; [|done].
    by rewrite bool_decide_eq_false_2.
Qed.

Lemma sendErrorNotification_run error emprendimiento recipients w :
  let msg := error_message error emprendimiento recipients (clock w) in
  sendErrorNotification this error emprendimiento recipients w
  = (Return (delivered (mail (env w) msg)),
     emit (HttpPost (emailServiceUrl this) msg) w).
Proof.
  unfold sendErrorNotification, error_message, now.
  unfold_js. cbn.
  match goal with
  | |- context [mail (env w) ?m] => destruct (mail (env w) m) as [| |s []]
  end; cbn; try done.
  destruct (decide (s = 200)) as [->|Hs]; [done|].
  rewrite (bool_decide_eq_false_2 (s = 200)) by done.
  case_bool_decide; cbn; [|done].
  by rewrite bool_decide_eq_false_2.
Qed.

Lemma delivered_200 {A} (r : HttpResult A) :
  delivered r = true ↔ ∃ data, r = Response 200 data.
Proof.
  destruct r as [| |s data]; simpl.
  - split; [done|by intros (? & ?)].
  - split; [done|by intros (? & ?)].
  - rewrite bool_decide_eq_true. split.
    + intros ->. by exists data.
    + by intros (? & [= -> _]).
Qed.

End Notifier.

(** C9. For every record list, business-line name, recipient list and
    period label, [sendOfertasReport] returns a boolean and never
    throws; it posts one message, addressed to the recipients, whose
    body is the empty-state report exactly when the record list is
    empty; and the boolean is [true] exactly when the delivery endpoint
    answers that message with status 200. *)
Theorem sendOfertasReport_outcome
    (this : EmailService) (ofertas : list OfertaDocument)
    (emprendimiento : string) (recipients : list string)
    (fecha : option string) (w : World) :
  ∃ sent w' emailConfig,
    sendOfertasReport this ofertas emprendimiento recipients fecha w
    = (Return sent, w')
    ∧ trace w' = trace w ++ [HttpPost (emailServiceUrl this) emailConfig]
    ∧ to emailConfig = recipients
    ∧ (ofertas = [] ↔
       ∃ label generated,
         html emailConfig = EmptyReportHtml emprendimiento label generated)
    ∧ (sent = true ↔ ∃ data, mail (env w) emailConfig = Response 200 data).
Proof.
  rewrite sendOfertasReport_run. cbv zeta. eexists _, _, _.
  split_and!; [reflexivity|reflexivity|reflexivity| |apply delivered_200].
  unfold report_message. destruct ofertas as [|oferta rest]; cbn.
  - split; [intros _; by eexists _, _|done].
  - split; [done|by intros (? & ? & ?)].
Qed.

(** ** The orchestrator *)

Lemma slice_prefix {A} (l : list A) (n : Z) :
  0 <= n → slice l 0 n = firstn (Z.to_nat n) l.
Proof.
  intros Hn. unfold slice. cbv zeta.
  change (0 <? 0) with false. cbv iota.
  destruct (n <? 0) eqn:Hneg; [lia|].
  rewrite (Z.min_l 0) by lia. change (Z.to_nat 0) with 0%nat. rewrite drop_0.
  destruct (decide (n <= Z.of_nat (List.length l))).
  - rewrite Z.min_l by lia. rewrite Z.sub_0_r, Z.max_l by lia. done.
  - rewrite Z.min_r by lia. rewrite Z.sub_0_r, Z.max_l by lia.
    rewrite !take_ge by lia. done.
Qed.

Lemma period_label_nonempty dateRange : period_label dateRange ≠ EmptyString.
Proof.
  unfold period_label. by destruct (DateRange.from dateRange).
Qed.

Lemma string_or_label dateRange fallback :
  string_or (Some (period_label dateRange)) fallback = period_label dateRange.
Proof.
  unfold string_or. by rewrite bool_decide_eq_false_2 by apply period_label_nonempty.
Qed.

Lemma has_recipients_true emprendimiento :
  has_recipients emprendimiento = true
  ↔ EmprendimientoConfig.emailRecipients emprendimiento ≠ [].
Proof.
  unfold has_recipients. rewrite bool_decide_eq_true.
  destruct (EmprendimientoConfig.emailRecipients emprendimiento); simpl.
  - split; [lia|done].
  - split; [done|lia].
Qed.

Lemma has_recipients_false emprendimiento :
  has_recipients emprendimiento = false
  ↔ EmprendimientoConfig.emailRecipients emprendimiento = [].
Proof.
  unfold has_recipients. rewrite bool_decide_eq_false.
  destruct (EmprendimientoConfig.emailRecipients emprendimiento); simpl.
  - split; [done|lia].
  - split; [lia|done].
Qed.

Lemma startDate_valid : Date_parse "2025-08-01" = Some 1754006400000.
Proof. by vm_compute. Qed.

Lemma generateDateRange_returns isInitialRun w :
  ∃ dateRange, generateDateRange isInitialRun w = (Return dateRange, w).
Proof.
  unfold generateDateRange, now. rewrite startDate_valid.
  unfold formatDate. unfold_js. destruct isInitialRun; by eexists.
Qed.

Section Orchestrator.

Variable this : ExtractionService.

Implicit Types (emprendimiento : EmprendimientoConfig.t).
Implicit Types (dateRange : DateRange.t) (w : World).

(** A failing query configuration never escapes the loop over the
    query configurations. *)
Lemma extract_each_returns emprendimiento dateRange endpoints :
  ∀ allOfertas w,
    ∃ ofertas w',
      extract_each this emprendimiento endpoints dateRange allOfertas w
      = (Return ofertas, w').
Proof.
  induction endpoints as [|endpoint rest IH]; intros allOfertas w.
  - by eexists _, _.
  - cbn [extract_each]. unfold bind at 1. unfold try_catch, bind at 1.
    destruct (extractOffersForEndpoint this emprendimiento endpoint dateRange w)
      as [[ofertas|error] w1]; unfold sleep; unfold_js; apply IH.
Qed.

Lemma extractOffersForEmprendimiento_returns emprendimiento dateRange w :
  ∃ ofertas w',
    extractOffersForEmprendimiento this emprendimiento dateRange w
    = (Return ofertas, w').
Proof. apply extract_each_returns. Qed.

Lemma processEmprendimiento_inserted
    emprendimiento dateRange w ofertas w1 counts w2 :
  extractOffersForEmprendimiento this emprendimiento dateRange w
  = (Return ofertas, w1) →
  insertOfertas (removeDuplicateOffers ofertas) w1 = (Return counts, w2) →
  let ofertasUnicas := removeDuplicateOffers ofertas in
  let ofertasNuevas := firstn (Z.to_nat (insertedCount counts)) ofertasUnicas in
  processEmprendimiento this emprendimiento dateRange w
  = (Return (summary_of emprendimiento ofertasUnicas counts (clock w2)),
     if has_recipients emprendimiento
     then emit (HttpPost (emailServiceUrl (emailService this))
                  (report_message ofertasNuevas
                     (EmprendimientoConfig.name emprendimiento)
                     (EmprendimientoConfig.emailRecipients emprendimiento)
                     (period_label dateRange) (clock w2))) w2
     else w2).
Proof.
  intros Hextract Hinsert. cbv zeta.
  unfold processEmprendimiento.
  unfold try_catch, bind at 1. rewrite Hextract.
  unfold bind at 1. rewrite Hinsert.
  rewrite slice_prefix
    by (apply insertOfertas_total in Hinsert; lia).
  unfold bind at 1.
  destruct (has_recipients emprendimiento).
  - unfold bind at 1. rewrite sendOfertasReport_run. cbv zeta.
    fold (period_label dateRange). rewrite string_or_label.
    unfold now. unfold_js. done.
  - unfold now. unfold_js. done.
Qed.

Lemma processEmprendimiento_failed
    emprendimiento dateRange w ofertas w1 error w2 :
  extractOffersForEmprendimiento this emprendimiento dateRange w
  = (Return ofertas, w1) →
  insertOfertas (removeDuplicateOffers ofertas) w1 = (Throw error, w2) →
  processEmprendimiento this emprendimiento dateRange w
  = (Throw error,
     if has_recipients emprendimiento
     then emit (HttpPost (emailServiceUrl (emailService this))
                  (error_message error
                     (EmprendimientoConfig.name emprendimiento)
                     (EmprendimientoConfig.emailRecipients emprendimiento)
                     (clock w2))) w2
     else w2).
Proof.
  intros Hextract Hinsert.
  unfold processEmprendimiento.
  unfold try_catch, bind at 1. rewrite Hextract.
  unfold bind at 1. rewrite Hinsert.
  unfold bind at 1.
  destruct (has_recipients emprendimiento).
  - unfold bind at 1. rewrite sendErrorNotification_run. done.
  - done.
Qed.

(** A line fails only because the insertion of its batch fails, and its
    error is then reported. *)
Lemma processEmprendimiento_throws emprendimiento dateRange w error w' :
  processEmprendimiento this emprendimiento dateRange w = (Throw error, w') →
  error_reported this emprendimiento error w'.
Proof.
  destruct (extractOffersForEmprendimiento_returns emprendimiento dateRange w)
    as (ofertas & w1 & Hextract).
  destruct (insertOfertas (removeDuplicateOffers ofertas) w1)
    as [[counts|err] w2] eqn:Hinsert.
  - rewrite (processEmprendimiento_inserted _ _ _ _ _ _ _ Hextract Hinsert).
    discriminate.
  - rewrite (processEmprendimiento_failed _ _ _ _ _ _ _ Hextract Hinsert).
    intros [= -> <-] Hrecipients.
    apply has_recipients_true in Hrecipients. rewrite Hrecipients.
    exists (clock w2). simpl. by rewrite last_snoc.
Qed.

Lemma process_each_outcomes dateRange pending :
  ∀ summaries w,
    ∃ produced w',
      process_each this pending dateRange summaries w
      = (Return (summaries ++ produced), w')
      ∧ line_outcomes this dateRange pending w produced w'.
Proof.
  induction pending as [|emprendimiento rest IH]; intros summaries w.
  - exists [], w. rewrite app_nil_r. split; [done|constructor].
  - cbn [process_each]. unfold bind at 1. unfold try_catch, bind at 1.
    destruct (processEmprendimiento this emprendimiento dateRange w)
      as [[summary|error] w1] eqn:Hline.
    + unfold ret at 1.
      destruct (IH (summaries ++ [summary]) w1) as (produced & w' & -> & Hrest).
      exists (summary :: produced), w'. rewrite <- app_assoc. split; [done|].
      by eapply line_processed.
    + unfold now. unfold_js.
      destruct (IH (summaries ++ [zero_summary emprendimiento (clock w1)]) w1)
        as (produced & w' & -> & Hrest).
      exists (zero_summary emprendimiento (clock w1) :: produced), w'.
      rewrite <- app_assoc. split; [done|].
      eapply line_failed; [done| |done].
      by eapply processEmprendimiento_throws.
Qed.

Lemma processEmprendimiento_name emprendimiento dateRange w summary w' :
  processEmprendimiento this emprendimiento dateRange w = (Return summary, w') →
  ExtraccionSummary.emprendimiento summary
  = EmprendimientoConfig.name emprendimiento.
Proof.
  destruct (extractOffersForEmprendimiento_returns emprendimiento dateRange w)
    as (ofertas & w1 & Hextract).
  destruct (insertOfertas (removeDuplicateOffers ofertas) w1)
    as [[counts|err] w2] eqn:Hinsert.
  - rewrite (processEmprendimiento_inserted _ _ _ _ _ _ _ Hextract Hinsert).
    by intros [= <- _].
  - rewrite (processEmprendimiento_failed _ _ _ _ _ _ _ Hextract Hinsert).
    discriminate.
Qed.

Lemma line_outcomes_names dateRange lines w summaries w' :
  line_outcomes this dateRange lines w summaries w' →
  map ExtraccionSummary.emprendimiento summaries
  = map EmprendimientoConfig.name lines.
Proof.
  induction 1 as [|? ? ? ? ? ? ? Hline _ IH|? ? ? ? ? ? ? _ _ _ IH]; simpl.
  - done.
  - f_equal; [by eapply processEmprendimiento_name|done].
  - by f_equal.
Qed.

End Orchestrator.

(** C1 (as amended). For a business line with at least one configured
    recipient: once the records of its query configurations are merged
    and deduplicated and [insertOfertas] reports N insertions for the
    deduplicated batch, [processEmprendimiento] returns a summary and
    the notifier has been handed exactly the first N records of that
    batch, in their order, in one report addressed to the recipients of
    the line.  For a line without recipients the notifier is not called:
    the world is left as the insertion left it.  In both cases the
    merge itself always returns, whatever the query configurations
    meet. *)
Theorem processEmprendimiento_notifies
    (this : ExtractionService) (emprendimiento : EmprendimientoConfig.t)
    (dateRange : DateRange.t) (w : World) :
  (EmprendimientoConfig.emailRecipients emprendimiento ≠ [] →
   notifies_first_inserted this emprendimiento dateRange w)
  ∧ (EmprendimientoConfig.emailRecipients emprendimiento = [] →
     ∀ ofertas w1 counts w2,
       extractOffersForEmprendimiento this emprendimiento dateRange w
       = (Return ofertas, w1) →
       insertOfertas (removeDuplicateOffers ofertas) w1 = (Return counts, w2) →
       ∃ summary,
         processEmprendimiento this emprendimiento dateRange w
         = (Return summary, w2))
  ∧ (∃ ofertas w1,
       extractOffersForEmprendimiento this emprendimiento dateRange w
       = (Return ofertas, w1)).
Proof.
  split_and!.
  - intros Hrecipients ofertas w1 counts w2 Hextract Hinsert.
    rewrite (processEmprendimiento_inserted _ _ _ _ _ _ _ _ Hextract Hinsert).
    apply has_recipients_true in Hrecipients. rewrite Hrecipients.
    eexists _, _. split; [reflexivity|]. unfold notifier_received. done.
  - intros Hrecipients ofertas w1 counts w2 Hextract Hinsert.
    rewrite (processEmprendimiento_inserted _ _ _ _ _ _ _ _ Hextract Hinsert).
    apply has_recipients_false in Hrecipients. rewrite Hrecipients.
    by eexists.
  - apply extractOffersForEmprendimiento_returns.
Qed.

(** C2 (as amended). For every run that gets past the connection check
    — the connection is active, or [connect] succeeds —
    [runCompleteExtraction] returns, without throwing, one summary per
    configured business line in configuration order.  The lines are
    processed one after the other; a line whose processing throws has
    an error report posted to its recipients (when it has any),
    contributes a zero-valued summary, and the lines after it are
    processed all the same.  A run that finds the connection inactive
    and whose [connect] throws, throws that error itself. *)
Theorem runCompleteExtraction_summaries
    (this : ExtractionService) (emprendimientos : list EmprendimientoConfig.t)
    (isInitialRun : bool) (w w0 : World) :
  (connection_ensured w w0 →
   ∃ dateRange summaries w',
     runCompleteExtraction this emprendimientos isInitialRun w
     = (Return summaries, w')
     ∧ List.length summaries = List.length emprendimientos
     ∧ map ExtraccionSummary.emprendimiento summaries
       = map EmprendimientoConfig.name emprendimientos
     ∧ line_outcomes this dateRange emprendimientos w0 summaries w')
  ∧ (∀ error,
       isConnected w && client w = false →
       connect w = (Throw error, w0) →
       runCompleteExtraction this emprendimientos isInitialRun w
       = (Throw error, w0)).
Proof.
  destruct (generateDateRange_returns isInitialRun w) as (dateRange & Hrange).
  split.
  - intros Hconn.
    destruct (process_each_outcomes this dateRange emprendimientos [] w0)
      as (summaries & w' & Hloop & Hlines).
    exists dateRange, summaries, w'.
    pose proof (line_outcomes_names _ _ _ _ _ _ Hlines) as Hnames.
    split_and!; [|by rewrite <- (length_map ExtraccionSummary.emprendimiento),
                    Hnames, length_map|done|done].
    unfold runCompleteExtraction. unfold bind at 1. rewrite Hrange.
    unfold bind at 1. unfold isConnectionActive, read.
    destruct Hconn as [[Hactive ->]|[Hactive Hconnect]]; rewrite Hactive.
    + cbn [negb]. unfold bind at 1. unfold ret at 1.
      unfold bind. by rewrite Hloop.
    + cbn [negb]. unfold bind at 1. rewrite Hconnect.
      unfold bind. by rewrite Hloop.
  - intros error Hactive Hconnect.
    unfold runCompleteExtraction. unfold bind at 1. rewrite Hrange.
    unfold bind at 1. unfold isConnectionActive, read. rewrite Hactive.
    cbn [negb]. unfold bind at 1. by rewrite Hconnect.
Qed.

(** ** Worked runs *)

(** Three pages announced, all three served: three requests, three
    records. *)
Lemma getAllOfertas_all_pages_witness :
  let w := connected_world (paged_env three_pages 3) in
  1 <= 3
  ∧ pageCount (three_pages 1) = 3
  ∧ (∀ p, 1 <= p <= 3 →
          succeeds (api (env w) (firstPageParams sample_query p)) (three_pages p))
  ∧ ∃ w' issued,
      getAllOfertas sample_api_service sample_query w
      = (Return (records_of three_pages 1 3), w')
      ∧ trace w' = trace w ++ issued
      ∧ issued
        = HttpGet (endpoint_url sample_api_service) (firstPageParams sample_query 1)
          :: page_requests sample_api_service (firstPageParams sample_query 1)
               (seqZ 2 (3 - 1))
      ∧ List.length (List.filter is_page_request issued) = Z.to_nat 3.
Proof.
  intros w.
  assert (∀ p, 1 <= p <= 3 →
            succeeds (api (env w) (firstPageParams sample_query p)) (three_pages p))
    as Hserved.
  { intros p Hp. exists 200. split; [|lia].
    simpl. destruct (Z.leb_spec p 3); [reflexivity|lia]. }
  split; [lia|]. split; [reflexivity|]. split; [exact Hserved|].
  apply (getAllOfertas_all_pages sample_api_service sample_query w 3 three_pages);
    [lia|reflexivity|exact Hserved].
Defined.

(** Three pages announced, the second one times out: the record of the
    first page is returned. *)
Lemma getAllOfertas_partial_failure_witness :
  let w := connected_world (paged_env three_pages 1) in
  1 <= 2
  ∧ (1 < 2 → 2 <= pageCount (three_pages 1))
  ∧ (∀ p, 1 <= p < 2 →
          succeeds (api (env w) (firstPageParams sample_query p)) (three_pages p))
  ∧ fails (api (env w) (firstPageParams sample_query 2))
  ∧ ∃ error w',
      page_result (api (env w) (firstPageParams sample_query 2)) = Throw error
      ∧ getAllOfertas sample_api_service sample_query w
        = (match records_of three_pages 1 (2 - 1) with
           | [] => Throw error
           | _ :: _ => Return (records_of three_pages 1 (2 - 1))
           end, w')
      ∧ trace w'
        = trace w
          ++ HttpGet (endpoint_url sample_api_service) (firstPageParams sample_query 1)
             :: page_requests sample_api_service (firstPageParams sample_query 1)
                  (seqZ 2 (2 - 1)).
Proof.
  intros w.
  assert (∀ p, 1 <= p < 2 →
            succeeds (api (env w) (firstPageParams sample_query p)) (three_pages p))
    as Hserved.
  { intros p Hp. exists 200. split; [|lia].
    simpl. destruct (Z.leb_spec p 1); [reflexivity|lia]. }
  assert (1 < 2 → 2 <= pageCount (three_pages 1)) as Hwithin
    by (intros _; simpl; lia).
  assert (fails (api (env w) (firstPageParams sample_query 2))) as Hfail
    by exact I.
  split; [lia|]. split; [exact Hwithin|]. split; [exact Hserved|].
  split; [exact Hfail|].
  apply (getAllOfertas_partial_failure sample_api_service sample_query w 2 three_pages);
    [lia|exact Hwithin|exact Hserved|exact Hfail].
Defined.

(** Two fresh records go in; the same two submitted again are both
    duplicates. *)
Lemma insertOfertas_idempotent_witness :
  let w := connected_world offline_env in
  let c1 := {| insertedCount := 2; duplicateCount := 0 |} in
  let w1 := snd (insertOfertas sample_batch w) in
  insertOfertas sample_batch w = (Return c1, w1)
  ∧ (∀ r2 w2, insertOfertas sample_batch w1 = (r2, w2) →
       ofertas_collection w2 = ofertas_collection w1
       ∧ ∀ c2, r2 = Return c2 →
           insertedCount c2 = 0
           ∧ duplicateCount c2 = Z.of_nat (List.length sample_batch))
  ∧ (faults w1 = [] →
     ∃ w2, insertOfertas sample_batch w1
           = (Return {| insertedCount := 0;
                        duplicateCount := Z.of_nat (List.length sample_batch) |},
              w2)
           ∧ ofertas_collection w2 = ofertas_collection w1).
Proof.
  intros w c1 w1.
  assert (insertOfertas sample_batch w = (Return c1, w1)) as Hfirst
    by (vm_compute; reflexivity).
  split; [exact Hfirst|].
  exact (insertOfertas_idempotent sample_batch w w1 c1 Hfirst).
Defined.

(** The batch holds the same record twice and then a new one: the
    second copy is skipped as a duplicate. *)
Lemma insertOfertas_error_policy_witness :
  let w := connected_world offline_env in
  let before := [sample_doc 1 "transporte"] in
  let oferta := sample_doc 1 "transporte" in
  let rest := [sample_doc 2 "transporte"] in
  let c := {| insertedCount := 1; duplicateCount := 0 |} in
  let w1 := snd (insert_each before 0 0 w) in
  ready w
  ∧ insert_each before 0 0 w = (Return c, w1)
  ∧ (pending_fault w1 = None →
     violates_unique oferta (ofertas_collection w1) = true →
     insertOne oferta w1 = (Throw duplicate_key_error, attempted oferta w1)
     ∧ ofertas_collection (attempted oferta w1) = ofertas_collection w1
     ∧ insertOfertas (before ++ oferta :: rest) w
       = insert_each rest (insertedCount c) (duplicateCount c + 1)
           (attempted oferta w1))
  ∧ (∀ f, pending_fault w1 = Some f →
     insertOne oferta w1 = (Throw (fault_error f), attempted oferta w1)
     ∧ insertOfertas (before ++ oferta :: rest) w
       = (Throw (fault_error f), attempted oferta w1)).
Proof.
  intros w before oferta rest c w1.
  assert (ready w) as Hready by (repeat split).
  assert (insert_each before 0 0 w = (Return c, w1)) as Hbefore
    by (vm_compute; reflexivity).
  split; [exact Hready|]. split; [exact Hbefore|].
  exact (insertOfertas_error_policy before rest oferta w w1 c Hready Hbefore).
Defined.

(** A run against a connected database and a reachable API. *)
Lemma runCompleteExtraction_summaries_witness :
  let w := connected_world (steady_env [sample_oferta 1 "1057-22-COT25"]) in
  let lines := [sample_line ["usuario@ejemplo.com"]] in
  connection_ensured w w
  ∧ ∃ dateRange summaries w',
      runCompleteExtraction sample_service lines false w
      = (Return summaries, w')
      ∧ List.length summaries = List.length lines
      ∧ map ExtraccionSummary.emprendimiento summaries
        = map EmprendimientoConfig.name lines
      ∧ line_outcomes sample_service dateRange lines w summaries w'.
Proof.
  intros w lines.
  assert (connection_ensured w w) as Hconn by (left; split; reflexivity).
  split; [exact Hconn|].
  exact (proj1 (runCompleteExtraction_summaries sample_service lines false w w)
           Hconn).
Defined.

(** A line with a recipient: the record that was inserted is reported. *)
Lemma processEmprendimiento_notifies_witness :
  let w := connected_world (steady_env [sample_oferta 1 "1057-22-COT25"]) in
  let line := sample_line ["usuario@ejemplo.com"] in
  EmprendimientoConfig.emailRecipients line ≠ []
  ∧ notifies_first_inserted sample_service line sample_range w.
Proof.
  intros w line.
  assert (EmprendimientoConfig.emailRecipients line ≠ []) as Hrecipients
    by discriminate.
  split; [exact Hrecipients|].
  exact (proj1 (processEmprendimiento_notifies sample_service line sample_range w)
           Hrecipients).
Defined.

(** A start date after the end date is turned down before any request. *)
Lemma getOfertasWithParams_validation_witness :
  let w := connected_world offline_env in
  let params := queryParams sample_query
                  {| DateRange.from := "2025-09-25";
                     DateRange.to := "2025-09-24" |} in
  bad_date_range (Partial.date_from params) (Partial.date_to params)
  ∧ ∃ error, getOfertasWithParams sample_api_service params w = (Throw error, w).
Proof.
  intros w params.
  assert (bad_date_range (Partial.date_from params) (Partial.date_to params))
    as Hbad.
  { right; right. exists "2025-09-25", "2025-09-24".
    split; [reflexivity|]. split; [reflexivity|]. right; right.
    exists 1758758400000, 1758672000000.
    split; [by vm_compute|]. split; [by vm_compute|]. lia. }
  split; [exact Hbad|].
  exact (proj1 (getOfertasWithParams_validation sample_api_service params w)
           Hbad).
Defined.

(** The counts of a batch of two fresh records, and the empty batch. *)
Lemma insertOfertas_counts_witness :
  let w := connected_world offline_env in
  let c := {| insertedCount := 2; duplicateCount := 0 |} in
  let w' := snd (insertOfertas sample_batch w) in
  insertOfertas sample_batch w = (Return c, w')
  ∧ isConnected w && client w = true
  ∧ (insertedCount c + duplicateCount c = Z.of_nat (List.length sample_batch)
     ∧ 0 <= insertedCount c ∧ 0 <= duplicateCount c)
  ∧ insertOfertas [] w
    = (Return {| insertedCount := 0; duplicateCount := 0 |}, w).
Proof.
  intros w c w'.
  assert (insertOfertas sample_batch w = (Return c, w')) as Hcall
    by (vm_compute; reflexivity).
  assert (isConnected w && client w = true) as Hactive by reflexivity.
  split; [exact Hcall|]. split; [exact Hactive|]. split.
  - exact (proj1 (insertOfertas_counts sample_batch w) c w' Hcall).
  - exact (proj2 (insertOfertas_counts sample_batch w) Hactive).
Defined.

(** C1, as stated, fails on a business line without recipients: one
    record is extracted and inserted, and no report is posted. *)
Lemma notifies_first_inserted_counterexample :
  ¬ notifies_first_inserted sample_service (sample_line []) sample_range
      (connected_world (steady_env [sample_oferta 1 "1057-22-COT25"])).
Proof.
  intros H.
  destruct (extractOffersForEmprendimiento sample_service (sample_line [])
              sample_range
              (connected_world (steady_env [sample_oferta 1 "1057-22-COT25"])))
    as [[ofertas|error] w1] eqn:Hextract.
  2:{ vm_compute in Hextract. discriminate. }
  destruct (insertOfertas (removeDuplicateOffers ofertas) w1)
    as [[counts|error] w2] eqn:Hinsert.
  2:{ vm_compute in Hextract. injection Hextract as <- <-.
      vm_compute in Hinsert. discriminate. }
  destruct (H ofertas w1 counts w2 Hextract Hinsert)
    as (summary & w3 & Hprocess & Hreceived).
  vm_compute in Hextract. injection Hextract as <- <-.
  vm_compute in Hinsert. injection Hinsert as <- <-.
  vm_compute in Hprocess. injection Hprocess as _ <-.
  unfold notifier_received in Hreceived.
  apply (f_equal List.length) in Hreceived.
  vm_compute in Hreceived. discriminate.
Qed.

(** C2, as stated, fails on a run that starts without a database
    connection and cannot establish one: the run throws. *)
Lemma run_delivers_summaries_counterexample :
  ¬ run_delivers_summaries sample_service [sample_line ["usuario@ejemplo.com"]]
      false (disconnected_world (steady_env [])).
Proof.
  intros (summaries & w' & Hrun & _).
  vm_compute in Hrun. discriminate.
Qed.

(** * Further properties *)

(** ** Storage: guards, invariant, round trip *)

Lemma guard_inactive {A} (k : M A) w :
  isConnected w && client w = false →
  (let* active := isConnectionActive in
   if negb active then throw not_connected else k) w
  = (Throw not_connected, w).
Proof.
  intros H. unfold isConnectionActive. unfold_js. by rewrite H.
Qed.

Lemma guard_active {A} (k : M A) w :
  isConnected w && client w = true →
  (let* active := isConnectionActive in
   if negb active then throw not_connected else k) w
  = k w.
Proof.
  intros H. unfold isConnectionActive. unfold_js. by rewrite H.
Qed.

(** X1: with the connection inactive every data operation of the database
    service, and the two maintenance entry points of the extraction
    service, throw "Base de datos no conectada" and leave the world as
    it is: no storage command is issued. *)
Theorem data_operations_need_connection
    (setHours0 : Z → Z) (setDate_back : Z → Z → Z) (w : World)
    (ofertas : list OfertaDocument) (line : string)
    (fechaDesde fechaHasta : option Z) (dias : Z)
    (emprendimientos : list EmprendimientoConfig.t) :
  isConnected w && client w = false →
  insertOfertas ofertas w = (Throw not_connected, w)
  ∧ getOfertasByEmprendimiento line fechaDesde fechaHasta w
    = (Throw not_connected, w)
  ∧ getEstadisticasEmprendimiento setHours0 line w = (Throw not_connected, w)
  ∧ limpiarOfertasAntiguas setDate_back dias w = (Throw not_connected, w)
  ∧ getSystemStats setHours0 emprendimientos w = (Throw not_connected, w)
  ∧ cleanupOldOffers setDate_back dias w = (Throw not_connected, w).
Proof.
  intros H. split_and!; by apply guard_inactive.
Qed.






Lemma insert_each_appends l i d w c w' :
  insert_each l i d w = (Return c, w') →
  ∃ added,
    ofertas_collection w' = ofertas_collection w ++ added
    ∧ sublist added l
    ∧ insertedCount c = i + Z.of_nat (List.length added).
Proof.
  revert i d w; induction l as [|doc l IH]; intros i d w.
  - intros [= <- <-]. exists []. rewrite app_nil_r. simpl.
    split_and!; [done|constructor|lia].
  - loop_turn doc w; [done| |].
    + intros (added & Hcol & Hsub & Hn)%IH. exists added.
      split_and!; [done|by apply sublist_cons|done].
    + intros (added & Hcol & Hsub & Hn)%IH. exists (doc :: added).
      split_and!.
      * rewrite Hcol. simpl. by rewrite <- app_assoc.
      * by apply sublist_skip.
      * simpl List.length. lia.
Qed.

(** X3: when [insertOfertas] returns, the collection is the old one
    followed by the documents it inserted; these are records of the
    batch, in batch order, and there are [insertedCount] of them. *)
Theorem insertOfertas_appends
    (ofertas : list OfertaDocument) (w w' : World) (c : InsertCounts) :
  insertOfertas ofertas w = (Return c, w') →
  ∃ added,
    ofertas_collection w' = ofertas_collection w ++ added
    ∧ sublist added ofertas
    ∧ insertedCount c = Z.of_nat (List.length added).
Proof.
  intros H. apply insertOfertas_returns in H as [_ [(-> & -> & ->)|(_ & _ & H)]].
  - exists []. rewrite app_nil_r. split_and!; [done|constructor|done].
  - apply insert_each_appends in H as (added & ? & ? & ?).
    exists added. split_and!; [done..|lia].
Qed.

(** ** Storage: queries *)

Lemma storage_command_run w :
  storage_command w
  = (match pending_fault w with
     | Some f => Throw (fault_error f)
     | None => Return tt
     end, next_fault w).
Proof.
  unfold storage_command, pending_fault.
  by destruct (faults w) as [|[f|] rest].
Qed.

Lemma insert_sorted_perm x l : insert_sorted x l ≡ₚ x :: l.
Proof.
  induction l as [|y l IH]; simpl; [done|].
  destruct (sorts_before x y); [done|].
  rewrite IH. apply Permutation_swap.
Qed.

Lemma sort_cursor_perm l : sort_cursor l ≡ₚ l.
Proof.
  induction l as [|x l IH]; simpl; [done|].
  by rewrite insert_sorted_perm, IH.
Qed.

Lemma sorts_before_total a b :
  sorts_before a b = false → sorts_before b a = true.
Proof.
  unfold sorts_before. intros H.
  apply orb_false_iff in H as [Hlt Hrest].
  apply Z.ltb_ge in Hlt.
  destruct (Z.ltb_spec (fecha_extraccion a) (fecha_extraccion b)); [done|].
  assert (fecha_extraccion a = fecha_extraccion b) as Heq by lia.
  rewrite Heq, Z.eqb_refl in *. simpl in *.
  destruct (String.leb_total (fecha_publicacion a) (fecha_publicacion b));
    [done|congruence].
Qed.

Lemma insert_sorted_order x l :
  in_cursor_order l → in_cursor_order (insert_sorted x l).
Proof.
  induction l as [|y l IH]; simpl; [done|].
  intros [Hy Hl].
  destruct (sorts_before x y) eqn:Hxy; simpl; [done|].
  split; [|by apply IH].
  destruct l as [|z l]; simpl.
  - by apply sorts_before_total.
  - destruct (sorts_before x z); [by apply sorts_before_total|done].
Qed.

Lemma sort_cursor_order l : in_cursor_order (sort_cursor l).
Proof.
  induction l as [|x l IH]; simpl; [done|]. by apply insert_sorted_order.
Qed.

Lemma sorts_before_extraction a b :
  sorts_before a b = true → fecha_extraccion b <= fecha_extraccion a.
Proof.
  unfold sorts_before. intros [H|[H _]%andb_true_iff]%orb_true_iff.
  - apply Z.ltb_lt in H. lia.
  - apply Z.eqb_eq in H. lia.
Qed.

Lemma in_cursor_order_newest a l :
  in_cursor_order (a :: l) →
  Forall (fun b : OfertaDocument => fecha_extraccion b <= fecha_extraccion a) l.
Proof.
  revert a; induction l as [|b l IH]; intros a; [constructor|].
  intros [Hab Hrest]. apply sorts_before_extraction in Hab.
  constructor; [done|].
  eapply Forall_impl; [by apply IH|]. simpl. intros c Hc. lia.
Qed.

Lemma in_cursor_order_app_r l1 l2 :
  in_cursor_order (l1 ++ l2) → in_cursor_order l2.
Proof.
  induction l1 as [|a l1 IH]; simpl; [done|]. intros [_ H]. by apply IH.
Qed.

Lemma lower_bound_holds (bound : option Z) x :
  match bound with Some lo => lo <=? x | None => true end = true
  ↔ ∀ lo, bound = Some lo → lo <= x.
Proof.
  destruct bound as [lo|].
  - rewrite Z.leb_le. split; [by intros ? ? [= <-]|auto].
  - split; [intros _ ?; discriminate|done].
Qed.

Lemma upper_bound_holds (bound : option Z) x :
  match bound with Some hi => x <=? hi | None => true end = true
  ↔ ∀ hi, bound = Some hi → x <= hi.
Proof.
  destruct bound as [hi|].
  - rewrite Z.leb_le. split; [by intros ? ? [= <-]|auto].
  - split; [intros _ ?; discriminate|done].
Qed.

Lemma getOfertasByEmprendimiento_run line fechaDesde fechaHasta w :
  ready w →
  getOfertasByEmprendimiento line fechaDesde fechaHasta w
  = (match pending_fault w with
     | Some f => Throw (fault_error f)
     | None =>
         Return (sort_cursor
                   (List.filter (matches_filter line fechaDesde fechaHasta)
                                (ofertas_collection w)))
     end, next_fault w).
Proof.
  intros (Hi & Hc & Hd). unfold getOfertasByEmprendimiento.
  rewrite guard_active by (by rewrite Hi, Hc).
  unfold getOfertasCollection. unfold bind at 1. unfold bind at 1.
  unfold read at 1. rewrite Hd. cbn [negb]. unfold ret at 1.
  unfold bind at 1. rewrite storage_command_run.
  by destruct (pending_fault w).
Qed.

(** A call that got a list back passed the guards. *)
Lemma getOfertasByEmprendimiento_returns line fechaDesde fechaHasta w found w' :
  getOfertasByEmprendimiento line fechaDesde fechaHasta w = (Return found, w') →
  found = sort_cursor
            (List.filter (matches_filter line fechaDesde fechaHasta)
                         (ofertas_collection w))
  ∧ ofertas_collection w' = ofertas_collection w.
Proof.
  destruct (isConnected w && client w) eqn:Ha.
  2:{ unfold getOfertasByEmprendimiento. by rewrite guard_inactive. }
  destruct (db w) eqn:Hd.
  2:{ unfold getOfertasByEmprendimiento. rewrite guard_active by done.
      unfold getOfertasCollection. unfold_js. by rewrite Hd. }
  apply andb_true_iff in Ha as [Hi Hc].
  rewrite getOfertasByEmprendimiento_run by done.
  destruct (pending_fault w); [done|]. by intros [= <- <-].
Qed.

Lemma cursor_membership line (fechaDesde fechaHasta : option Z) stored
    (d : OfertaDocument) :
  d ∈ sort_cursor (List.filter (matches_filter line fechaDesde fechaHasta) stored)
  ↔ d ∈ stored
    ∧ emprendimiento d = line
    ∧ (∀ lo, fechaDesde = Some lo → lo <= fecha_extraccion d)
    ∧ (∀ hi, fechaHasta = Some hi → fecha_extraccion d <= hi).
Proof.
  rewrite sort_cursor_perm.
  rewrite list_elem_of_In, filter_In, <- list_elem_of_In.
  unfold matches_filter.
  rewrite !andb_true_iff, bool_decide_eq_true, lower_bound_holds,
    upper_bound_holds.
  tauto.
Qed.

(** X4: a query by business line returns exactly the stored documents
    of that line whose extraction time lies within the given bounds
    (both inclusive), each once, newest extraction first, and leaves the
    collection as it is. *)
Theorem getOfertasByEmprendimiento_result
    (line : string) (fechaDesde fechaHasta : option Z)
    (w w' : World) (found : list OfertaDocument) :
  getOfertasByEmprendimiento line fechaDesde fechaHasta w = (Return found, w') →
  found ≡ₚ List.filter (matches_filter line fechaDesde fechaHasta)
             (ofertas_collection w)
  ∧ (∀ d, d ∈ found ↔
          d ∈ ofertas_collection w
          ∧ emprendimiento d = line
          ∧ (∀ lo, fechaDesde = Some lo → lo <= fecha_extraccion d)
          ∧ (∀ hi, fechaHasta = Some hi → fecha_extraccion d <= hi))
  ∧ in_cursor_order found
  ∧ (∀ before d after, found = before ++ d :: after →
       Forall (fun later : OfertaDocument =>
                 fecha_extraccion later <= fecha_extraccion d) after)
  ∧ ofertas_collection w' = ofertas_collection w.
Proof.
  intros (-> & Hcol)%getOfertasByEmprendimiento_returns.
  split_and!; [apply sort_cursor_perm| |apply sort_cursor_order| |done].
  - intros d. apply cursor_membership.
  - intros before d after Heq.
    pose proof (sort_cursor_order
                  (List.filter (matches_filter line fechaDesde fechaHasta)
                               (ofertas_collection w))) as Hord.
    rewrite Heq in Hord. apply in_cursor_order_app_r in Hord.
    by apply in_cursor_order_newest.
Qed.

Lemma violates_unique_found doc stored :
  violates_unique doc stored = true → _id doc = None →
  ∃ d : OfertaDocument,
    d ∈ stored ∧ id d = id doc ∧ emprendimiento d = emprendimiento doc.
Proof.
  unfold violates_unique. intros (d & Hin & Hd)%existsb_exists Hnone.
  exists d. apply list_elem_of_In in Hin. split; [done|].
  unfold same_object_id in Hd. rewrite Hnone, orb_false_r in Hd.
  unfold same_key in Hd. apply andb_true_iff in Hd as [H1 H2].
  apply bool_decide_eq_true in H1, H2. done.
Qed.

(** X5: insert then look up. After [insertOfertas] has returned, a query
    for the business line of any record of the batch (as the extraction
    builds them, without [_id]) that returns, returns a document with
    that record's numeric id. *)
Theorem insertOfertas_then_query
    (ofertas : list OfertaDocument) (w w1 w2 : World) (c : InsertCounts)
    (doc : OfertaDocument) (found : list OfertaDocument) :
  insertOfertas ofertas w = (Return c, w1) →
  doc ∈ ofertas → _id doc = None →
  getOfertasByEmprendimiento (emprendimiento doc) None None w1
  = (Return found, w2) →
  ∃ d : OfertaDocument,
    d ∈ found ∧ id d = id doc ∧ emprendimiento d = emprendimiento doc.
Proof.
  intros Hinsert Hin Hnone Hquery.
  apply insertOfertas_returns in Hinsert
    as [_ [(-> & _ & _)|(_ & _ & Hinsert)]]; [by apply elem_of_nil in Hin|].
  apply insert_each_known in Hinsert.
  rewrite Forall_forall in Hinsert.
  apply Hinsert in Hin.
  destruct (violates_unique_found _ _ Hin Hnone) as (d & Hd & Hid & Hline).
  exists d. split; [|done].
  apply getOfertasByEmprendimiento_returns in Hquery as [-> _].
  apply cursor_membership. split_and!; done.
Qed.

(** ** Storage: statistics and retention *)

Lemma next_fault_collection w :
  ofertas_collection (next_fault w) = ofertas_collection w.
Proof. done. Qed.

Lemma settled_countDocuments keep w :
  settled (countDocuments keep) w
  = (Return (match pending_fault w with
             | Some f => Throw (fault_error f)
             | None =>
                 Return (Z.of_nat (List.length
                                     (List.filter keep (ofertas_collection w))))
             end), next_fault w).
Proof.
  unfold settled, countDocuments. unfold bind at 1.
  rewrite storage_command_run. by destruct (pending_fault w).
Qed.

Lemma settled_findLatest line w :
  settled (findLatest line) w
  = (Return (match pending_fault w with
             | Some f => Throw (fault_error f)
             | None =>
                 Return (latest_extraction
                           (List.filter (matches_filter line None None)
                                        (ofertas_collection w)))
             end), next_fault w).
Proof.
  unfold settled, findLatest. unfold bind at 1.
  rewrite storage_command_run. by destruct (pending_fault w).
Qed.

Lemma filter_length_le {A} (p q : A → bool) (l : list A) :
  (∀ x, p x = true → q x = true) →
  (List.length (List.filter p l) <= List.length (List.filter q l))%nat.
Proof.
  intros Hpq. induction l as [|x l IH]; simpl; [done|].
  destruct (p x) eqn:Hp.
  - rewrite (Hpq x Hp). simpl. lia.
  - destruct (q x); simpl; lia.
Qed.



Lemma fold_max_spec (rest : list OfertaDocument) (m0 : Z) :
  let t := fold_left (fun m (x : OfertaDocument) => Z.max m (fecha_extraccion x))
                     rest m0 in
  m0 <= t
  ∧ Forall (fun x : OfertaDocument => fecha_extraccion x <= t) rest
  ∧ (t = m0 ∨ ∃ x : OfertaDocument, x ∈ rest ∧ fecha_extraccion x = t).
Proof.
  revert m0; induction rest as [|x rest IH]; intros m0; simpl.
  - split_and!; [lia|constructor|by left].
  - destruct (IH (Z.max m0 (fecha_extraccion x))) as (Hle & Hall & Hwit).
    split_and!; [lia|constructor; [lia|done]|].
    destruct Hwit as [Heq|(y & Hy & Hfy)].
    + destruct (Z.max_spec m0 (fecha_extraccion x)) as [[_ Hm]|[_ Hm]].
      * right. exists x. split; [by left|lia].
      * left. lia.
    + right. exists y. split; [by right|done].
Qed.

Lemma latest_extraction_spec docs :
  match latest_extraction docs with
  | None => docs = []
  | Some t =>
      (∃ d : OfertaDocument, d ∈ docs ∧ fecha_extraccion d = t)
      ∧ Forall (fun d : OfertaDocument => fecha_extraccion d <= t) docs
  end.
Proof.
  destruct docs as [|d rest]; simpl; [done|].
  destruct (fold_max_spec rest (fecha_extraccion d)) as (Hle & Hall & Hwit).
  split; [|by constructor].
  destruct Hwit as [Heq|(x & Hx & Hfx)].
  - exists d. split; [by left|done].
  - exists x. split; [by right|done].
Qed.

Section StatisticsFacts.

Variable setHours0 : Z → Z.

Lemma getEstadisticasEmprendimiento_returns line w s w' :
  getEstadisticasEmprendimiento setHours0 line w = (Return s, w') →
  let mine := List.filter (matches_filter line None None) (ofertas_collection w) in
  total s = Z.of_nat (List.length mine)
  ∧ hoy s
    = Z.of_nat (List.length
                  (List.filter
                     (matches_filter line (Some (setHours0 (clock w))) None)
                     (ofertas_collection w)))
  ∧ ultima_extraccion s = latest_extraction mine
  ∧ ofertas_collection w' = ofertas_collection w.
Proof.
  unfold getEstadisticasEmprendimiento.
  destruct (isConnected w && client w) eqn:Ha;
    [rewrite guard_active by done|by rewrite guard_inactive].
  unfold getOfertasCollection. unfold bind at 1. unfold bind at 1.
  unfold read at 1. destruct (db w); cbn [negb]; [|done].
  unfold ret at 1. unfold bind at 1. unfold now, read at 1.
  unfold bind at 1. rewrite settled_countDocuments.
  unfold bind at 1. rewrite settled_countDocuments.
  unfold bind at 1. rewrite settled_findLatest.
  destruct (pending_fault w); [done|].
  destruct (pending_fault (next_fault w)); [done|].
  destruct (pending_fault (next_fault (next_fault w))); [done|].
  by intros [= <- <-].
Qed.

Lemma getEstadisticasEmprendimiento_counts line w s w' :
  getEstadisticasEmprendimiento setHours0 line w = (Return s, w') →
  total s
  = Z.of_nat (List.length
                (List.filter (fun d => bool_decide (emprendimiento d = line))
                             (ofertas_collection w)))
  ∧ 0 <= hoy s <= total s
  ∧ ofertas_collection w' = ofertas_collection w.
Proof.
  intros (Htotal & Hhoy & _ & Hcol)%getEstadisticasEmprendimiento_returns.
  split; [|split; [|done]].
  - rewrite Htotal. do 2 f_equal. apply filter_ext. intros d.
    unfold matches_filter. by rewrite !andb_true_r.
  - rewrite Hhoy, Htotal. split; [lia|]. apply inj_le, filter_length_le.
    intros d. unfold matches_filter.
    rewrite !andb_true_iff. tauto.
Qed.

(** X6: the statistics of a business line. [total] counts its stored
    documents and [hoy] those extracted since the start of the local
    day, so [0 <= hoy <= total]; [ultima_extraccion] is absent exactly
    when the line has no document, and otherwise is the greatest
    extraction time among its documents.  The collection is not
    changed. *)
Theorem getEstadisticasEmprendimiento_result
    (line : string) (w w' : World) (s : Estadisticas) :
  getEstadisticasEmprendimiento setHours0 line w = (Return s, w') →
  total s
  = Z.of_nat (List.length
                (List.filter (fun d => bool_decide (emprendimiento d = line))
                             (ofertas_collection w)))
  ∧ 0 <= hoy s <= total s
  ∧ (ultima_extraccion s = None ↔ total s = 0)
  ∧ (∀ t, ultima_extraccion s = Some t →
       (∃ d : OfertaDocument,
          d ∈ ofertas_collection w ∧ emprendimiento d = line
          ∧ fecha_extraccion d = t)
       ∧ ∀ d : OfertaDocument,
           d ∈ ofertas_collection w → emprendimiento d = line →
           fecha_extraccion d <= t)
  ∧ ofertas_collection w' = ofertas_collection w.
Proof.
  intros Hcall.
  pose proof (getEstadisticasEmprendimiento_counts _ _ _ _ Hcall)
    as (Hcount & Hbounds & _).
  apply getEstadisticasEmprendimiento_returns in Hcall
    as (Htotal & Hhoy & Hlast & Hcol).
  assert (∀ d, matches_filter line None None d
               = bool_decide (emprendimiento d = line)) as Hsame.
  { intros d. unfold matches_filter. by rewrite !andb_true_r. }
  assert (∀ d : OfertaDocument,
            d ∈ List.filter (matches_filter line None None) (ofertas_collection w)
            ↔ d ∈ ofertas_collection w ∧ emprendimiento d = line) as Hmine.
  { intros d. rewrite list_elem_of_In, filter_In, <- list_elem_of_In.
    by rewrite Hsame, bool_decide_eq_true. }
  pose proof (latest_extraction_spec
                (List.filter (matches_filter line None None)
                             (ofertas_collection w))) as Hspec.
  rewrite <- Hlast in Hspec.
  split; [|split; [|split; [|split]]].
  - exact Hcount.
  - exact Hbounds.
  - rewrite Htotal. destruct (ultima_extraccion s) as [t|].
    + destruct Hspec as [(d & Hd & _) _].
      split; [done|]. destruct (List.filter _ _); [by apply elem_of_nil in Hd|].
      simpl. lia.
    + rewrite Hspec. done.
  - intros t Ht. rewrite Ht in Hspec. destruct Hspec as [(d & Hd & Hfd) Hall].
    split.
    + exists d. apply Hmine in Hd. tauto.
    + intros d' Hin Hline. rewrite Forall_forall in Hall.
      apply Hall, Hmine. done.
  - done.
Qed.

End StatisticsFacts.

Section RetentionFacts.

Variable setDate_back : Z → Z → Z.



End RetentionFacts.

(** ** Storage: the connection *)

(** X8: against a server that answers its four commands, [connect]
    returns with the service ready for data operations, having sent
    the handshake and created the three indexes in order; the stored
    documents are untouched. *)
Theorem connect_succeeds (w : World) :
  no_fault_within 4 w →
  ∃ w',
    connect w = (Return tt, w')
    ∧ ready w'
    ∧ trace w' = trace w ++ connect_commands
    ∧ ofertas_collection w' = ofertas_collection w
    ∧ faults w' = skipn 4 (faults w).
Proof.
  unfold no_fault_within, ready.
  destruct w as [e c t col fs cl d ic]. cbn [faults].
  intros Hnone.
  match goal with |- context [connect ?w0] => exists (connect w0).2 end.
  destruct fs as [|a1 [|a2 [|a3 [|a4 rest]]]]; cbn [firstn] in Hnone;
    repeat match goal with
           | H : Forall _ (_ :: _) |- _ => apply Forall_cons in H as [-> H]
           end;
    (split; [vm_compute; reflexivity|]);
    (split; [vm_compute; done|]);
    (split; [unfold connect_commands; simpl; rewrite <- ?app_assoc; reflexivity|]);
    split; vm_compute; reflexivity.
Qed.

Lemma try_rethrow {A} (c : M A) w :
  try_catch c (fun error => throw error) w = c w.
Proof. unfold try_catch, throw. by destruct (c w) as [[a|e] w']. Qed.

Lemma createIndex_run index_name w :
  createIndex index_name w
  = (match pending_fault w with
     | Some f => Throw (fault_error f)
     | None => Return tt
     end, next_fault (emit (CreateIndex index_name) w)).
Proof.
  unfold createIndex, bind, perform. by rewrite storage_command_run.
Qed.

Lemma createIndex_frame index_name w r w' :
  createIndex index_name w = (r, w') →
  client w' = client w ∧ db w' = db w ∧ isConnected w' = isConnected w
  ∧ ofertas_collection w' = ofertas_collection w.
Proof. rewrite createIndex_run. by intros [= <- <-]. Qed.

Lemma createIndexes_frame w r w' :
  createIndexes w = (r, w') →
  client w' = client w ∧ db w' = db w ∧ isConnected w' = isConnected w
  ∧ ofertas_collection w' = ofertas_collection w.
Proof.
  unfold createIndexes. rewrite try_rethrow.
  unfold getOfertasCollection. unfold bind at 1. unfold bind at 1.
  unfold read at 1. destruct (db w) eqn:Hd; cbn [negb];
    [|unfold throw; intros [= <- <-]; by rewrite Hd].
  unfold ret at 1. unfold bind at 1.
  destruct (createIndex "unique_oferta_emprendimiento" w)
    as [[[]|e1] w1] eqn:H1; apply createIndex_frame in H1;
    [|intros [= <- <-]; by rewrite Hd in H1].
  unfold bind at 1.
  destruct (createIndex "fecha_extraccion_desc" w1)
    as [[[]|e2] w2] eqn:H2; apply createIndex_frame in H2;
    [|intros [= <- <-]; rewrite Hd in H1; intuition congruence].
  intros H3%createIndex_frame. rewrite Hd in H1. intuition congruence.
Qed.

Lemma connect_run w :
  let w1 := next_fault
              (emit MongoConnect (set_service true (db w) (isConnected w) w)) in
  connect w
  = match pending_fault w with
    | Some f => (Throw (fault_error f), w1)
    | None => createIndexes (set_service true true true w1)
    end.
Proof.
  cbv zeta. unfold connect. rewrite try_rethrow.
  unfold bind, perform. rewrite storage_command_run.
  change (pending_fault (emit MongoConnect
                           (set_service true (db w) (isConnected w) w)))
    with (pending_fault w).
  by destruct (pending_fault w).
Qed.

(** X9: how [connect] fails.  When the handshake itself fails, the
    error is rethrown and the service is left not marked connected as
    far as this call goes (only the client handle is set).  When the
    handshake goes through and [connect] still throws — an index could
    not be created — the service is left marked connected and ready,
    so a later run will not try to connect again. *)
Theorem connect_failure_modes (w : World) :
  (∀ f, pending_fault w = Some f →
     ∃ w', connect w = (Throw (fault_error f), w')
           ∧ client w' = true
           ∧ db w' = db w ∧ isConnected w' = isConnected w
           ∧ trace w' = trace w ++ [MongoConnect])
  ∧ (∀ error w',
       pending_fault w = None →
       connect w = (Throw error, w') →
       ready w' ∧ ofertas_collection w' = ofertas_collection w).
Proof.
  rewrite connect_run. cbv zeta. split.
  - intros f ->. eexists. split; [reflexivity|]. done.
  - intros error w' ->.
    intros (Hc & Hd & Hi & Hcol)%createIndexes_frame.
    unfold ready. rewrite Hc, Hd, Hi, Hcol. done.
Qed.

(** X10: [disconnect] without a client handle does nothing; with one, and
    a server that answers, it marks the service disconnected, after
    which [insertOfertas] fails fast without touching the collection;
    when closing fails, the error is rethrown and the service stays
    marked as it was. *)
Theorem disconnect_outcome (w : World) (ofertas : list OfertaDocument) :
  (client w = false → disconnect w = (Return tt, w))
  ∧ (client w = true → pending_fault w = None →
     ∃ w', disconnect w = (Return tt, w')
           ∧ isConnected w' = false
           ∧ ofertas_collection w' = ofertas_collection w
           ∧ insertOfertas ofertas w' = (Throw not_connected, w'))
  ∧ (∀ f, client w = true → pending_fault w = Some f →
     ∃ w', disconnect w = (Throw (fault_error f), w')
           ∧ isConnected w' = isConnected w).
Proof.
  destruct w as [e c t col fs cl d ic]. unfold pending_fault.
  cbn [faults client]. split_and!.
  - by intros ->.
  - intros -> Hf. eexists.
    destruct fs as [|[f1|] rest]; try discriminate;
      (split; [reflexivity|]); (split; [done|]); (split; [done|]);
      by apply guard_inactive.
  - intros f -> Hf. destruct fs as [|[f1|] rest]; try discriminate.
    injection Hf as ->. eexists. split; [reflexivity|]. done.
Qed.

(** ** Statistics of the whole system, and the configuration *)

Section SystemStats.

Variable setHours0 : Z → Z.

Lemma stats_each_returns pending :
  ∀ collected w entries w',
    stats_each setHours0 pending collected w = (Return entries, w') →
    ∃ produced,
      entries = collected ++ produced
      ∧ map stats_id produced = map EmprendimientoConfig.id pending
      ∧ map stats_nombre produced = map EmprendimientoConfig.name pending
      ∧ Forall (fun entry =>
                  total (stats_values entry)
                  = Z.of_nat
                      (List.length
                         (List.filter
                            (fun d => bool_decide (emprendimiento d = stats_id entry))
                            (ofertas_collection w)))
                  ∧ 0 <= hoy (stats_values entry) <= total (stats_values entry))
               produced
      ∧ ofertas_collection w' = ofertas_collection w.
Proof.
  induction pending as [|emprendimiento rest IH];
    intros collected w entries w'.
  - intros [= <- <-]. exists []. rewrite app_nil_r.
    split; [done|]. split; [done|]. split; [done|]. split; [constructor|done].
  - cbn [stats_each]. unfold bind at 1.
    destruct (getEstadisticasEmprendimiento setHours0
                (EmprendimientoConfig.id emprendimiento) w)
      as [[s|error] w1] eqn:Hstats; [|done].
    apply getEstadisticasEmprendimiento_counts in Hstats
      as (Htotal & Hhoy & Hcol).
    intros (produced & -> & Hids & Hnames & Hall & Hcol')%IH.
    eexists (_ :: produced). rewrite <- app_assoc.
    split; [done|]. split; [simpl; by f_equal|].
    split; [simpl; by f_equal|]. split; [|congruence].
    constructor; [done|].
    eapply Forall_impl; [exact Hall|]. simpl. intros entry. by rewrite Hcol.
Qed.

(** X11: when [getSystemStats] returns, it holds one entry per configured
    business line, in configuration order, carrying the id and the name
    of the line, the number of its stored documents as [total], and
    [0 <= hoy <= total]; it is stamped with the time of the call. *)
Theorem getSystemStats_result
    (emprendimientos : list EmprendimientoConfig.t)
    (w w' : World) (s : SystemStats) :
  getSystemStats setHours0 emprendimientos w = (Return s, w') →
  fecha_consulta s = clock w
  ∧ map stats_id (stats_emprendimientos s)
    = map EmprendimientoConfig.id emprendimientos
  ∧ map stats_nombre (stats_emprendimientos s)
    = map EmprendimientoConfig.name emprendimientos
  ∧ Forall (fun entry =>
              total (stats_values entry)
              = Z.of_nat
                  (List.length
                     (List.filter
                        (fun d => bool_decide (emprendimiento d = stats_id entry))
                        (ofertas_collection w)))
              ∧ 0 <= hoy (stats_values entry) <= total (stats_values entry))
           (stats_emprendimientos s)
  ∧ ofertas_collection w' = ofertas_collection w.
Proof.
  unfold getSystemStats.
  destruct (isConnected w && client w) eqn:Ha;
    [rewrite guard_active by done|by rewrite guard_inactive].
  unfold bind at 1. unfold now, read at 1. unfold bind at 1.
  destruct (stats_each setHours0 emprendimientos [] w)
    as [[entries|error] w1] eqn:Heach; [|done].
  intros [= <- <-].
  apply stats_each_returns in Heach as (produced & -> & ? & ? & ? & ?).
  done.
Qed.

End SystemStats.

(** X12: looking a business line up by id. The lookup finds a line of the
    configuration that carries the id — the first one; it finds nothing
    exactly when the id is not among [getAllEmprendimientoIds]; and
    when the ids of the configuration are pairwise distinct, every
    configured line is found under its own id. *)
Theorem getEmprendimientoById_lookup
    (emprendimientos : list EmprendimientoConfig.t) (line_id : string) :
  (∀ emp, getEmprendimientoById emprendimientos line_id = Some emp →
     emp ∈ emprendimientos ∧ EmprendimientoConfig.id emp = line_id)
  ∧ (getEmprendimientoById emprendimientos line_id = None
     ↔ line_id ∉ getAllEmprendimientoIds emprendimientos)
  ∧ (NoDup (getAllEmprendimientoIds emprendimientos) →
     ∀ emp, emp ∈ emprendimientos →
       getEmprendimientoById emprendimientos (EmprendimientoConfig.id emp)
       = Some emp).
Proof.
  unfold getEmprendimientoById, getAllEmprendimientoIds. split_and!.
  - intros emp [Hin Hid%bool_decide_eq_true]%find_some.
    by apply list_elem_of_In in Hin.
  - induction emprendimientos as [|e l IH]; simpl.
    + split; [intros _; apply not_elem_of_nil|done].
    + case_bool_decide as He.
      * split; [done|]. intros Hnot. destruct Hnot. rewrite He. by left.
      * rewrite IH, not_elem_of_cons. split; [by intros ?; split|by intros [_ ?]].
  - induction emprendimientos as [|e l IH]; simpl.
    + intros _ emp Hin. by apply elem_of_nil in Hin.
    + intros [Hfresh Hrest]%NoDup_cons emp [->|Hin]%elem_of_cons.
      * by rewrite bool_decide_eq_true_2.
      * rewrite bool_decide_eq_false_2; [by apply IH|].
        intros Heq. apply Hfresh. rewrite Heq.
        by apply list_elem_of_fmap_2.
Qed.

(** ** The API client: edge of the page count, probes *)

(** X13: when the first page announces one page, none, or a negative
    number of pages, [getAllOfertas] makes that one request, waits for
    nothing, and returns the records of the first page. *)
Theorem getAllOfertas_single_page
    (this : ChileCompraApiService) (baseParams : Partial.t) (w : World)
    (p : Payload) :
  succeeds (api (env w) (firstPageParams baseParams 1)) p →
  pageCount p <= 1 →
  getAllOfertas this baseParams w
  = (Return (resultados p),
     emit (HttpGet (endpoint_url this) (firstPageParams baseParams 1)) w).
Proof.
  intros Hok Hcount. unfold getAllOfertas. rewrite fetchPage_run.
  rewrite (page_result_succeeds _ _ Hok). cbn [payload].
  replace (Z.to_nat (pageCount p - 1)) with 0%nat by lia.
  done.
Qed.

(** X14: [testConnection] never throws; it makes one request, with the
    fixed test parameters, and answers [true] exactly when that request
    succeeds. *)
Theorem testConnection_outcome (this : ChileCompraApiService) (w : World) :
  ∃ ok,
    testConnection this w
    = (Return ok, emit (HttpGet (endpoint_url this) testParams) w)
    ∧ (ok = true ↔ ∃ p, succeeds (api (env w) testParams) p).
Proof.
  unfold testConnection. unfold try_catch, bind. rewrite fetchPage_run.
  destruct (succeeds_or_fails (api (env w) testParams)) as [(p & Hp)|Hfail].
  - rewrite (page_result_succeeds _ _ Hp). unfold ret. cbn [success].
    exists true. split; [by rewrite bool_decide_eq_true_2|].
    split; [by exists p|done].
  - destruct (page_result_fails _ Hfail) as (error & ->). unfold ret.
    exists false. split; [done|]. split; [done|].
    intros (p & s & Heq & Hs). rewrite Heq in Hfail. simpl in Hfail.
    destruct Hfail as [?|[?|?]]; done.
Qed.

(** X15: [getEstadisticasConsulta] makes a single request, for page 1,
    however many pages the query has and without validating the dates;
    it returns the counts of that page, and throws when the request
    fails. *)
Theorem getEstadisticasConsulta_single_request
    (this : ChileCompraApiService) (params : Partial.t) (w : World) :
  let query := firstPageParams params 1 in
  let w' := emit (HttpGet (endpoint_url this) query) w in
  (∀ p, succeeds (api (env w) query) p →
     getEstadisticasConsulta this params w
     = (Return {| totalOfertas := resultCount p; totalPaginas := pageCount p;
                  ofertasPorPagina := pageSize p |}, w'))
  ∧ (fails (api (env w) query) →
     ∃ error, getEstadisticasConsulta this params w = (Throw error, w')).
Proof.
  cbv zeta. unfold getEstadisticasConsulta. unfold bind.
  rewrite fetchPage_run. split.
  - intros p Hp. by rewrite (page_result_succeeds _ _ Hp).
  - intros Hfail. destruct (page_result_fails _ Hfail) as (error & ->).
    by exists error.
Qed.

(** ** The notifier: error reports and links *)

(** X16: [sendErrorNotification] never throws; it posts one message about
    the error, addressed to the recipients, and returns [true] exactly
    when the delivery endpoint answers it with status 200. *)
Theorem sendErrorNotification_outcome
    (this : EmailService) (error : JsError) (emprendimiento : string)
    (recipients : list string) (w : World) :
  ∃ sent w' emailConfig,
    sendErrorNotification this error emprendimiento recipients w
    = (Return sent, w')
    ∧ trace w' = trace w ++ [HttpPost (emailServiceUrl this) emailConfig]
    ∧ to emailConfig = recipients
    ∧ html emailConfig = ErrorHtml emprendimiento (message error) (clock w)
    ∧ (sent = true ↔ ∃ data, mail (env w) emailConfig = Response 200 data).
Proof.
  rewrite sendErrorNotification_run. cbv zeta. eexists _, _, _.
  split_and!; [reflexivity..|apply delivered_200].
Qed.

(** X17: [prepareOfertasForEmail] keeps the records and their order,
    changing nothing but the link; applying it twice is applying it
    once; and on the documents that [extractOffersForEndpoint] builds it
    changes nothing, the link of the report being the link stored at
    extraction. *)
Theorem prepareOfertasForEmail_links
    (ofertas : list OfertaDocument) (fetched : list Oferta)
    (emprendimiento : EmprendimientoConfig.t) (endpoint : EndpointConfig.t)
    (extracted : Z) :
  map oferta_base (prepareOfertasForEmail ofertas) = map oferta_base ofertas
  ∧ Forall (fun d : OfertaDocument => enlace_ficha d = generateFichaLink (codigo d))
           (prepareOfertasForEmail ofertas)
  ∧ prepareOfertasForEmail (prepareOfertasForEmail ofertas)
    = prepareOfertasForEmail ofertas
  ∧ prepareOfertasForEmail
      (map (fun o => ofertaDocument o emprendimiento endpoint extracted) fetched)
    = map (fun o => ofertaDocument o emprendimiento endpoint extracted) fetched.
Proof.
  unfold prepareOfertasForEmail. split_and!.
  - rewrite map_map. by apply map_ext.
  - apply Forall_forall. intros d (x & -> & _)%list_elem_of_fmap. done.
  - rewrite map_map. by apply map_ext.
  - rewrite map_map. by apply map_ext.
Qed.

(** ** Deduplication, once more *)

Lemma filter_seen_id seen l :
  Forall (fun d : OfertaDocument => id d ∉ seen) l → NoDup (ids l) →
  filter_seen seen l = l.
Proof.
  revert seen; induction l as [|x l IH]; intros seen; simpl; [done|].
  intros [Hx Hl]%Forall_cons [Hfresh Hnd]%NoDup_cons.
  rewrite decide_False by done. f_equal. apply IH; [|done].
  apply Forall_forall. intros d Hd. rewrite Forall_forall in Hl.
  rewrite not_elem_of_union, not_elem_of_singleton. split; [|by apply Hl].
  intros Heq. apply Hfresh. rewrite <- Heq.
  unfold ids. by apply (list_elem_of_fmap_2 (fun o : OfertaDocument => id o)).
Qed.

(** X18: a batch without repeated ids passes through
    [removeDuplicateOffers] unchanged, so deduplicating twice is
    deduplicating once. *)
Theorem removeDuplicateOffers_idempotent (ofertas : list OfertaDocument) :
  (NoDup (ids ofertas) → removeDuplicateOffers ofertas = ofertas)
  ∧ removeDuplicateOffers (removeDuplicateOffers ofertas)
    = removeDuplicateOffers ofertas.
Proof.
  assert (∀ l, NoDup (ids l) → removeDuplicateOffers l = l) as Hid.
  { intros l Hl. apply filter_seen_id; [|done].
    apply Forall_forall. intros d _. apply not_elem_of_empty. }
  split; [apply Hid|]. apply Hid, filter_seen_NoDup.
Qed.

(** ** The orchestrator: what extraction touches and produces *)

Lemma same_storage_refl w : same_storage w w.
Proof. by repeat split. Qed.

Lemma same_storage_trans w1 w2 w3 :
  same_storage w1 w2 → same_storage w2 w3 → same_storage w1 w3.
Proof.
  unfold same_storage. intros (? & ? & ? & ? & ?) (? & ? & ? & ? & ?).
  split_and!; congruence.
Qed.

Lemma same_storage_emit e w : same_storage w (emit e w).
Proof. by repeat split. Qed.

Lemma same_storage_advance ms w : same_storage w (advance ms w).
Proof. by repeat split. Qed.

Section Frames.

Variable this : ExtractionService.

Lemma remaining_pages_storage count :
  ∀ currentPage first allOfertas w,
    same_storage w
      (remaining_pages (apiService this) count currentPage first allOfertas w).2.
Proof.
  induction count as [|count IH]; intros currentPage first allOfertas w.
  - apply same_storage_refl.
  - cbn [remaining_pages]. rewrite paced_request_run.
    match goal with
    | |- context [page_result ?r] => destruct (page_result r) as [response|error]
    end.
    + destruct (payload response).
      * eapply same_storage_trans; [|apply IH]. by repeat split.
      * by repeat split.
    + by repeat split.
Qed.

Lemma getAllOfertas_storage baseParams w :
  same_storage w (getAllOfertas (apiService this) baseParams w).2.
Proof.
  unfold getAllOfertas. rewrite fetchPage_run.
  match goal with
  | |- context [page_result ?r] => destruct (page_result r) as [response|error]
  end.
  - destruct (payload response) as [p|].
    + match goal with
      | |- context [remaining_pages ?s ?n ?c ?f ?a ?w1] =>
          pose proof (remaining_pages_storage n c f a w1) as Hrest;
          destruct (remaining_pages s n c f a w1) as [[all [u|e]] w2]
      end; simpl in *.
      * eapply same_storage_trans; [apply same_storage_emit|exact Hrest].
      * case_bool_decide; simpl;
          (eapply same_storage_trans; [apply same_storage_emit|exact Hrest]).
    + simpl. by repeat split.
  - simpl. by repeat split.
Qed.

Lemma getOfertasWithParams_storage params w :
  same_storage w (getOfertasWithParams (apiService this) params w).2.
Proof.
  unfold getOfertasWithParams.
  repeat match goal with
         | |- context [if ?b then _ else _] => destruct b
         end; try apply same_storage_refl.
  apply getAllOfertas_storage.
Qed.

(** What one query configuration yields: the documents of the offers it
    fetched, or an error; storage is not touched. *)
Lemma extractOffersForEndpoint_cases emprendimiento endpoint dateRange w :
  same_storage w
    (extractOffersForEndpoint this emprendimiento endpoint dateRange w).2
  ∧ ∀ docs w',
      extractOffersForEndpoint this emprendimiento endpoint dateRange w
      = (Return docs, w') →
      ∃ fetched extracted,
        docs = map (fun o => ofertaDocument o emprendimiento endpoint extracted)
                   fetched.
Proof.
  unfold extractOffersForEndpoint. unfold try_catch, bind.
  pose proof (getOfertasWithParams_storage
                (queryParams (EndpointConfig.params endpoint) dateRange) w)
    as Hframe.
  destruct (getOfertasWithParams _ _ w) as [[fetched|error] w1]; simpl in *.
  - unfold now, read, ret. split; [done|].
    intros docs w' [= <- <-]. by eexists _, _.
  - unfold throw. split; [done|]. intros; discriminate.
Qed.

Lemma extract_each_tagged emprendimiento dateRange endpoints :
  ∀ allOfertas w docs w',
    (∀ e, e ∈ endpoints → e ∈ EmprendimientoConfig.endpoints emprendimiento) →
    Forall (tagged_for emprendimiento) allOfertas →
    extract_each this emprendimiento endpoints dateRange allOfertas w
    = (Return docs, w') →
    Forall (tagged_for emprendimiento) docs ∧ same_storage w w'.
Proof.
  induction endpoints as [|endpoint rest IH];
    intros allOfertas w docs w' Hsub Hall.
  - intros [= <- <-]. split; [done|apply same_storage_refl].
  - cbn [extract_each]. unfold bind at 1. unfold try_catch, bind at 1.
    destruct (extractOffersForEndpoint_cases emprendimiento endpoint dateRange w)
      as [Hframe Hdocs].
    destruct (extractOffersForEndpoint this emprendimiento endpoint dateRange w)
      as [[found|error] w1] eqn:Hendpoint; simpl in Hframe.
    + destruct (Hdocs found w1 eq_refl) as (fetched & extracted & ->).
      unfold sleep. unfold_js.
      intros H. eapply IH in H as [Htagged Hrest].
      * split; [done|].
        eapply same_storage_trans; [exact Hframe|].
        eapply same_storage_trans; [|exact Hrest].
        by repeat split.
      * intros e He. apply Hsub. by right.
      * apply Forall_app. split; [done|].
        apply Forall_forall. intros d (o & -> & _)%list_elem_of_fmap.
        unfold tagged_for. split_and!; [done| |done|done].
        cbn [endpoint_name ofertaDocument].
        apply (list_elem_of_fmap_2 EndpointConfig.name), Hsub. by left.
    + unfold ret at 1. intros H. eapply IH in H as [Htagged Hrest].
      * split; [done|]. by eapply same_storage_trans.
      * intros e He. apply Hsub. by right.
      * done.
Qed.

(** X19: everything [extractOffersForEmprendimiento] returns is stamped
    with the id of the business line, with the name of one of its query
    configurations, with the link derived from its code, and carries no
    [_id]; the extraction leaves MongoDB and the database service as
    they were. *)
Theorem extractOffersForEmprendimiento_tagged
    (emprendimiento : EmprendimientoConfig.t) (dateRange : DateRange.t)
    (w w' : World) (docs : list OfertaDocument) :
  extractOffersForEmprendimiento this emprendimiento dateRange w
  = (Return docs, w') →
  Forall (tagged_for emprendimiento) docs ∧ same_storage w w'.
Proof.
  apply extract_each_tagged; [done|constructor].
Qed.

(** X20: when the date range is one that validation turns down, the
    extraction for a business line returns no record and does nothing
    at all: no request, no pause. *)
Theorem extractOffersForEmprendimiento_bad_range
    (emprendimiento : EmprendimientoConfig.t) (dateRange : DateRange.t)
    (w : World) :
  bad_date_range (Some (DateRange.from dateRange))
                 (Some (DateRange.to dateRange)) →
  extractOffersForEmprendimiento this emprendimiento dateRange w
  = (Return [], w).
Proof.
  intros Hbad. unfold extractOffersForEmprendimiento.
  induction (EmprendimientoConfig.endpoints emprendimiento)
    as [|endpoint rest IH]; [done|].
  cbn [extract_each]. unfold bind at 1. unfold try_catch, bind at 1.
  unfold extractOffersForEndpoint. unfold try_catch at 1. unfold bind at 1.
  destruct (getOfertasWithParams_checks (apiService this)
              (queryParams (EndpointConfig.params endpoint) dateRange) w)
    as [Hreject _].
  destruct (Hreject Hbad) as (error & ->).
  unfold throw at 1. unfold ret at 1. exact IH.
Qed.

End Frames.

(** ** The orchestrator: summaries and the first run of a line *)

Section Runs.

Variable this : ExtractionService.

Lemma processEmprendimiento_bounds emprendimiento dateRange w summary w' :
  processEmprendimiento this emprendimiento dateRange w = (Return summary, w') →
  summary_in_bounds summary.
Proof.
  destruct (extractOffersForEmprendimiento_returns this emprendimiento dateRange w)
    as (ofertas & w1 & Hextract).
  destruct (insertOfertas (removeDuplicateOffers ofertas) w1)
    as [[counts|err] w2] eqn:Hinsert.
  - rewrite (processEmprendimiento_inserted _ _ _ _ _ _ _ _ Hextract Hinsert).
    intros [= <- _]. apply insertOfertas_total in Hinsert.
    unfold summary_in_bounds, summary_of. simpl. lia.
  - rewrite (processEmprendimiento_failed _ _ _ _ _ _ _ _ Hextract Hinsert).
    discriminate.
Qed.

Lemma line_outcomes_bounds dateRange lines w summaries w' :
  line_outcomes this dateRange lines w summaries w' →
  Forall summary_in_bounds summaries.
Proof.
  induction 1 as [|? ? ? ? ? ? ? Hline _ IH|? ? ? ? ? ? ? _ _ _ IH].
  - constructor.
  - constructor; [by eapply processEmprendimiento_bounds|done].
  - constructor; [|done]. unfold summary_in_bounds, zero_summary. simpl. lia.
Qed.

(** X21: whenever a run returns, it returns one summary per configured
    business line, and in every summary the number of new records lies
    between 0 and the number of records found. *)
Theorem runCompleteExtraction_bounds
    (emprendimientos : list EmprendimientoConfig.t) (isInitialRun : bool)
    (w w' : World) (summaries : list ExtraccionSummary.t) :
  runCompleteExtraction this emprendimientos isInitialRun w
  = (Return summaries, w') →
  List.length summaries = List.length emprendimientos
  ∧ Forall summary_in_bounds summaries.
Proof.
  destruct (generateDateRange_returns isInitialRun w) as (dateRange & Hrange).
  unfold runCompleteExtraction. unfold bind at 1. rewrite Hrange.
  unfold bind at 1. unfold isConnectionActive, read.
  unfold bind at 1.
  destruct ((if negb (isConnected w && client w) then connect else ret tt) w)
    as [[[]|error] w0]; [|discriminate].
  destruct (process_each_outcomes this dateRange emprendimientos [] w0)
    as (produced & w'' & Hloop & Hlines).
  unfold bind. rewrite Hloop. unfold ret. intros [= <- <-].
  split.
  - rewrite <- (length_map ExtraccionSummary.emprendimiento).
    rewrite (line_outcomes_names _ _ _ _ _ _ Hlines). apply length_map.
  - by eapply line_outcomes_bounds.
Qed.





End Runs.

(** ** Dates: from a time value to its calendar string and back *)

Lemma digit_char_spec n :
  is_digit (digit_char n) = true ∧ digit_value (digit_char n) = n mod 10.
Proof.
  unfold digit_char.
  assert (0 <= n mod 10 < 10) as Hr by (apply Z.mod_pos_bound; lia).
  assert (n mod 10 = 0 ∨ n mod 10 = 1 ∨ n mod 10 = 2 ∨ n mod 10 = 3
          ∨ n mod 10 = 4 ∨ n mod 10 = 5 ∨ n mod 10 = 6 ∨ n mod 10 = 7
          ∨ n mod 10 = 8 ∨ n mod 10 = 9) as Hc by lia.
  repeat destruct Hc as [Hc|Hc]; rewrite Hc; vm_compute; done.
Qed.

Lemma calendar_string_spec y m d :
  0 <= y <= 9999 → 0 <= m <= 99 → 0 <= d <= 99 →
  calendar_format (calendar_string y m d)
  ∧ year_of (calendar_string y m d) = y
  ∧ month_of (calendar_string y m d) = m
  ∧ day_of (calendar_string y m d) = d.
Proof.
  intros Hy Hm Hd.
  unfold calendar_string. cbv [pad String.append].
  split; [|unfold year_of, month_of, day_of, decimal;
           cbn [substring decimal_from];
           rewrite !(proj2 (digit_char_spec _));
           split_and!; Z.div_mod_to_equations; lia].
  do 8 eexists. split; [|reflexivity].
  repeat constructor; apply digit_char_spec.
Qed.

(** The year of the era a day of the era falls in. *)
Lemma year_of_era doe :
  0 <= doe < 146097 →
  let yoe := (doe - doe / 1460 + doe / 36524 - doe / 146096) / 365 in
  0 <= yoe <= 399
  ∧ 365 * yoe + yoe / 4 - yoe / 100 <= doe
  ∧ doe < 365 * (yoe + 1) + (yoe + 1) / 4 - (yoe + 1) / 100 + (yoe + 1) / 400.
Proof.
  intros H yoe. subst yoe. Z.div_mod_to_equations; lia.
Qed.

(** The months counted from March, as [civil_from_days] counts them. *)
Lemma month_of_index mp (leap : bool) y :
  0 <= mp <= 11 →
  let m := if mp <? 10 then mp + 3 else mp - 9 in
  1 <= m <= 12
  ∧ days_before_month leap (m - 1)
    = (153 * mp + 2) / 5
      + (if mp <? 10 then 59 + (if leap then 1 else 0) else - 306)
  ∧ (mp ≠ 11 →
     days_in_month y m = (153 * (mp + 1) + 2) / 5 - (153 * mp + 2) / 5)
  ∧ (mp = 11 → days_in_month y m = if InLeapYear y then 29 else 28).
Proof.
  intros Hmp.
  assert (mp = 0 ∨ mp = 1 ∨ mp = 2 ∨ mp = 3 ∨ mp = 4 ∨ mp = 5 ∨ mp = 6
          ∨ mp = 7 ∨ mp = 8 ∨ mp = 9 ∨ mp = 10 ∨ mp = 11) as Hc by lia.
  repeat destruct Hc as [Hc|Hc]; subst mp; cbv zeta;
    (split; [by vm_compute|]); (split; [by destruct leap|]);
    (split; [done|]); by intros [=].
Qed.

Lemma DayFromYear_era yoe era :
  0 <= yoe <= 399 →
  DayFromYear (yoe + era * 400 + 1)
  = 365 * yoe + yoe / 4 - yoe / 100 + 146097 * era - 719162.
Proof.
  intros H. unfold DayFromYear. Z.div_mod_to_equations; lia.
Qed.

(** [civil_from_days] yields a day that exists, and [MakeDay] of the
    standard takes it back to the day number. *)
Lemma civil_from_days_spec n y m d :
  civil_from_days n = (y, m, d) →
  1 <= m <= 12 ∧ 1 <= d <= days_in_month y m ∧ MakeDay y (m - 1) d = n.
Proof.
  unfold civil_from_days.
  set (z := n + 719468). set (era := z / 146097).
  set (doe := z - era * 146097).
  set (yoe := (doe - doe / 1460 + doe / 36524 - doe / 146096) / 365).
  set (doy := doe - (365 * yoe + yoe / 4 - yoe / 100)).
  set (mp := (5 * doy + 2) / 153).
  intros [= <- <- <-].
  assert (0 <= doe < 146097) as Hdoe
    by (subst doe era; Z.div_mod_to_equations; lia).
  destruct (year_of_era doe Hdoe) as (Hyoe & Hlo & Hhi). fold yoe in Hyoe, Hlo, Hhi.
  assert (0 <= doy) as Hdoy0 by (subst doy; lia).
  assert (doy <= 365) as Hdoy1
    by (subst doy; revert Hhi; Z.div_mod_to_equations; lia).
  assert (153 * mp <= 5 * doy + 2 < 153 * mp + 153) as Hmp
    by (subst mp; Z.div_mod_to_equations; lia).
  assert (0 <= mp <= 11) as Hmp' by lia.
  set (m := if mp <? 10 then mp + 3 else mp - 9).
  set (Y := yoe + era * 400 + (if m <=? 2 then 1 else 0)).
  destruct (month_of_index mp (InLeapYear Y) Y Hmp')
    as (Hm & Hbefore & Hlength & Hfeb).
  fold m in Hm, Hbefore, Hlength, Hfeb.
  set (q := (153 * mp + 2) / 5) in *.
  assert (q <= doy) as Hq by (subst q; Z.div_mod_to_equations; lia).
  assert (doy < (153 * (mp + 1) + 2) / 5) as Hq'
    by (Z.div_mod_to_equations; lia).
  pose proof (DayFromYear_era yoe era Hyoe) as Hera.
  pose proof (DayFromYear_succ Y) as Hsucc.
  assert (n = doy + (365 * yoe + yoe / 4 - yoe / 100) + 146097 * era - 719468)
    as Hn by (subst doy doe z; lia).
  split; [done|].
  rewrite (MakeDay_in_year _ _ _ Hm), Hbefore.
  destruct (mp <? 10) eqn:Hspring.
  - apply Z.ltb_lt in Hspring.
    assert ((m <=? 2) = false) as Hc by (apply Z.leb_gt; subst m; lia).
    assert (Y = yoe + era * 400) as HY by (subst Y; rewrite Hc; lia).
    rewrite HY in *. rewrite Hera in Hsucc.
    rewrite Hlength by lia.
    split; [lia|]. destruct (InLeapYear (yoe + era * 400)); lia.
  - apply Z.ltb_ge in Hspring.
    assert ((m <=? 2) = true) as Hc by (apply Z.leb_le; subst m; lia).
    assert (Y = yoe + era * 400 + 1) as HY by (subst Y; rewrite Hc; lia).
    rewrite HY in *. rewrite Hera in *.
    split; [|lia].
    destruct (Z.eq_dec mp 11) as [Hlast|Hmid].
    + rewrite (Hfeb Hlast).
      assert (q = 337) as -> by (subst q; rewrite Hlast; reflexivity).
      revert Hsucc Hhi. unfold DayFromYear. subst doy.
      destruct (InLeapYear (yoe + era * 400 + 1));
        Z.div_mod_to_equations; lia.
    + rewrite (Hlength Hmid). lia.
Qed.

Lemma days_in_month_le y m : days_in_month y m <= 31.
Proof.
  unfold days_in_month.
  repeat match goal with
         | |- context [match ?x with _ => _ end] => destruct x
         end; lia.
Qed.

Lemma civil_year_bounds n y m d :
  civil_from_days n = (y, m, d) →
  DayFromYear 0 <= n < DayFromYear 10000 →
  0 <= y <= 9999.
Proof.
  intros (Hm & Hd & Hday)%civil_from_days_spec Hn.
  rewrite (MakeDay_in_year _ _ _ Hm) in Hday.
  pose proof (day_of_year_bounds y m d Hm Hd) as Hdoy.
  pose proof (DayFromYear_succ y) as Hsucc.
  destruct (Z.lt_ge_cases y 0) as [Hneg|Hpos].
  - pose proof (DayFromYear_mono (y + 1) 0 ltac:(lia)). lia.
  - destruct (Z.le_gt_cases y 9999) as [|Hbig]; [lia|].
    pose proof (DayFromYear_mono 10000 y ltac:(lia)). lia.
Qed.

Lemma toISODate_string t :
  four_digit_years t →
  ∃ y m d,
    toISODate t = calendar_string y m d
    ∧ 0 <= y <= 9999 ∧ 1 <= m <= 12 ∧ 1 <= d <= days_in_month y m
    ∧ MakeDay y (m - 1) d = t / msPerDay.
Proof.
  intros Ht.
  destruct (civil_from_days (t / msPerDay)) as [[y m] d] eqn:Hcivil.
  assert (0 <= y <= 9999) as Hy.
  { eapply civil_year_bounds; [exact Hcivil|].
    revert Ht. unfold four_digit_years.
    change (DayFromYear 0) with (-719528).
    change (DayFromYear 10000) with 2932897.
    unfold msPerDay. Z.div_mod_to_equations; lia. }
  apply civil_from_days_spec in Hcivil as Hspec.
  exists y, m, d. split; [|tauto].
  unfold toISODate. rewrite Hcivil.
  assert ((0 <=? y) && (y <=? 9999) = true) as ->; [|done].
  apply andb_true_iff. split; apply Z.leb_le; lia.
Qed.

(** X23: date round trip. For a time value whose UTC year has four
    digits, the string [toISOString().split("T")[0]] produces names a
    day that exists in the calendar, and [new Date] reads it back as
    UTC midnight of the day the time value falls on. *)
Theorem toISODate_round_trip (t : Z) :
  four_digit_years t →
  real_calendar_date (toISODate t)
  ∧ Date_parse (toISODate t) = Some (utc_midnight t).
Proof.
  intros (y & m & d & -> & Hy & Hm & Hd & Hday)%toISODate_string.
  pose proof (days_in_month_le y m) as Hle.
  destruct (calendar_string_spec y m d) as (Hformat & Hyear & Hmonth & Hdate);
    [lia|lia|lia|].
  assert (real_calendar_date (calendar_string y m d)) as Hreal.
  { unfold real_calendar_date. by rewrite Hyear, Hmonth, Hdate. }
  split; [done|].
  rewrite (Date_parse_real _ Hreal), Hyear, Hmonth, Hdate, Hday. done.
Qed.

Lemma bad_date_range_later a b :
  calendar_format a → calendar_format b →
  bad_date_range (Some a) (Some b) ↔ later a b.
Proof.
  intros Ha Hb.
  assert (∀ s, calendar_format s → ¬ missing (Some s)) as Hpresent.
  { intros s (? & ? & ? & ? & ? & ? & ? & ? & _ & ->) [|]; discriminate. }
  split.
  - intros [Hm|[Hm|(a' & b' & [= <-] & [= <-] & [?|[?|?]])]];
      [by apply Hpresent in Hm|by apply Hpresent in Hm|done|done|done].
  - intros Hlater. right. right. exists a, b. tauto.
Qed.

(** X24: the date range of a routine run is a single day, today's in
    UTC, and it always passes the date validation of the API client:
    a query with it is never turned down before the first request. *)
Theorem generateDateRange_daily
    (w : World) (this : ChileCompraApiService) (base : Partial.t) :
  four_digit_years (clock w) →
  ∃ dateRange,
    generateDateRange false w = (Return dateRange, w)
    ∧ DateRange.from dateRange = toISODate (clock w)
    ∧ DateRange.to dateRange = toISODate (clock w)
    ∧ ¬ bad_date_range (Some (DateRange.from dateRange))
                       (Some (DateRange.to dateRange))
    ∧ getOfertasWithParams this (queryParams base dateRange) w
      = getAllOfertas this (queryParams base dateRange) w.
Proof.
  intros [[Hformat _] Hparse]%toISODate_round_trip.
  eexists. split; [reflexivity|]. cbn [DateRange.from DateRange.to].
  split; [done|]. split; [done|].
  assert (¬ bad_date_range (Some (toISODate (clock w)))
                           (Some (toISODate (clock w)))) as Hgood.
  { rewrite (bad_date_range_later _ _ Hformat Hformat).
    intros (ta & tb & Ha & Hb & Hlt). rewrite Hparse in Ha, Hb.
    injection Ha as <-. injection Hb as <-. lia. }
  split; [done|].
  by apply getOfertasWithParams_checks.
Qed.

(** X25: the date range of an initial run goes from 2025-08-01 to today
    (UTC).  The API client's validation turns it down exactly when the
    run takes place before 1 August 2025, 00:00 UTC. *)
Theorem generateDateRange_initial (w : World) :
  four_digit_years (clock w) →
  ∃ dateRange,
    generateDateRange true w = (Return dateRange, w)
    ∧ DateRange.from dateRange = "2025-08-01"
    ∧ DateRange.to dateRange = toISODate (clock w)
    ∧ (bad_date_range (Some (DateRange.from dateRange))
                      (Some (DateRange.to dateRange))
       ↔ clock w < 1754006400000).
Proof.
  intros [[Hformat _] Hparse]%toISODate_round_trip.
  eexists. split; [unfold generateDateRange; by rewrite startDate_valid|].
  cbn [DateRange.from DateRange.to].
  assert (toISODate 1754006400000 = "2025-08-01") as -> by by vm_compute.
  split; [done|]. split; [done|].
  rewrite bad_date_range_later;
    [|by apply test_dateRegex; vm_compute|done].
  unfold later. rewrite Hparse, startDate_valid. unfold utc_midnight, msPerDay.
  split.
  - intros (ta & tb & [= <-] & [= <-] & Hlt).
    revert Hlt. Z.div_mod_to_equations; lia.
  - intros Hearly. eexists _, _. split; [done|]. split; [done|].
    Z.div_mod_to_equations; lia.
Qed.

(** X26: a run that cannot connect. When the service is not connected
    and the server does not answer the handshake, the run throws the
    connection error after the connection attempt alone: no business
    line is processed, so no request goes to the API, no message is
    sent and nothing is stored. *)
Theorem runCompleteExtraction_cannot_connect
    (this : ExtractionService)
    (emprendimientos : list EmprendimientoConfig.t) (isInitialRun : bool)
    (w : World) (f : StorageFault) :
  isConnected w && client w = false →
  pending_fault w = Some f →
  ∃ w',
    runCompleteExtraction this emprendimientos isInitialRun w
    = (Throw (fault_error f), w')
    ∧ trace w' = trace w ++ [MongoConnect]
    ∧ ofertas_collection w' = ofertas_collection w
    ∧ isConnected w' = isConnected w.
Proof.
  intros Hinactive Hfault.
  destruct (generateDateRange_returns isInitialRun w) as (dateRange & Hrange).
  unfold runCompleteExtraction. unfold bind at 1. rewrite Hrange.
  unfold bind at 1. unfold isConnectionActive, read.
  rewrite Hinactive. cbn [negb]. unfold bind at 1.
  rewrite connect_run, Hfault. cbv zeta.
  eexists. split; [reflexivity|]. done.
Qed.

(** ** Worked examples of the further properties *)

Lemma data_operations_need_connection_witness :
  let w := unconnected_world offline_env in
  let setHours0 := utc_setHours0 in
  let setDate_back := plain_setDate_back in
  let emprendimientos := [sample_line []] in
  isConnected w && client w = false
  ∧ insertOfertas sample_batch w = (Throw not_connected, w)
  ∧ getOfertasByEmprendimiento "transporte" None None w
    = (Throw not_connected, w)
  ∧ getEstadisticasEmprendimiento setHours0 "transporte" w
    = (Throw not_connected, w)
  ∧ limpiarOfertasAntiguas setDate_back 90 w = (Throw not_connected, w)
  ∧ getSystemStats setHours0 emprendimientos w = (Throw not_connected, w)
  ∧ cleanupOldOffers setDate_back 90 w = (Throw not_connected, w).
Proof.
  intros w setHours0 setDate_back emprendimientos.
  assert (isConnected w && client w = false) as H by reflexivity.
  split; [exact H|].
  exact (data_operations_need_connection setHours0 setDate_back w sample_batch
           "transporte" None None 90 emprendimientos H).
Defined.


Lemma insertOfertas_appends_witness :
  let w := stocked_world [sample_doc 1 "transporte"] in
  let c := {| insertedCount := 1; duplicateCount := 1 |} in
  let w' := snd (insertOfertas sample_batch w) in
  insertOfertas sample_batch w = (Return c, w')
  ∧ ∃ added,
      ofertas_collection w' = ofertas_collection w ++ added
      ∧ sublist added sample_batch
      ∧ insertedCount c = Z.of_nat (List.length added).
Proof.
  intros w c w'.
  assert (insertOfertas sample_batch w = (Return c, w')) as Hcall
    by (vm_compute; reflexivity).
  split; [exact Hcall|].
  exact (insertOfertas_appends sample_batch w w' c Hcall).
Defined.

Lemma getOfertasByEmprendimiento_result_witness :
  let line := "transporte" in
  let fechaDesde := Some 1758650000000 in
  let fechaHasta := @None Z in
  let w := stocked_world history in
  let found := [dated_doc 2 "transporte" 1758708000000] in
  let w' := snd (getOfertasByEmprendimiento line fechaDesde fechaHasta w) in
  getOfertasByEmprendimiento line fechaDesde fechaHasta w = (Return found, w')
  ∧ found ≡ₚ List.filter (matches_filter line fechaDesde fechaHasta)
               (ofertas_collection w)
  ∧ (∀ d, d ∈ found ↔
          d ∈ ofertas_collection w
          ∧ emprendimiento d = line
          ∧ (∀ lo, fechaDesde = Some lo → lo <= fecha_extraccion d)
          ∧ (∀ hi, fechaHasta = Some hi → fecha_extraccion d <= hi))
  ∧ in_cursor_order found
  ∧ (∀ before d after, found = before ++ d :: after →
       Forall (fun later : OfertaDocument =>
                 fecha_extraccion later <= fecha_extraccion d) after)
  ∧ ofertas_collection w' = ofertas_collection w.
Proof.
  intros line fechaDesde fechaHasta w found w'.
  assert (getOfertasByEmprendimiento line fechaDesde fechaHasta w
          = (Return found, w')) as Hcall by (vm_compute; reflexivity).
  split; [exact Hcall|].
  exact (getOfertasByEmprendimiento_result line fechaDesde fechaHasta w w' found
           Hcall).
Defined.

Lemma insertOfertas_then_query_witness :
  let w := stocked_world [] in
  let c := {| insertedCount := 2; duplicateCount := 0 |} in
  let w1 := snd (insertOfertas sample_batch w) in
  let doc := sample_doc 2 "transporte" in
  let found := returned [] (getOfertasByEmprendimiento "transporte" None None w1) in
  let w2 := snd (getOfertasByEmprendimiento "transporte" None None w1) in
  insertOfertas sample_batch w = (Return c, w1)
  ∧ doc ∈ sample_batch
  ∧ _id doc = None
  ∧ getOfertasByEmprendimiento (emprendimiento doc) None None w1
    = (Return found, w2)
  ∧ ∃ d : OfertaDocument,
      d ∈ found ∧ id d = id doc ∧ emprendimiento d = emprendimiento doc.
Proof.
  intros w c w1 doc found w2.
  assert (insertOfertas sample_batch w = (Return c, w1)) as Hinsert
    by (vm_compute; reflexivity).
  assert (doc ∈ sample_batch) as Hin by (right; left).
  assert (_id doc = None) as Hid by reflexivity.
  assert (getOfertasByEmprendimiento (emprendimiento doc) None None w1
          = (Return found, w2)) as Hquery by (vm_compute; reflexivity).
  split; [exact Hinsert|]. split; [exact Hin|]. split; [exact Hid|].
  split; [exact Hquery|].
  exact (insertOfertas_then_query sample_batch w w1 w2 c doc found
           Hinsert Hin Hid Hquery).
Defined.

Lemma getEstadisticasEmprendimiento_result_witness :
  let line := "transporte" in
  let w := stocked_world history in
  let s := {| total := 2; hoy := 1; ultima_extraccion := Some 1758708000000 |} in
  let w' := snd (getEstadisticasEmprendimiento utc_setHours0 line w) in
  getEstadisticasEmprendimiento utc_setHours0 line w = (Return s, w')
  ∧ total s
    = Z.of_nat (List.length
                  (List.filter (fun d => bool_decide (emprendimiento d = line))
                               (ofertas_collection w)))
  ∧ 0 <= hoy s <= total s
  ∧ (ultima_extraccion s = None ↔ total s = 0)
  ∧ (∀ t, ultima_extraccion s = Some t →
       (∃ d : OfertaDocument,
          d ∈ ofertas_collection w ∧ emprendimiento d = line
          ∧ fecha_extraccion d = t)
       ∧ ∀ d : OfertaDocument,
           d ∈ ofertas_collection w → emprendimiento d = line →
           fecha_extraccion d <= t)
  ∧ ofertas_collection w' = ofertas_collection w.
Proof.
  intros line w s w'.
  assert (getEstadisticasEmprendimiento utc_setHours0 line w = (Return s, w'))
    as Hcall by (vm_compute; reflexivity).
  split; [exact Hcall|].
  exact (getEstadisticasEmprendimiento_result utc_setHours0 line w w' s Hcall).
Defined.


Lemma connect_succeeds_witness :
  let w := unconnected_world offline_env in
  no_fault_within 4 w
  ∧ ∃ w',
      connect w = (Return tt, w')
      ∧ ready w'
      ∧ trace w' = trace w ++ connect_commands
      ∧ ofertas_collection w' = ofertas_collection w
      ∧ faults w' = skipn 4 (faults w).
Proof.
  intros w.
  assert (no_fault_within 4 w) as Hanswers by apply Forall_nil_2.
  split; [exact Hanswers|].
  exact (connect_succeeds w Hanswers).
Defined.

Lemma connect_failure_modes_witness :
  let w := disconnected_world offline_env in
  let v := half_indexed_world offline_env in
  let error := fault_error NotWritablePrimary in
  let v' := snd (connect v) in
  pending_fault w = Some ServerSelectionTimeout
  ∧ (∃ w', connect w = (Throw (fault_error ServerSelectionTimeout), w')
           ∧ client w' = true
           ∧ db w' = db w ∧ isConnected w' = isConnected w
           ∧ trace w' = trace w ++ [MongoConnect])
  ∧ pending_fault v = None
  ∧ connect v = (Throw error, v')
  ∧ ready v' ∧ ofertas_collection v' = ofertas_collection v.
Proof.
  intros w v error v'.
  assert (pending_fault w = Some ServerSelectionTimeout) as Hdown by reflexivity.
  assert (pending_fault v = None) as Hup by reflexivity.
  assert (connect v = (Throw error, v')) as Hcall by (vm_compute; reflexivity).
  split; [exact Hdown|].
  split; [exact (proj1 (connect_failure_modes w) ServerSelectionTimeout Hdown)|].
  split; [exact Hup|]. split; [exact Hcall|].
  exact (proj2 (connect_failure_modes v) error v' Hup Hcall).
Defined.

Lemma disconnect_outcome_witness :
  let w := stocked_world history in
  client w = true
  ∧ pending_fault w = None
  ∧ ∃ w', disconnect w = (Return tt, w')
          ∧ isConnected w' = false
          ∧ ofertas_collection w' = ofertas_collection w
          ∧ insertOfertas sample_batch w' = (Throw not_connected, w').
Proof.
  intros w.
  assert (client w = true) as Hclient by reflexivity.
  assert (pending_fault w = None) as Hup by reflexivity.
  split; [exact Hclient|]. split; [exact Hup|].
  exact (proj1 (proj2 (disconnect_outcome w sample_batch)) Hclient Hup).
Defined.

Lemma getSystemStats_result_witness :
  let setHours0 := utc_setHours0 in
  let emprendimientos := [sample_line []] in
  let w := stocked_world history in
  let s := returned {| fecha_consulta := 0; stats_emprendimientos := [] |}
             (getSystemStats setHours0 emprendimientos w) in
  let w' := snd (getSystemStats setHours0 emprendimientos w) in
  getSystemStats setHours0 emprendimientos w = (Return s, w')
  ∧ fecha_consulta s = clock w
  ∧ map stats_id (stats_emprendimientos s)
    = map EmprendimientoConfig.id emprendimientos
  ∧ map stats_nombre (stats_emprendimientos s)
    = map EmprendimientoConfig.name emprendimientos
  ∧ Forall (fun entry =>
              total (stats_values entry)
              = Z.of_nat
                  (List.length
                     (List.filter
                        (fun d => bool_decide (emprendimiento d = stats_id entry))
                        (ofertas_collection w)))
              ∧ 0 <= hoy (stats_values entry) <= total (stats_values entry))
           (stats_emprendimientos s)
  ∧ ofertas_collection w' = ofertas_collection w.
Proof.
  intros setHours0 emprendimientos w s w'.
  assert (getSystemStats setHours0 emprendimientos w = (Return s, w')) as Hcall
    by (vm_compute; reflexivity).
  split; [exact Hcall|].
  exact (getSystemStats_result setHours0 emprendimientos w w' s Hcall).
Defined.

Lemma getEmprendimientoById_lookup_witness :
  let emprendimientos := [sample_line []] in
  NoDup (getAllEmprendimientoIds emprendimientos)
  ∧ sample_line [] ∈ emprendimientos
  ∧ getEmprendimientoById emprendimientos
      (EmprendimientoConfig.id (sample_line []))
    = Some (sample_line []).
Proof.
  intros emprendimientos.
  assert (NoDup (getAllEmprendimientoIds emprendimientos)) as Hids
    by apply NoDup_singleton.
  assert (sample_line [] ∈ emprendimientos) as Hin by left.
  split; [exact Hids|]. split; [exact Hin|].
  exact (proj2 (proj2 (getEmprendimientoById_lookup emprendimientos "transporte"))
           Hids (sample_line []) Hin).
Defined.

Lemma getAllOfertas_single_page_witness :
  let ofertas := [sample_oferta 1 "1057-22-COT25"] in
  let w := connected_world (lone_page_env 0 ofertas) in
  let p := lone_page 0 ofertas in
  succeeds (api (env w) (firstPageParams sample_query 1)) p
  ∧ pageCount p <= 1
  ∧ getAllOfertas sample_api_service sample_query w
    = (Return (resultados p),
       emit (HttpGet (endpoint_url sample_api_service)
               (firstPageParams sample_query 1)) w).
Proof.
  intros ofertas w p.
  assert (succeeds (api (env w) (firstPageParams sample_query 1)) p) as Hpage
    by (exists 200; split; [reflexivity|lia]).
  assert (pageCount p <= 1) as Hcount by (simpl; lia).
  split; [exact Hpage|]. split; [exact Hcount|].
  exact (getAllOfertas_single_page sample_api_service sample_query w p
           Hpage Hcount).
Defined.

Lemma getEstadisticasConsulta_single_request_witness :
  let ofertas := [sample_oferta 1 "1057-22-COT25"] in
  let w := connected_world (lone_page_env 4 ofertas) in
  let p := lone_page 4 ofertas in
  let query := firstPageParams sample_query 1 in
  succeeds (api (env w) query) p
  ∧ getEstadisticasConsulta sample_api_service sample_query w
    = (Return {| totalOfertas := resultCount p; totalPaginas := pageCount p;
                 ofertasPorPagina := pageSize p |},
       emit (HttpGet (endpoint_url sample_api_service) query) w).
Proof.
  intros ofertas w p query.
  assert (succeeds (api (env w) query) p) as Hpage
    by (exists 200; split; [reflexivity|lia]).
  split; [exact Hpage|].
  exact (proj1 (getEstadisticasConsulta_single_request sample_api_service
                  sample_query w) p Hpage).
Defined.

Lemma removeDuplicateOffers_idempotent_witness :
  NoDup (ids sample_batch)
  ∧ removeDuplicateOffers sample_batch = sample_batch.
Proof.
  assert (NoDup (ids sample_batch)) as Hids.
  { apply NoDup_cons. split; [|apply NoDup_singleton].
    intros Hin. apply list_elem_of_singleton in Hin. discriminate. }
  split; [exact Hids|].
  exact (proj1 (removeDuplicateOffers_idempotent sample_batch) Hids).
Defined.

Lemma extractOffersForEmprendimiento_tagged_witness :
  let emprendimiento := sample_line ["usuario@ejemplo.com"] in
  let w := connected_world (steady_env [sample_oferta 1 "1057-22-COT25"]) in
  let docs :=
    returned [] (extractOffersForEmprendimiento sample_service emprendimiento
                   sample_range w) in
  let w' :=
    snd (extractOffersForEmprendimiento sample_service emprendimiento
           sample_range w) in
  extractOffersForEmprendimiento sample_service emprendimiento sample_range w
  = (Return docs, w')
  ∧ docs ≠ []
  ∧ Forall (tagged_for emprendimiento) docs ∧ same_storage w w'.
Proof.
  intros emprendimiento w docs w'.
  assert (extractOffersForEmprendimiento sample_service emprendimiento
            sample_range w = (Return docs, w')) as Hcall
    by (vm_compute; reflexivity).
  assert (docs ≠ []) as Hsome by (vm_compute; discriminate).
  split; [exact Hcall|]. split; [exact Hsome|].
  exact (extractOffersForEmprendimiento_tagged sample_service emprendimiento
           sample_range w w' docs Hcall).
Defined.

Lemma extractOffersForEmprendimiento_bad_range_witness :
  let emprendimiento := sample_line ["usuario@ejemplo.com"] in
  let w := connected_world (steady_env [sample_oferta 1 "1057-22-COT25"]) in
  bad_date_range (Some (DateRange.from backwards_range))
                 (Some (DateRange.to backwards_range))
  ∧ extractOffersForEmprendimiento sample_service emprendimiento
      backwards_range w
    = (Return [], w).
Proof.
  intros emprendimiento w.
  assert (bad_date_range (Some (DateRange.from backwards_range))
                         (Some (DateRange.to backwards_range))) as Hbad.
  { right; right. exists "2025-09-25", "2025-09-24".
    split; [reflexivity|]. split; [reflexivity|]. right; right.
    exists 1758758400000, 1758672000000.
    split; [vm_compute; reflexivity|]. split; [vm_compute; reflexivity|]. lia. }
  split; [exact Hbad|].
  exact (extractOffersForEmprendimiento_bad_range sample_service emprendimiento
           backwards_range w Hbad).
Defined.

Lemma runCompleteExtraction_bounds_witness :
  let emprendimientos := [sample_line ["usuario@ejemplo.com"]; sample_line []] in
  let w := connected_world (steady_env [sample_oferta 1 "1057-22-COT25"]) in
  let summaries :=
    returned [] (runCompleteExtraction sample_service emprendimientos false w) in
  let w' := snd (runCompleteExtraction sample_service emprendimientos false w) in
  runCompleteExtraction sample_service emprendimientos false w
  = (Return summaries, w')
  ∧ List.length summaries = List.length emprendimientos
  ∧ Forall summary_in_bounds summaries.
Proof.
  intros emprendimientos w summaries w'.
  assert (runCompleteExtraction sample_service emprendimientos false w
          = (Return summaries, w')) as Hcall by (vm_compute; reflexivity).
  split; [exact Hcall|].
  exact (runCompleteExtraction_bounds sample_service emprendimientos false w w'
           summaries Hcall).
Defined.


Lemma toISODate_round_trip_witness :
  let t := 1758708000000 in
  four_digit_years t
  ∧ toISODate t = "2025-09-24"
  ∧ real_calendar_date (toISODate t)
  ∧ Date_parse (toISODate t) = Some (utc_midnight t).
Proof.
  intros t.
  assert (four_digit_years t) as Hrange
    by (vm_compute; split; [discriminate|reflexivity]).
  split; [exact Hrange|]. split; [vm_compute; reflexivity|].
  exact (toISODate_round_trip t Hrange).
Defined.

Lemma generateDateRange_daily_witness :
  let w := connected_world offline_env in
  four_digit_years (clock w)
  ∧ ∃ dateRange,
      generateDateRange false w = (Return dateRange, w)
      ∧ DateRange.from dateRange = toISODate (clock w)
      ∧ DateRange.to dateRange = toISODate (clock w)
      ∧ ¬ bad_date_range (Some (DateRange.from dateRange))
                         (Some (DateRange.to dateRange))
      ∧ getOfertasWithParams sample_api_service
          (queryParams sample_query dateRange) w
        = getAllOfertas sample_api_service (queryParams sample_query dateRange) w.
Proof.
  intros w.
  assert (four_digit_years (clock w)) as Hrange
    by (vm_compute; split; [discriminate|reflexivity]).
  split; [exact Hrange|].
  exact (generateDateRange_daily w sample_api_service sample_query Hrange).
Defined.

Lemma generateDateRange_initial_witness :
  let w := connected_world offline_env in
  four_digit_years (clock w)
  ∧ ∃ dateRange,
      generateDateRange true w = (Return dateRange, w)
      ∧ DateRange.from dateRange = "2025-08-01"
      ∧ DateRange.to dateRange = toISODate (clock w)
      ∧ (bad_date_range (Some (DateRange.from dateRange))
                        (Some (DateRange.to dateRange))
         ↔ clock w < 1754006400000).
Proof.
  intros w.
  assert (four_digit_years (clock w)) as Hrange
    by (vm_compute; split; [discriminate|reflexivity]).
  split; [exact Hrange|].
  exact (generateDateRange_initial w Hrange).
Defined.

Lemma runCompleteExtraction_cannot_connect_witness :
  let emprendimientos := [sample_line ["usuario@ejemplo.com"]] in
  let w := disconnected_world (steady_env [sample_oferta 1 "1057-22-COT25"]) in
  isConnected w && client w = false
  ∧ pending_fault w = Some ServerSelectionTimeout
  ∧ ∃ w',
      runCompleteExtraction sample_service emprendimientos false w
      = (Throw (fault_error ServerSelectionTimeout), w')
      ∧ trace w' = trace w ++ [MongoConnect]
      ∧ ofertas_collection w' = ofertas_collection w
      ∧ isConnected w' = isConnected w.
Proof.
  intros emprendimientos w.
  assert (isConnected w && client w = false) as Hinactive by reflexivity.
  assert (pending_fault w = Some ServerSelectionTimeout) as Hdown by reflexivity.
  split; [exact Hinactive|]. split; [exact Hdown|].
  exact (runCompleteExtraction_cannot_connect sample_service emprendimientos
           false w ServerSelectionTimeout Hinactive Hdown).
Defined.
